(** * Multi-tenant authentication, data routing and subscription lifecycle

    A shallow embedding of the server core of the timesheet SaaS:
    - [server/db.ts]      the registry of per-tenant connection pools,
    - [server/storage.ts] the platform store and the per-tenant stores,
    - [server/auth.ts]    the tenant authentication middleware and role gates,
    - [server/routes.ts]  tenant login, tenant creation, record creation and
                          the subscription upgrade / cancel handlers.

    JavaScript runs every synchronous stretch of code to completion, so a
    handler is a function from the state of the world to a response and a new
    state; [throw] is the left summand of the result and leaves the state as
    it was when the exception was raised. *)

From Stdlib Require Import ZArith.
From stdpp Require Import gmap strings list pretty.

Open Scope Z_scope.
Open Scope string_scope.

(** ** JavaScript truthiness of nullable strings *)

(** [s || d] where [s : string | null | undefined]: the empty string, [null]
    and [undefined] are falsy. *)
Definition truthy (s : option string) : bool :=
  match s with
  | Some s' => negb (String.eqb s' "")
  | None => false
  end.

Definition or_else (s : option string) (d : string) : string :=
  match s with
  | Some s' => if String.eqb s' "" then d else s'
  | None => d
  end.

(** [s || undefined] *)
Definition or_undefined (s : option string) : option string :=
  if truthy s then s else None.

(** ** server/db.ts: the connection pool registry *)

Module Db.

(** The options object handed to [new Pool] for a tenant store. *)
Record PoolConfig := {
  connectionString : string;
  max : Z;
  idleTimeoutMillis : Z;
  connectionTimeoutMillis : Z;
  keepAlive : bool
}.

Definition tenantPoolConfig (cs : string) : PoolConfig :=
  {| connectionString := cs;
     max := 5;
     idleTimeoutMillis := 60000;
     connectionTimeoutMillis := 10000;
     keepAlive := true |}.

(** [drizzle(tenantPool, { schema })]: a handle wrapping one pool object.
    Object identity is the index of the pool among all the tenant pools
    the process has constructed. *)
Record Handle := {
  pool_id : nat;
  pool_config : PoolConfig
}.

(** The module state: the map [tenantConnections] and, as a ghost log,
    every tenant pool constructed so far, oldest first. *)
Record Registry := {
  tenantConnections : gmap string Handle;
  constructed : list PoolConfig
}.

Definition empty : Registry :=
  {| tenantConnections := ∅; constructed := [] |}.

(** [getTenantDb(connectionString)]: there is no [await] between the
    [has] test, the [set] and the final [get], so a call is one atomic
    step of the event loop. *)
Definition getTenantDb (cs : string) (reg : Registry) : Handle * Registry :=
  match tenantConnections reg !! cs with
  | Some h => (h, reg)
  | None =>
      let tenantPool := tenantPoolConfig cs in
      let h := {| pool_id := length (constructed reg); pool_config := tenantPool |} in
      (h, {| tenantConnections := <[cs := h]> (tenantConnections reg);
             constructed := constructed reg ++ [tenantPool] |})
  end.

(** Callers in flight at the same time are served in some order: a
    schedule is the list of the addresses requested, in that order. *)
Fixpoint run_calls (calls : list string) (reg : Registry) : list Handle * Registry :=
  match calls with
  | [] => ([], reg)
  | cs :: rest =>
      let '(h, reg1) := getTenantDb cs reg in
      let '(hs, reg2) := run_calls rest reg1 in
      (h :: hs, reg2)
  end.

(** Number of pools constructed for an address. *)
Definition pools_constructed_for (cs : string) (reg : Registry) : nat :=
  length (filter (λ c, connectionString c = cs) (constructed reg)).

(** Entries of the map and constructed pools correspond one to one. *)
Record registry_wf (reg : Registry) : Prop := {
  wf_entry : ∀ cs h, tenantConnections reg !! cs = Some h →
               connectionString (pool_config h) = cs ∧
               constructed reg !! pool_id h = Some (pool_config h);
  wf_pool : ∀ i c, constructed reg !! i = Some c →
               tenantConnections reg !! connectionString c
               = Some {| pool_id := i; pool_config := c |}
}.

End Db.

(** ** shared/schema.ts: the rows of the tables and the insert shapes

    Timestamps are milliseconds since the epoch; [numeric] columns are the
    decimal strings the driver returns; a nullable column is an [option]. *)

Module Tenant.
Record t := mk {
  id : Z;
  name : string;
  subdomain : string;
  dbConnectionString : option string;
  status : string;                      (* active, inactive, suspended *)
  subscriptionPlan : string;            (* free, standard, enterprise *)
  subscriptionStatus : string;
  subscriptionEndsAt : option Z;
  stripeCustomerId : option string;
  stripeSubscriptionId : option string;
  maxUsers : Z;
  createdAt : Z;
  updatedAt : Z
}.
End Tenant.

(** [InsertTenant]: [id], [createdAt] and [updatedAt] are omitted; columns
    with a default or without [notNull] are optional. *)
Module InsertTenant.
Record t := mk {
  name : string;
  subdomain : string;
  dbConnectionString : option string;
  status : option string;
  subscriptionPlan : option string;
  subscriptionStatus : option string;
  subscriptionEndsAt : option Z;
  stripeCustomerId : option string;
  stripeSubscriptionId : option string;
  maxUsers : option Z
}.
End InsertTenant.

Module User.
Record t := mk {
  id : Z;
  email : string;
  password : string;
  firstName : option string;
  lastName : option string;
  employeeId : option string;
  department : option string;
  designation : option string;
  role : string;                        (* user, manager, admin *)
  isActive : bool;
  tenantId : Z;
  createdAt : Z;
  updatedAt : Z
}.
End User.

Module InsertUser.
Record t := mk {
  email : string;
  password : string;
  firstName : option string;
  lastName : option string;
  employeeId : option string;
  department : option string;
  designation : option string;
  role : option string;
  isActive : option bool;
  tenantId : Z
}.
End InsertUser.

Module Customer.
Record t := mk {
  id : Z;
  customerId : string;
  name : string;
  email : string;
  status : string;
  address : option string;
  city : option string;
  state : option string;
  pincode : option string;
  tenantId : Z;
  createdById : Z;
  createdAt : Z;
  updatedAt : Z
}.
End Customer.

Module InsertCustomer.
Record t := mk {
  customerId : string;
  name : string;
  email : string;
  status : option string;
  address : option string;
  city : option string;
  state : option string;
  pincode : option string;
  tenantId : Z;
  createdById : Z
}.
End InsertCustomer.

(** The eight hour columns of a timesheet, Monday to Sunday and the total. *)
Record WeekHours (A : Type) := {
  mondayHours : A;
  tuesdayHours : A;
  wednesdayHours : A;
  thursdayHours : A;
  fridayHours : A;
  saturdayHours : A;
  sundayHours : A;
  totalHours : A
}.
Arguments mondayHours {A}. Arguments tuesdayHours {A}.
Arguments wednesdayHours {A}. Arguments thursdayHours {A}.
Arguments fridayHours {A}. Arguments saturdayHours {A}.
Arguments sundayHours {A}. Arguments totalHours {A}.

Module Timesheet.
Record t := mk {
  id : Z;
  userId : Z;
  projectId : Z;
  taskId : option Z;
  customerId : Z;
  date : Z;
  hours : WeekHours (option string);
  payType : string;
  status : string;
  notes : option string;
  tenantId : Z;
  createdAt : Z;
  updatedAt : Z
}.
End Timesheet.

Module InsertTimesheet.
Record t := mk {
  userId : Z;
  projectId : Z;
  taskId : option Z;
  customerId : Z;
  date : Z;
  hours : WeekHours (option (option string));   (* absent / null / value *)
  payType : option string;
  status : option string;
  notes : option string;
  tenantId : Z
}.
End InsertTimesheet.

Module Expense.
Record t := mk {
  id : Z;
  userId : Z;
  projectId : option Z;
  amount : string;
  currency : string;
  description : option string;
  category : option string;
  date : Z;
  status : string;
  receiptUrl : option string;
  tenantId : Z;
  createdAt : Z;
  updatedAt : Z
}.
End Expense.

Module InsertExpense.
Record t := mk {
  userId : Z;
  projectId : option Z;
  amount : string;
  currency : option string;
  description : option string;
  category : option string;
  date : Z;
  status : option string;
  receiptUrl : option string;
  tenantId : Z
}.
End InsertExpense.

(** A request body as parsed JSON, before a zod schema has looked at it. *)
#[local] Unset Elimination Schemes.
Inductive JsValue :=
| JsNull
| JsBool (b : bool)
| JsNumber (n : Z)
| JsString (s : string)
| JsObject (fields : list (string * JsValue)).
#[local] Set Elimination Schemes.

(** ** The world a handler runs in *)

(** The tables of the platform store the handlers touch. *)
Record PlatformDb := {
  tenants : list Tenant.t;
  tenants_seq : Z                       (* next value of the serial id *)
}.

(** The tables of one tenant store. *)
Record TenantDb := {
  users : list User.t;
  users_seq : Z;
  customers : list Customer.t;
  customers_seq : Z;
  timesheets : list Timesheet.t;
  timesheets_seq : Z;
  expenses : list Expense.t;
  expenses_seq : Z
}.

(** The calls made to the billing provider, with the arguments that vary.
    A subscription is always created in usd with a monthly interval and
    payment behaviour default_incomplete. *)
Inductive StripeCall :=
| CustomersCreate (email name metadata_tenantId metadata_subdomain : string)
| SubscriptionsCreate (customer product_name : string) (unit_amount : Z)
| SubscriptionsCancel (subscriptionId : string).

(** What the provider answers: the id and status of the object, and for a
    subscription the client secret of [latest_invoice.payment_intent]. *)
Record StripeObject := {
  so_id : string;
  so_status : string;
  so_client_secret : option string
}.

Record JsError := { message : string }.

(** The claims of a session token of the tenant domain, as the tenant
    login signs them. *)
Record Claims := {
  claim_userId : Z;
  claim_tenantId : Z;
  claim_role : string;
  claim_type : string
}.

Record World := {
  registry : Db.Registry;               (* tenantConnections of db.ts *)
  platformDb : PlatformDb;              (* the store behind platformDb *)
  databases : gmap string TenantDb;     (* the stores that answer, by address *)
  stripe_log : list StripeCall;         (* calls made to the provider, oldest first *)
  clock : Z                             (* what Date.now() returns *)
}.

Definition set_registry (r : Db.Registry) (w : World) : World :=
  {| registry := r; platformDb := platformDb w; databases := databases w;
     stripe_log := stripe_log w; clock := clock w |}.

Definition set_platformDb (p : PlatformDb) (w : World) : World :=
  {| registry := registry w; platformDb := p; databases := databases w;
     stripe_log := stripe_log w; clock := clock w |}.

Definition set_databases (d : gmap string TenantDb) (w : World) : World :=
  {| registry := registry w; platformDb := platformDb w; databases := d;
     stripe_log := stripe_log w; clock := clock w |}.

Definition set_stripe_log (l : list StripeCall) (w : World) : World :=
  {| registry := registry w; platformDb := platformDb w; databases := databases w;
     stripe_log := l; clock := clock w |}.

Definition set_clock (t : Z) (w : World) : World :=
  {| registry := registry w; platformDb := platformDb w; databases := databases w;
     stripe_log := stripe_log w; clock := t |}.

(** What the process is configured with and the libraries it calls. *)
Record Env := {
  DATABASE_URL : string;                (* process.env.DATABASE_URL, checked non-empty by db.ts *)
  jwt_verify : Z → string → option Claims;        (* jwt.verify at a time; None when it throws *)
  jwt_sign : Claims → string;
  bcrypt_hash : string → string;
  bcrypt_compare : string → string → bool;
  stripe : list StripeCall → StripeCall → JsError + StripeObject;
  generateEmployeeId : TenantDb → string;         (* ./utils/idGenerator *)
  generateCustomerId : TenantDb → string;
  insertTenantSchema_parse : JsValue → option InsertTenant.t;
  insertCustomerSchema_parse : JsValue → option InsertCustomer.t;
  insertTimesheetSchema_parse : JsValue → option InsertTimesheet.t;
  insertExpenseSchema_parse : JsValue → option InsertExpense.t
}.

(** ** Computations: state and exceptions

    [throw] keeps the state reached so far: nothing is rolled back. *)

Definition M (A : Type) : Type := World → (JsError + A) * World.

Definition ret {A} (a : A) : M A := λ w, (inr a, w).

Definition throw {A} (e : JsError) : M A := λ w, (inl e, w).

Definition bind {A B} (m : M A) (k : A → M B) : M B :=
  λ w, match m w with
       | (inr a, w') => k a w'
       | (inl e, w') => (inl e, w')
       end.

Definition try_catch {A} (m : M A) (handler : JsError → M A) : M A :=
  λ w, match m w with
       | (inr a, w') => (inr a, w')
       | (inl e, w') => handler e w'
       end.

Definition get_world : M World := λ w, (inr w, w).

Definition modify (f : World → World) : M unit := λ w, (inr tt, f w).

Notation "'let*' x ':=' m 'in' k" := (bind m (λ x, k))
  (at level 10, x name, m at level 200, k at level 200, only parsing).
Notation "m ';;;' k" := (bind m (λ _, k))
  (at level 100, k at level 200, right associativity, only parsing).

(** [Date.now()] and [new Date()] *)
Definition Date_now : M Z := λ w, (inr (clock w), w).

(** ** server/storage.ts *)

Section storage.
Context (env : Env).

(** *** DatabasePlatformStorage *)

(** [const [tenant] = await platformDb.select()...where(eq(tenants.id, id))] *)
Definition getTenant (id : Z) : M (option Tenant.t) :=
  λ w, (inr (List.find (λ t, Z.eqb (Tenant.id t) id) (tenants (platformDb w))), w).

Definition getTenantBySubdomain (subdomain : string) : M (option Tenant.t) :=
  λ w, (inr (List.find (λ t, String.eqb (Tenant.subdomain t) subdomain)
                       (tenants (platformDb w))), w).

(** The row an insert of [tenantData] produces: the column defaults fill
    what is absent. *)
Definition tenant_row (id now : Z) (tenantData : InsertTenant.t) : Tenant.t :=
  {| Tenant.id := id;
     Tenant.name := InsertTenant.name tenantData;
     Tenant.subdomain := InsertTenant.subdomain tenantData;
     Tenant.dbConnectionString := InsertTenant.dbConnectionString tenantData;
     Tenant.status := default "active" (InsertTenant.status tenantData);
     Tenant.subscriptionPlan := default "free" (InsertTenant.subscriptionPlan tenantData);
     Tenant.subscriptionStatus := default "active" (InsertTenant.subscriptionStatus tenantData);
     Tenant.subscriptionEndsAt := InsertTenant.subscriptionEndsAt tenantData;
     Tenant.stripeCustomerId := InsertTenant.stripeCustomerId tenantData;
     Tenant.stripeSubscriptionId := InsertTenant.stripeSubscriptionId tenantData;
     Tenant.maxUsers := default 10 (InsertTenant.maxUsers tenantData);
     Tenant.createdAt := now;
     Tenant.updatedAt := now |}.

(** [insert(tenants).values(tenantData).returning()]: the primary key and
    the unique subdomain are enforced by the store. *)
Definition createTenant (tenantData : InsertTenant.t) : M Tenant.t :=
  λ w,
    let db := platformDb w in
    let row := tenant_row (tenants_seq db) (clock w) tenantData in
    if existsb (λ t, (Z.eqb (Tenant.id t) (Tenant.id row))
                     || String.eqb (Tenant.subdomain t) (Tenant.subdomain row))
               (tenants db)
    then (inl {| message := "duplicate key value violates unique constraint" |}, w)
    else (inr row,
          set_platformDb {| tenants := tenants db ++ [row];
                            tenants_seq := tenants_seq db + 1 |} w).

(** The argument of [updateTenantSubscription]: the three optional keys
    are absent ([None]), [null] ([Some None]) or a value. *)
Record SubscriptionUpdate := {
  su_subscriptionPlan : string;
  su_subscriptionStatus : string;
  su_stripeCustomerId : option (option string);
  su_stripeSubscriptionId : option (option string);
  su_subscriptionEndsAt : option (option Z)
}.

(** [.set({ ...subscription, updatedAt: new Date() })] on one row: an
    absent key leaves its column alone. *)
Definition apply_subscription (s : SubscriptionUpdate) (now : Z) (t : Tenant.t) : Tenant.t :=
  {| Tenant.id := Tenant.id t;
     Tenant.name := Tenant.name t;
     Tenant.subdomain := Tenant.subdomain t;
     Tenant.dbConnectionString := Tenant.dbConnectionString t;
     Tenant.status := Tenant.status t;
     Tenant.subscriptionPlan := su_subscriptionPlan s;
     Tenant.subscriptionStatus := su_subscriptionStatus s;
     Tenant.subscriptionEndsAt := default (Tenant.subscriptionEndsAt t) (su_subscriptionEndsAt s);
     Tenant.stripeCustomerId := default (Tenant.stripeCustomerId t) (su_stripeCustomerId s);
     Tenant.stripeSubscriptionId :=
       default (Tenant.stripeSubscriptionId t) (su_stripeSubscriptionId s);
     Tenant.maxUsers := Tenant.maxUsers t;
     Tenant.createdAt := Tenant.createdAt t;
     Tenant.updatedAt := now |}.

(** [update(tenants).set(...).where(eq(tenants.id, id)).returning()] *)
Definition updateTenantSubscription (id : Z) (subscription : SubscriptionUpdate)
  : M (option Tenant.t) :=
  λ w,
    let db := platformDb w in
    let rows := map (λ t, if Z.eqb (Tenant.id t) id
                          then apply_subscription subscription (clock w) t else t)
                    (tenants db) in
    (inr (List.find (λ t, Z.eqb (Tenant.id t) id) rows),
     set_platformDb {| tenants := rows; tenants_seq := tenants_seq db |} w).

(** *** DatabaseTenantStorage *)

Record DatabaseTenantStorage := { tenantDb : Db.Handle }.

(** A query through the handle reaches the store at the address of its
    pool, or fails when no store answers there. *)
Definition store_address (s : DatabaseTenantStorage) : string :=
  Db.connectionString (Db.pool_config (tenantDb s)).

Definition query {A} (s : DatabaseTenantStorage) (q : TenantDb → A) : M A :=
  λ w, match databases w !! store_address s with
       | Some db => (inr (q db), w)
       | None => (inl {| message := "connect ECONNREFUSED" |}, w)
       end.

(** An insert, an update or a delete: [q] answers with the new contents
    of the store, or with the error the store raises. *)
Definition execute {A} (s : DatabaseTenantStorage)
    (q : TenantDb → Z → JsError + (A * TenantDb)) : M A :=
  λ w, match databases w !! store_address s with
       | Some db =>
           match q db (clock w) with
           | inr (a, db') =>
               (inr a, set_databases (<[store_address s := db']> (databases w)) w)
           | inl e => (inl e, w)
           end
       | None => (inl {| message := "connect ECONNREFUSED" |}, w)
       end.

Definition getUser (s : DatabaseTenantStorage) (id : Z) : M (option User.t) :=
  query s (λ db, List.find (λ u, Z.eqb (User.id u) id) (users db)).

Definition getUserByEmail (s : DatabaseTenantStorage) (email : string) : M (option User.t) :=
  query s (λ db, List.find (λ u, String.eqb (User.email u) email) (users db)).

Definition unique_violation : JsError :=
  {| message := "duplicate key value violates unique constraint" |}.

Definition set_users (us : list User.t) (seq : Z) (db : TenantDb) : TenantDb :=
  {| users := us; users_seq := seq;
     customers := customers db; customers_seq := customers_seq db;
     timesheets := timesheets db; timesheets_seq := timesheets_seq db;
     expenses := expenses db; expenses_seq := expenses_seq db |}.

Definition set_customers (cs : list Customer.t) (seq : Z) (db : TenantDb) : TenantDb :=
  {| users := users db; users_seq := users_seq db;
     customers := cs; customers_seq := seq;
     timesheets := timesheets db; timesheets_seq := timesheets_seq db;
     expenses := expenses db; expenses_seq := expenses_seq db |}.

Definition set_timesheets (ts : list Timesheet.t) (seq : Z) (db : TenantDb) : TenantDb :=
  {| users := users db; users_seq := users_seq db;
     customers := customers db; customers_seq := customers_seq db;
     timesheets := ts; timesheets_seq := seq;
     expenses := expenses db; expenses_seq := expenses_seq db |}.

Definition set_expenses (es : list Expense.t) (seq : Z) (db : TenantDb) : TenantDb :=
  {| users := users db; users_seq := users_seq db;
     customers := customers db; customers_seq := customers_seq db;
     timesheets := timesheets db; timesheets_seq := timesheets_seq db;
     expenses := es; expenses_seq := seq |}.

(** [createUser]: the employee id is generated when the caller gave
    none; email and employee id are unique in a store. *)
Definition createUser (s : DatabaseTenantStorage) (userData : InsertUser.t) : M User.t :=
  execute s (λ db now,
    let employeeId :=
      or_else (InsertUser.employeeId userData) (generateEmployeeId env db) in
    let row :=
      {| User.id := users_seq db;
         User.email := InsertUser.email userData;
         User.password := InsertUser.password userData;
         User.firstName := InsertUser.firstName userData;
         User.lastName := InsertUser.lastName userData;
         User.employeeId := Some employeeId;
         User.department := InsertUser.department userData;
         User.designation := InsertUser.designation userData;
         User.role := default "user" (InsertUser.role userData);
         User.isActive := default true (InsertUser.isActive userData);
         User.tenantId := InsertUser.tenantId userData;
         User.createdAt := now;
         User.updatedAt := now |} in
    if existsb (λ u, (Z.eqb (User.id u) (User.id row))
                     || String.eqb (User.email u) (User.email row)
                     || bool_decide (User.employeeId u = Some employeeId))
               (users db)
    then inl unique_violation
    else inr (row, set_users (users db ++ [row]) (users_seq db + 1) db)).

(** [createCustomer]: the customer id is generated when the caller gave
    an empty one; it is unique in a store. *)
Definition createCustomer (s : DatabaseTenantStorage) (customerData : InsertCustomer.t)
  : M Customer.t :=
  execute s (λ db now,
    let customerId :=
      or_else (Some (InsertCustomer.customerId customerData)) (generateCustomerId env db) in
    let row :=
      {| Customer.id := customers_seq db;
         Customer.customerId := customerId;
         Customer.name := InsertCustomer.name customerData;
         Customer.email := InsertCustomer.email customerData;
         Customer.status := default "active" (InsertCustomer.status customerData);
         Customer.address := InsertCustomer.address customerData;
         Customer.city := InsertCustomer.city customerData;
         Customer.state := InsertCustomer.state customerData;
         Customer.pincode := InsertCustomer.pincode customerData;
         Customer.tenantId := InsertCustomer.tenantId customerData;
         Customer.createdById := InsertCustomer.createdById customerData;
         Customer.createdAt := now;
         Customer.updatedAt := now |} in
    if existsb (λ c, (Z.eqb (Customer.id c) (Customer.id row))
                     || String.eqb (Customer.customerId c) customerId)
               (customers db)
    then inl unique_violation
    else inr (row, set_customers (customers db ++ [row]) (customers_seq db + 1) db)).

(** An hour column is [numeric(4, 2)] with the default 0, which reads
    back as the string 0.00. *)
Definition hour_default (h : option (option string)) : option string :=
  default (Some "0.00") h.

Definition createTimesheet (s : DatabaseTenantStorage) (timesheetData : InsertTimesheet.t)
  : M Timesheet.t :=
  execute s (λ db now,
    let h := InsertTimesheet.hours timesheetData in
    let row :=
      {| Timesheet.id := timesheets_seq db;
         Timesheet.userId := InsertTimesheet.userId timesheetData;
         Timesheet.projectId := InsertTimesheet.projectId timesheetData;
         Timesheet.taskId := InsertTimesheet.taskId timesheetData;
         Timesheet.customerId := InsertTimesheet.customerId timesheetData;
         Timesheet.date := InsertTimesheet.date timesheetData;
         Timesheet.hours :=
           {| mondayHours := hour_default (mondayHours h);
              tuesdayHours := hour_default (tuesdayHours h);
              wednesdayHours := hour_default (wednesdayHours h);
              thursdayHours := hour_default (thursdayHours h);
              fridayHours := hour_default (fridayHours h);
              saturdayHours := hour_default (saturdayHours h);
              sundayHours := hour_default (sundayHours h);
              totalHours := hour_default (totalHours h) |};
         Timesheet.payType := default "regular" (InsertTimesheet.payType timesheetData);
         Timesheet.status := default "draft" (InsertTimesheet.status timesheetData);
         Timesheet.notes := InsertTimesheet.notes timesheetData;
         Timesheet.tenantId := InsertTimesheet.tenantId timesheetData;
         Timesheet.createdAt := now;
         Timesheet.updatedAt := now |} in
    if existsb (λ t, Z.eqb (Timesheet.id t) (Timesheet.id row)) (timesheets db)
    then inl unique_violation
    else inr (row, set_timesheets (timesheets db ++ [row]) (timesheets_seq db + 1) db)).

Definition createExpense (s : DatabaseTenantStorage) (expenseData : InsertExpense.t)
  : M Expense.t :=
  execute s (λ db now,
    let row :=
      {| Expense.id := expenses_seq db;
         Expense.userId := InsertExpense.userId expenseData;
         Expense.projectId := InsertExpense.projectId expenseData;
         Expense.amount := InsertExpense.amount expenseData;
         Expense.currency := default "USD" (InsertExpense.currency expenseData);
         Expense.description := InsertExpense.description expenseData;
         Expense.category := InsertExpense.category expenseData;
         Expense.date := InsertExpense.date expenseData;
         Expense.status := default "pending" (InsertExpense.status expenseData);
         Expense.receiptUrl := InsertExpense.receiptUrl expenseData;
         Expense.tenantId := InsertExpense.tenantId expenseData;
         Expense.createdAt := now;
         Expense.updatedAt := now |} in
    if existsb (λ e, Z.eqb (Expense.id e) (Expense.id row)) (expenses db)
    then inl unique_violation
    else inr (row, set_expenses (expenses db ++ [row]) (expenses_seq db + 1) db)).

(** [createTenantStorage]: looks the pool up in the registry of db.ts,
    constructing it on first use. *)
Definition createTenantStorage (connectionString : string) : M DatabaseTenantStorage :=
  λ w,
    let '(tenantDb, reg) := Db.getTenantDb connectionString (registry w) in
    (inr {| tenantDb := tenantDb |}, set_registry reg w).

End storage.

(** ** Requests and responses *)

(** [req.tenant], attached by the tenant authentication. *)
Record TenantCtx := {
  ctx_id : Z;
  ctx_subdomain : string;
  ctx_connectionString : string
}.

(** The parts of an express request the handlers read; [B] is the shape
    of the body a route expects. *)
Record Request (B : Type) := {
  params_subdomain : string;
  headers_authorization : option string;
  cookies_tenantToken : option string;
  req_body : B;
  req_user : option User.t;
  req_tenant : option TenantCtx
}.
Arguments params_subdomain {B}.
Arguments headers_authorization {B}.
Arguments cookies_tenantToken {B}.
Arguments req_body {B}.
Arguments req_user {B}.
Arguments req_tenant {B}.

(** The JSON bodies the handlers send. *)
Inductive ResBody :=
| Message (message : string)                     (* { message } *)
| Success (message : string)                     (* { success: true, message } *)
| LoginOk (user : User.t) (tenant : Tenant.t) (token : string)
    (* { user: {id, email, firstName, lastName, role, tenantId},
         tenant: {id, name, subdomain}, token } of these rows *)
| TenantJson (tenant : Tenant.t)
| UserJson (user : User.t)                       (* the row without its password *)
| CustomerJson (customer : Customer.t)
| TimesheetJson (timesheet : Timesheet.t)
| ExpenseJson (expense : Expense.t)
| UpgradeOk (subscriptionId : string) (clientSecret : option string) (status : string).

Record Response := {
  res_status : Z;
  res_json : ResBody;
  res_cookie : option (string * string)
}.

(** [res.status(code).json(body)] *)
Definition json (code : Z) (b : ResBody) : Response :=
  {| res_status := code; res_json := b; res_cookie := None |}.

(** A middleware either calls [next()] with the request it has decorated
    or answers itself. *)
Inductive Outcome (B : Type) :=
| Next (req : Request B)
| Respond (res : Response).
Arguments Next {B}.
Arguments Respond {B}.

(** ** server/auth.ts *)

Section auth.
Context (env : Env).

Definition hashPassword (password : string) : string := bcrypt_hash env password.

Definition comparePasswords (password hashedPassword : string) : bool :=
  bcrypt_compare env password hashedPassword.

Definition generateToken (payload : Claims) : string := jwt_sign env payload.

(** [jwt.verify] throws on a token that is malformed, badly signed or
    expired. *)
Definition verifyToken (token : string) : M Claims :=
  λ w, match jwt_verify env (clock w) token with
       | Some decoded => (inr decoded, w)
       | None => (inl {| message := "invalid token" |}, w)
       end.

(** [authHeader && authHeader.startsWith('Bearer ')
      ? authHeader.substring(7) : req.cookies?.tenantToken] *)
Definition bearer_or_cookie (authHeader cookie : option string) : option string :=
  match authHeader with
  | Some a =>
      if String.prefix "Bearer " a
      then Some (String.substring 7 (String.length a - 7) a)
      else cookie
  | None => cookie
  end.

Definition authenticateTenantUser {B} (req : Request B) : M (Outcome B) :=
  try_catch
    (let authHeader := headers_authorization req in
     let token := bearer_or_cookie authHeader (cookies_tenantToken req) in
     if negb (truthy token)
     then ret (Respond (json 401 (Message "Access token required")))
     else
       let* decoded := verifyToken (default "" token) in
       (* Get tenant information *)
       let* tenant := getTenant (claim_tenantId decoded) in
       match tenant with
       | None => ret (Respond (json 401 (Message "Invalid or inactive tenant")))
       | Some tenant =>
           if negb (String.eqb (Tenant.status tenant) "active")
           then ret (Respond (json 401 (Message "Invalid or inactive tenant")))
           else
             (* Get tenant storage and user *)
             let* tenantStorage :=
               createTenantStorage
                 (or_else (Tenant.dbConnectionString tenant) (DATABASE_URL env)) in
             let* user := getUser tenantStorage (claim_userId decoded) in
             match user with
             | None => ret (Respond (json 401 (Message "Invalid or inactive user")))
             | Some user =>
                 if negb (User.isActive user)
                    || negb (Z.eqb (User.tenantId user) (Tenant.id tenant))
                 then ret (Respond (json 401 (Message "Invalid or inactive user")))
                 else
                   ret (Next
                     {| params_subdomain := params_subdomain req;
                        headers_authorization := headers_authorization req;
                        cookies_tenantToken := cookies_tenantToken req;
                        req_body := req_body req;
                        req_user := Some user;
                        req_tenant := Some
                          {| ctx_id := Tenant.id tenant;
                             ctx_subdomain := Tenant.subdomain tenant;
                             ctx_connectionString :=
                               or_else (Tenant.dbConnectionString tenant)
                                       (DATABASE_URL env) |} |})
             end
       end)
    (λ _, ret (Respond (json 401 (Message "Invalid token")))).

(** Tenant roles: admin, manager, user *)
Definition requireTenantRole {B} (roles : list string) (req : Request B) : Outcome B :=
  match req_user req with
  | None => Respond (json 403 (Message "Insufficient permissions"))
  | Some user =>
      if bool_decide (User.role user ∈ roles)
      then Next req
      else Respond (json 403 (Message "Insufficient permissions"))
  end.

(** Tenant admin only *)
Definition requireTenantAdmin {B} : Request B → Outcome B :=
  requireTenantRole ["admin"].

(** Tenant manager or admin *)
Definition requireTenantManager {B} : Request B → Outcome B :=
  requireTenantRole ["admin"; "manager"].

(** Any authenticated tenant user *)
Definition requireTenantUser {B} : Request B → Outcome B :=
  requireTenantRole ["admin"; "manager"; "user"].

(** [app.post(path, m1, m2, handler)]: the handler runs when every
    middleware before it has called [next()]. *)
Definition then_gate {B} (m : M (Outcome B)) (gate : Request B → Outcome B)
  : M (Outcome B) :=
  let* o := m in
  match o with
  | Next req => ret (gate req)
  | Respond res => ret (Respond res)
  end.

Definition then_handle {B} (m : M (Outcome B)) (handler : Request B → M Response)
  : M Response :=
  let* o := m in
  match o with
  | Next req => handler req
  | Respond res => ret res
  end.

End auth.

(** ** server/routes.ts *)

(** [const { email, password } = req.body] of the login route. *)
Record LoginBody := {
  lb_email : option string;
  lb_password : option string
}.

(** The body of the user creation route, as the employee form sends it. *)
Record UserBody := {
  ub_email : string;
  ub_password : string;
  ub_firstName : option string;
  ub_lastName : option string;
  ub_employeeId : option string;
  ub_department : option string;
  ub_designation : option string;
  ub_role : option string
}.

(** [const { plan } = req.body]; [None] when the key is absent. *)
Record UpgradeBody := { plan : option string }.

(** [c.toUpperCase()] on the letters a to z. *)
Definition toUpperCase (c : Ascii.ascii) : Ascii.ascii :=
  let n := Ascii.nat_of_ascii c in
  if (97 <=? n)%nat && (n <=? 122)%nat then Ascii.ascii_of_nat (n - 32) else c.

(** [plan.charAt(0).toUpperCase() + plan.slice(1)] *)
Definition capitalize (s : string) : string :=
  match s with
  | EmptyString => EmptyString
  | String c rest => String (toUpperCase c) rest
  end.

Definition thirty_days : Z := 30 * 24 * 60 * 60 * 1000.

Section routes.
Context (env : Env).

Definition internal_error : Response := json 500 (Message "Internal server error").

(** [req.tenant!] and [req.user!]: reading a property of [undefined]
    throws. *)
Definition the_tenant {B} (req : Request B) : M TenantCtx :=
  match req_tenant req with
  | Some t => ret t
  | None => throw {| message := "Cannot read properties of undefined" |}
  end.

Definition the_user {B} (req : Request B) : M User.t :=
  match req_user req with
  | Some u => ret u
  | None => throw {| message := "Cannot read properties of undefined" |}
  end.

(** [schema.parse(req.body)] throws a ZodError on a body it rejects. *)
Definition parse {A} (schema : JsValue → option A) (body : JsValue) : M A :=
  match schema body with
  | Some validatedData => ret validatedData
  | None => throw {| message := "ZodError" |}
  end.

(** One call to the billing provider; the attempt is recorded whether
    it succeeds or not. *)
Definition stripe_call (c : StripeCall) : M StripeObject :=
  λ w, (stripe env (stripe_log w) c, set_stripe_log (stripe_log w ++ [c]) w).

(** *** POST /api/tenant/:subdomain/auth/login *)
Definition tenant_login (req : Request LoginBody) : M Response :=
  try_catch
    (let subdomain := params_subdomain req in
     let email := lb_email (req_body req) in
     let password := lb_password (req_body req) in
     if negb (truthy email) || negb (truthy password)
     then ret (json 400 (Message "Email and password required"))
     else
       (* Get tenant *)
       let* tenant := getTenantBySubdomain subdomain in
       match tenant with
       | None => ret (json 404 (Message "Tenant not found or inactive"))
       | Some tenant =>
           if negb (String.eqb (Tenant.status tenant) "active")
           then ret (json 404 (Message "Tenant not found or inactive"))
           else
             (* Get tenant storage and user *)
             let* tenantStorage :=
               createTenantStorage
                 (or_else (Tenant.dbConnectionString tenant) (DATABASE_URL env)) in
             let* user := getUserByEmail tenantStorage (default "" email) in
             match user with
             | None => ret (json 401 (Message "Invalid credentials"))
             | Some user =>
                 if negb (Z.eqb (User.tenantId user) (Tenant.id tenant))
                 then ret (json 401 (Message "Invalid credentials"))
                 else if negb (comparePasswords env (default "" password) (User.password user))
                 then ret (json 401 (Message "Invalid credentials"))
                 else if negb (User.isActive user)
                 then ret (json 401 (Message "Account is disabled"))
                 else
                   let token :=
                     generateToken env
                       {| claim_userId := User.id user;
                          claim_tenantId := Tenant.id tenant;
                          claim_role := User.role user;
                          claim_type := "tenant" |} in
                   ret {| res_status := 200;
                          res_json := LoginOk user tenant token;
                          res_cookie := Some ("tenantToken", token) |}
             end
       end)
    (λ _, ret internal_error).

(** *** POST /api/platform/tenants
    (the handler, behind authenticatePlatformUser and requirePlatformAdmin) *)
Definition with_dbConnectionString (cs : string) (d : InsertTenant.t) : InsertTenant.t :=
  {| InsertTenant.name := InsertTenant.name d;
     InsertTenant.subdomain := InsertTenant.subdomain d;
     InsertTenant.dbConnectionString := Some cs;
     InsertTenant.status := InsertTenant.status d;
     InsertTenant.subscriptionPlan := InsertTenant.subscriptionPlan d;
     InsertTenant.subscriptionStatus := InsertTenant.subscriptionStatus d;
     InsertTenant.subscriptionEndsAt := InsertTenant.subscriptionEndsAt d;
     InsertTenant.stripeCustomerId := InsertTenant.stripeCustomerId d;
     InsertTenant.stripeSubscriptionId := InsertTenant.stripeSubscriptionId d;
     InsertTenant.maxUsers := InsertTenant.maxUsers d |}.

Definition platform_create_tenant (req : Request JsValue) : M Response :=
  try_catch
    (let* validatedData := parse (insertTenantSchema_parse env) (req_body req) in
     (* Check if subdomain already exists *)
     let* existingTenant := getTenantBySubdomain (InsertTenant.subdomain validatedData) in
     match existingTenant with
     | Some _ => ret (json 400 (Message "Subdomain already exists"))
     | None =>
         let* tenant :=
           createTenant
             (with_dbConnectionString
                (or_else (InsertTenant.dbConnectionString validatedData) (DATABASE_URL env))
                validatedData) in
         ret (json 201 (TenantJson tenant))
     end)
    (λ _, ret internal_error).

(** *** POST /api/tenant/:subdomain/users *)
Definition create_user (req : Request UserBody) : M Response :=
  try_catch
    (let b := req_body req in
     let* tenant := the_tenant req in
     let* tenantStorage := createTenantStorage (ctx_connectionString tenant) in
     (* Check if user already exists *)
     let* existingUser := getUserByEmail tenantStorage (ub_email b) in
     match existingUser with
     | Some _ => ret (json 400 (Message "User already exists"))
     | None =>
         (* Hash password *)
         let hashedPassword := hashPassword env (ub_password b) in
         let* user :=
           createUser env tenantStorage
             {| InsertUser.email := ub_email b;
                InsertUser.password := hashedPassword;
                InsertUser.firstName := ub_firstName b;
                InsertUser.lastName := ub_lastName b;
                InsertUser.employeeId := or_undefined (ub_employeeId b);
                InsertUser.department := or_undefined (ub_department b);
                InsertUser.designation := or_undefined (ub_designation b);
                InsertUser.role := Some (or_else (ub_role b) "user");
                InsertUser.isActive := Some true;
                InsertUser.tenantId := ctx_id tenant |} in
         ret (json 201 (UserJson user))
     end)
    (λ _, ret internal_error).

(** *** POST /api/tenant/:subdomain/customers *)
Definition customer_for (tenantId createdById : Z) (d : InsertCustomer.t) : InsertCustomer.t :=
  {| InsertCustomer.customerId := InsertCustomer.customerId d;
     InsertCustomer.name := InsertCustomer.name d;
     InsertCustomer.email := InsertCustomer.email d;
     InsertCustomer.status := InsertCustomer.status d;
     InsertCustomer.address := InsertCustomer.address d;
     InsertCustomer.city := InsertCustomer.city d;
     InsertCustomer.state := InsertCustomer.state d;
     InsertCustomer.pincode := InsertCustomer.pincode d;
     InsertCustomer.tenantId := tenantId;
     InsertCustomer.createdById := createdById |}.

Definition create_customer (req : Request JsValue) : M Response :=
  try_catch
    (let* validatedData := parse (insertCustomerSchema_parse env) (req_body req) in
     let* tenant := the_tenant req in
     let* tenantStorage := createTenantStorage (ctx_connectionString tenant) in
     let* user := the_user req in
     let* customer :=
       createCustomer env tenantStorage
         (customer_for (ctx_id tenant) (User.id user) validatedData) in
     ret (json 201 (CustomerJson customer)))
    (λ _, ret internal_error).

(** *** POST /api/tenant/:subdomain/timesheets *)
Definition timesheet_for (userId tenantId : Z) (d : InsertTimesheet.t) : InsertTimesheet.t :=
  {| InsertTimesheet.userId := userId;
     InsertTimesheet.projectId := InsertTimesheet.projectId d;
     InsertTimesheet.taskId := InsertTimesheet.taskId d;
     InsertTimesheet.customerId := InsertTimesheet.customerId d;
     InsertTimesheet.date := InsertTimesheet.date d;
     InsertTimesheet.hours := InsertTimesheet.hours d;
     InsertTimesheet.payType := InsertTimesheet.payType d;
     InsertTimesheet.status := InsertTimesheet.status d;
     InsertTimesheet.notes := InsertTimesheet.notes d;
     InsertTimesheet.tenantId := tenantId |}.

Definition create_timesheet (req : Request JsValue) : M Response :=
  try_catch
    (let* validatedData := parse (insertTimesheetSchema_parse env) (req_body req) in
     let* tenant := the_tenant req in
     let* tenantStorage := createTenantStorage (ctx_connectionString tenant) in
     let* user := the_user req in
     let* timesheet :=
       createTimesheet tenantStorage
         (timesheet_for (User.id user) (ctx_id tenant) validatedData) in
     ret (json 201 (TimesheetJson timesheet)))
    (λ _, ret internal_error).

(** *** POST /api/tenant/:subdomain/expenses *)
Definition expense_for (userId tenantId : Z) (d : InsertExpense.t) : InsertExpense.t :=
  {| InsertExpense.userId := userId;
     InsertExpense.projectId := InsertExpense.projectId d;
     InsertExpense.amount := InsertExpense.amount d;
     InsertExpense.currency := InsertExpense.currency d;
     InsertExpense.description := InsertExpense.description d;
     InsertExpense.category := InsertExpense.category d;
     InsertExpense.date := InsertExpense.date d;
     InsertExpense.status := InsertExpense.status d;
     InsertExpense.receiptUrl := InsertExpense.receiptUrl d;
     InsertExpense.tenantId := tenantId |}.

Definition create_expense (req : Request JsValue) : M Response :=
  try_catch
    (let* validatedData := parse (insertExpenseSchema_parse env) (req_body req) in
     let* tenant := the_tenant req in
     let* tenantStorage := createTenantStorage (ctx_connectionString tenant) in
     let* user := the_user req in
     let* expense :=
       createExpense tenantStorage
         (expense_for (User.id user) (ctx_id tenant) validatedData) in
     ret (json 201 (ExpenseJson expense)))
    (λ _, ret internal_error).

(** *** POST /api/tenant/:subdomain/subscription/upgrade *)
Definition upgrade (req : Request UpgradeBody) : M Response :=
  try_catch
    (let subdomain := params_subdomain req in
     let plan := plan (req_body req) in
     let* tenant := getTenantBySubdomain subdomain in
     match tenant with
     | None => ret (json 404 (Message "Tenant not found"))
     | Some tenant =>
         (* If downgrading to free, no Stripe needed *)
         if bool_decide (plan = Some "free")
         then
           (* Cancel existing subscription if any *)
           (if truthy (Tenant.stripeSubscriptionId tenant)
            then let* _ := stripe_call (SubscriptionsCancel
                              (default "" (Tenant.stripeSubscriptionId tenant))) in
                 ret tt
            else ret tt) ;;;
           (* Update tenant to free plan *)
           updateTenantSubscription (Tenant.id tenant)
             {| su_subscriptionPlan := "free";
                su_subscriptionStatus := "active";
                su_stripeCustomerId := None;
                su_stripeSubscriptionId := Some None;
                su_subscriptionEndsAt := Some None |} ;;;
           ret (json 200 (Success "Downgraded to free plan"))
         else
           (* For paid plans, create Stripe customer if not exists *)
           let* customerId :=
             if negb (truthy (Tenant.stripeCustomerId tenant))
             then
               let* customer :=
                 stripe_call (CustomersCreate
                   (or_else (User.email <$> req_user req) "")
                   (or_else (req_user req ≫= User.firstName) "" ++ " "
                    ++ or_else (req_user req ≫= User.lastName) "")
                   (pretty (Tenant.id tenant))
                   subdomain) in
               ret (so_id customer)
             else ret (default "" (Tenant.stripeCustomerId tenant)) in
           (* Create subscription *)
           let priceAmount := if bool_decide (plan = Some "enterprise") then 500 else 1500 in
           let* product_name :=
             match plan with
             | Some p => ret (capitalize p ++ " Plan")
             | None => throw {| message :=
                 "Cannot read properties of undefined (reading 'charAt')" |}
             end in
           let* subscription :=
             stripe_call (SubscriptionsCreate customerId product_name priceAmount) in
           (* Update tenant with Stripe info *)
           let* now := Date_now in
           updateTenantSubscription (Tenant.id tenant)
             {| su_subscriptionPlan := default "" plan;
                su_subscriptionStatus := "active";
                su_stripeCustomerId := Some (Some customerId);
                su_stripeSubscriptionId := Some (Some (so_id subscription));
                su_subscriptionEndsAt := Some (Some (now + thirty_days)) |} ;;;
           ret (json 200 (UpgradeOk (so_id subscription)
                                    (so_client_secret subscription)
                                    (so_status subscription)))
     end)
    (λ error,
       ret (json 500 (Message (or_else (Some (message error))
                                       "Failed to upgrade subscription")))).

(** *** POST /api/tenant/:subdomain/subscription/cancel *)
Definition cancel (req : Request unit) : M Response :=
  try_catch
    (let subdomain := params_subdomain req in
     let* tenant := getTenantBySubdomain subdomain in
     match tenant with
     | None => ret (json 404 (Message "Tenant not found"))
     | Some tenant =>
         (* Cancel Stripe subscription *)
         (if truthy (Tenant.stripeSubscriptionId tenant)
          then let* _ := stripe_call (SubscriptionsCancel
                            (default "" (Tenant.stripeSubscriptionId tenant))) in
               ret tt
          else ret tt) ;;;
         (* Update tenant to free plan *)
         updateTenantSubscription (Tenant.id tenant)
           {| su_subscriptionPlan := "free";
              su_subscriptionStatus := "cancelled";
              su_stripeCustomerId := None;
              su_stripeSubscriptionId := Some None;
              su_subscriptionEndsAt := Some None |} ;;;
         ret (json 200 (Success "Subscription cancelled successfully"))
     end)
    (λ error,
       ret (json 500 (Message (or_else (Some (message error))
                                       "Failed to cancel subscription")))).

(** The routes as registered: the middlewares, then the handler. *)
Definition route_upgrade (req : Request UpgradeBody) : M Response :=
  then_handle (authenticateTenantUser env req) upgrade.

Definition route_cancel (req : Request unit) : M Response :=
  then_handle (authenticateTenantUser env req) cancel.

Definition route_create_user (req : Request UserBody) : M Response :=
  then_handle (then_gate (authenticateTenantUser env req) requireTenantManager)
              create_user.

Definition route_create_customer (req : Request JsValue) : M Response :=
  then_handle (then_gate (authenticateTenantUser env req) requireTenantUser)
              create_customer.

Definition route_create_timesheet (req : Request JsValue) : M Response :=
  then_handle (then_gate (authenticateTenantUser env req) requireTenantUser)
              create_timesheet.

Definition route_create_expense (req : Request JsValue) : M Response :=
  then_handle (then_gate (authenticateTenantUser env req) requireTenantUser)
              create_expense.

End routes.

(** ** server/storage.ts: the reads and deletes of a tenant store *)

Definition getUsersByTenant (s : DatabaseTenantStorage) (tenantId : Z) : M (list User.t) :=
  query s (λ db, filter (λ u, User.tenantId u = tenantId) (users db)).

(** [delete(users).where(eq(users.id, id))] *)
Definition deleteUser (s : DatabaseTenantStorage) (id : Z) : M unit :=
  execute s (λ db _,
    inr (tt, set_users (filter (λ u, User.id u ≠ id) (users db)) (users_seq db) db)).

Definition getCustomersByTenant (s : DatabaseTenantStorage) (tenantId : Z)
  : M (list Customer.t) :=
  query s (λ db, filter (λ c, Customer.tenantId c = tenantId) (customers db)).

Definition getTimesheetsByUser (s : DatabaseTenantStorage) (userId : Z)
  : M (list Timesheet.t) :=
  query s (λ db, filter (λ t, Timesheet.userId t = userId) (timesheets db)).

Definition getExpensesByUser (s : DatabaseTenantStorage) (userId : Z) : M (list Expense.t) :=
  query s (λ db, filter (λ e, Expense.userId e = userId) (expenses db)).

(** ** server/routes.ts: the listing routes *)

(** What a reading handler sends: [res.json(rows)], or an error answer. *)
Inductive Sent (A : Type) :=
| Rows (status : Z) (rows : A)
| Refused (res : Response).
Arguments Rows {A}.
Arguments Refused {A}.

(** *** GET /api/tenant/:subdomain/customers *)
Definition get_customers {B} (req : Request B) : M (Sent (list Customer.t)) :=
  try_catch
    (let* tenant := the_tenant req in
     let* tenantStorage := createTenantStorage (ctx_connectionString tenant) in
     let* customers := getCustomersByTenant tenantStorage (ctx_id tenant) in
     ret (Rows 200 customers))
    (λ _, ret (Refused internal_error)).

(** *** GET /api/tenant/:subdomain/timesheets *)
Definition get_timesheets {B} (req : Request B) : M (Sent (list Timesheet.t)) :=
  try_catch
    (let* tenant := the_tenant req in
     let* tenantStorage := createTenantStorage (ctx_connectionString tenant) in
     let* user := the_user req in
     let* timesheets := getTimesheetsByUser tenantStorage (User.id user) in
     ret (Rows 200 timesheets))
    (λ _, ret (Refused internal_error)).

(** *** GET /api/tenant/:subdomain/expenses *)
Definition get_expenses {B} (req : Request B) : M (Sent (list Expense.t)) :=
  try_catch
    (let* tenant := the_tenant req in
     let* tenantStorage := createTenantStorage (ctx_connectionString tenant) in
     let* user := the_user req in
     let* expenses := getExpensesByUser tenantStorage (User.id user) in
     ret (Rows 200 expenses))
    (λ _, ret (Refused internal_error)).

(** *** GET /api/tenant/:subdomain/users *)

(** The object the listing builds for a user: ten fields of the row. *)
Record SafeUser := {
  su_id : Z;
  su_email : string;
  su_firstName : option string;
  su_lastName : option string;
  su_employeeId : option string;
  su_department : option string;
  su_designation : option string;
  su_role : string;
  su_isActive : bool;
  su_createdAt : Z
}.

Definition safeUser (user : User.t) : SafeUser :=
  {| su_id := User.id user;
     su_email := User.email user;
     su_firstName := User.firstName user;
     su_lastName := User.lastName user;
     su_employeeId := User.employeeId user;
     su_department := User.department user;
     su_designation := User.designation user;
     su_role := User.role user;
     su_isActive := User.isActive user;
     su_createdAt := User.createdAt user |}.

Definition get_users {B} (req : Request B) : M (Sent (list SafeUser)) :=
  try_catch
    (let* tenant := the_tenant req in
     let* tenantStorage := createTenantStorage (ctx_connectionString tenant) in
     let* users := getUsersByTenant tenantStorage (ctx_id tenant) in
     (* Remove passwords from response *)
     let safeUsers := safeUser <$> users in
     ret (Rows 200 safeUsers))
    (λ _, ret (Refused internal_error)).

(** *** GET /api/tenant/:subdomain/subscription *)
Record SubscriptionData := {
  sd_plan : string;
  sd_status : string;
  sd_stripeCustomerId : option string;
  sd_stripeSubscriptionId : option string;
  sd_nextBilling : option Z
}.

Definition subscriptionData (tenant : Tenant.t) : SubscriptionData :=
  {| sd_plan := Tenant.subscriptionPlan tenant;
     sd_status := Tenant.subscriptionStatus tenant;
     sd_stripeCustomerId := Tenant.stripeCustomerId tenant;
     sd_stripeSubscriptionId := Tenant.stripeSubscriptionId tenant;
     sd_nextBilling := Tenant.subscriptionEndsAt tenant |}.

Definition get_subscription {B} (req : Request B) : M (Sent SubscriptionData) :=
  try_catch
    (let subdomain := params_subdomain req in
     let* tenant := getTenantBySubdomain subdomain in
     match tenant with
     | None => ret (Refused (json 404 (Message "Tenant not found")))
     | Some tenant => ret (Rows 200 (subscriptionData tenant))
     end)
    (λ _, ret (Refused (json 500 (Message "Failed to fetch subscription data")))).

Definition then_send {B A} (m : M (Outcome B)) (handler : Request B → M (Sent A))
  : M (Sent A) :=
  let* o := m in
  match o with
  | Next req => handler req
  | Respond res => ret (Refused res)
  end.

Definition route_get_customers (env : Env) {B} (req : Request B)
  : M (Sent (list Customer.t)) :=
  then_send (then_gate (authenticateTenantUser env req) requireTenantUser) get_customers.

Definition route_get_timesheets (env : Env) {B} (req : Request B)
  : M (Sent (list Timesheet.t)) :=
  then_send (then_gate (authenticateTenantUser env req) requireTenantUser) get_timesheets.

Definition route_get_expenses (env : Env) {B} (req : Request B)
  : M (Sent (list Expense.t)) :=
  then_send (then_gate (authenticateTenantUser env req) requireTenantUser) get_expenses.

Definition route_get_subscription (env : Env) {B} (req : Request B)
  : M (Sent SubscriptionData) :=
  then_send (authenticateTenantUser env req) get_subscription.

(** ** server/auth.ts: the platform domain *)

Module PlatformUser.
Record t := mk {
  id : Z;
  email : string;
  password : string;
  firstName : option string;
  lastName : option string;
  role : string;                          (* super_admin, product_owner *)
  isActive : bool;
  createdAt : Z;
  updatedAt : Z
}.
End PlatformUser.

(** The parts of a platform request the middleware reads and writes. *)
Record PlatformRequest := {
  p_authorization : option string;        (* req.headers.authorization *)
  p_platformToken : option string;        (* req.cookies?.platformToken *)
  p_user : option PlatformUser.t          (* req.user *)
}.

Inductive PlatformOutcome :=
| PlatformNext (req : PlatformRequest)
| PlatformRespond (res : Response).

(** [platformStorage.getPlatformUser(id)] over the rows of platform_users,
    which the middleware only reads. *)
Definition getPlatformUser (platformUsers : list PlatformUser.t) (id : Z)
  : M (option PlatformUser.t) :=
  ret (List.find (λ u, Z.eqb (PlatformUser.id u) id) platformUsers).

Definition authenticatePlatformUser (env : Env) (platformUsers : list PlatformUser.t)
    (req : PlatformRequest) : M PlatformOutcome :=
  try_catch
    (let authHeader := p_authorization req in
     let token := bearer_or_cookie authHeader (p_platformToken req) in
     if negb (truthy token)
     then ret (PlatformRespond (json 401 (Message "Access token required")))
     else
       let* decoded := verifyToken env (default "" token) in
       let* user := getPlatformUser platformUsers (claim_userId decoded) in
       match user with
       | None => ret (PlatformRespond (json 401 (Message "Invalid or inactive user")))
       | Some user =>
           if negb (PlatformUser.isActive user)
           then ret (PlatformRespond (json 401 (Message "Invalid or inactive user")))
           else ret (PlatformNext {| p_authorization := p_authorization req;
                                     p_platformToken := p_platformToken req;
                                     p_user := Some user |})
       end)
    (λ _, ret (PlatformRespond (json 401 (Message "Invalid token")))).

(** Platform roles: super_admin, product_owner *)
Definition requirePlatformRole (roles : list string) (req : PlatformRequest)
  : PlatformOutcome :=
  match p_user req with
  | None => PlatformRespond (json 403 (Message "Insufficient permissions"))
  | Some user =>
      if bool_decide (PlatformUser.role user ∈ roles)
      then PlatformNext req
      else PlatformRespond (json 403 (Message "Insufficient permissions"))
  end.

(** Super admin only (platform level) *)
Definition requireSuperAdmin : PlatformRequest → PlatformOutcome :=
  requirePlatformRole ["super_admin"].

(** Product owner or super admin (platform level) *)
Definition requirePlatformAdmin : PlatformRequest → PlatformOutcome :=
  requirePlatformRole ["super_admin"; "product_owner"].

(** ** A small deployment, used to run the handlers on concrete requests *)

Module Demo.

(** Object field access on a parsed body. *)
Definition field (k : string) (v : JsValue) : option JsValue :=
  match v with
  | JsObject fields => snd <$> List.find (λ kv, String.eqb (fst kv) k) fields
  | _ => None
  end.

Definition str (k : string) (v : JsValue) : option string :=
  match field k v with Some (JsString s) => Some s | _ => None end.

Definition num (k : string) (v : JsValue) : option Z :=
  match field k v with Some (JsNumber n) => Some n | _ => None end.

Definition no_hours : WeekHours (option (option string)) :=
  {| mondayHours := None; tuesdayHours := None; wednesdayHours := None;
     thursdayHours := None; fridayHours := None; saturdayHours := None;
     sundayHours := None; totalHours := None |}.

(** A [timestamp] column is a [z.date()] in the insert schema: it takes
    a Date object, and no value of a parsed JSON body is one. *)
Definition date (k : string) (v : JsValue) : option Z :=
  match field k v with
  | Some (JsNull | JsBool _ | JsNumber _ | JsString _ | JsObject _) => None
  | None => None
  end.

(** Parsers that require the [notNull] columns without a default and
    keep what the body says, its tenantId and userId included. The date
    of a timesheet and of an expense is such a column, so these two
    schemas refuse every JSON body. *)
Definition parse_tenant (v : JsValue) : option InsertTenant.t :=
  n ← str "name" v; s ← str "subdomain" v;
  Some {| InsertTenant.name := n; InsertTenant.subdomain := s;
          InsertTenant.dbConnectionString := str "dbConnectionString" v;
          InsertTenant.status := str "status" v;
          InsertTenant.subscriptionPlan := str "subscriptionPlan" v;
          InsertTenant.subscriptionStatus := str "subscriptionStatus" v;
          InsertTenant.subscriptionEndsAt := None;
          InsertTenant.stripeCustomerId := None;
          InsertTenant.stripeSubscriptionId := None;
          InsertTenant.maxUsers := num "maxUsers" v |}.

Definition parse_customer (v : JsValue) : option InsertCustomer.t :=
  c ← str "customerId" v; n ← str "name" v; e ← str "email" v;
  t ← num "tenantId" v; u ← num "createdById" v;
  Some {| InsertCustomer.customerId := c; InsertCustomer.name := n;
          InsertCustomer.email := e; InsertCustomer.status := str "status" v;
          InsertCustomer.address := str "address" v; InsertCustomer.city := str "city" v;
          InsertCustomer.state := str "state" v; InsertCustomer.pincode := str "pincode" v;
          InsertCustomer.tenantId := t; InsertCustomer.createdById := u |}.

Definition parse_timesheet (v : JsValue) : option InsertTimesheet.t :=
  u ← num "userId" v; p ← num "projectId" v; c ← num "customerId" v;
  d ← date "date" v; t ← num "tenantId" v;
  Some {| InsertTimesheet.userId := u; InsertTimesheet.projectId := p;
          InsertTimesheet.taskId := num "taskId" v; InsertTimesheet.customerId := c;
          InsertTimesheet.date := d; InsertTimesheet.hours := no_hours;
          InsertTimesheet.payType := str "payType" v;
          InsertTimesheet.status := str "status" v;
          InsertTimesheet.notes := str "notes" v; InsertTimesheet.tenantId := t |}.

Definition parse_expense (v : JsValue) : option InsertExpense.t :=
  u ← num "userId" v; a ← str "amount" v; d ← date "date" v; t ← num "tenantId" v;
  Some {| InsertExpense.userId := u; InsertExpense.projectId := num "projectId" v;
          InsertExpense.amount := a; InsertExpense.currency := str "currency" v;
          InsertExpense.description := str "description" v;
          InsertExpense.category := str "category" v; InsertExpense.date := d;
          InsertExpense.status := str "status" v;
          InsertExpense.receiptUrl := str "receiptUrl" v; InsertExpense.tenantId := t |}.

Definition alice_claims : Claims :=
  {| claim_userId := 1; claim_tenantId := 5; claim_role := "admin"; claim_type := "tenant" |}.

(** A billing stub that answers every call. *)
Definition stripe_ok (log : list StripeCall) (c : StripeCall) : JsError + StripeObject :=
  match c with
  | CustomersCreate _ _ _ _ =>
      inr {| so_id := "cus_1"; so_status := "active"; so_client_secret := None |}
  | SubscriptionsCreate _ _ _ =>
      inr {| so_id := "sub_1"; so_status := "active"; so_client_secret := Some "pi_secret" |}
  | SubscriptionsCancel id =>
      inr {| so_id := id; so_status := "canceled"; so_client_secret := None |}
  end.

(** A billing stub that creates customers and refuses subscriptions. *)
Definition stripe_declines (log : list StripeCall) (c : StripeCall) : JsError + StripeObject :=
  match c with
  | SubscriptionsCreate _ _ _ => inl {| message := "Your card was declined." |}
  | _ => stripe_ok log c
  end.

Definition env_with (s : list StripeCall → StripeCall → JsError + StripeObject) : Env :=
  {| DATABASE_URL := "postgres://platform";
     jwt_verify := λ _ token,
       if String.eqb token "alice.5" then Some alice_claims else None;
     jwt_sign := λ c, "signed";
     bcrypt_hash := λ p, "bcrypt:" ++ p;
     bcrypt_compare := λ p h, String.eqb ("bcrypt:" ++ p) h;
     stripe := s;
     generateEmployeeId := λ db, "EMP" ++ pretty (users_seq db);
     generateCustomerId := λ db, "CUST" ++ pretty (customers_seq db);
     insertTenantSchema_parse := parse_tenant;
     insertCustomerSchema_parse := parse_customer;
     insertTimesheetSchema_parse := parse_timesheet;
     insertExpenseSchema_parse := parse_expense |}.

Definition env : Env := env_with stripe_ok.

Definition tenant_row (id : Z) (subdomain : string) (cs : option string) (status : string)
  : Tenant.t :=
  {| Tenant.id := id; Tenant.name := subdomain; Tenant.subdomain := subdomain;
     Tenant.dbConnectionString := cs; Tenant.status := status;
     Tenant.subscriptionPlan := "free"; Tenant.subscriptionStatus := "active";
     Tenant.subscriptionEndsAt := None; Tenant.stripeCustomerId := None;
     Tenant.stripeSubscriptionId := None; Tenant.maxUsers := 10;
     Tenant.createdAt := 0; Tenant.updatedAt := 0 |}.

(** acme keeps its rows in the platform store; beta has a store of its
    own. *)
Definition acme : Tenant.t := tenant_row 5 "acme" None "active".
Definition beta : Tenant.t := tenant_row 7 "beta" (Some "postgres://beta") "active".
Definition gamma : Tenant.t := tenant_row 8 "gamma" None "suspended".
Definition delta : Tenant.t := tenant_row 9 "delta" None "inactive".

Definition user_row (id : Z) (email role : string) (tenantId : Z) : User.t :=
  {| User.id := id; User.email := email; User.password := "bcrypt:secret";
     User.firstName := Some "A"; User.lastName := Some "B";
     User.employeeId := Some ("E-" ++ email); User.department := None;
     User.designation := None; User.role := role; User.isActive := true;
     User.tenantId := tenantId; User.createdAt := 0; User.updatedAt := 0 |}.

Definition alice : User.t := user_row 1 "alice@acme.test" "admin" 5.
Definition bob : User.t := user_row 1 "bob@beta.test" "user" 7.

Definition store (us : list User.t) : TenantDb :=
  {| users := us; users_seq := 2; customers := []; customers_seq := 1;
     timesheets := []; timesheets_seq := 1; expenses := []; expenses_seq := 1 |}.

Definition world : World :=
  {| registry := Db.empty;
     platformDb := {| tenants := [acme; beta; gamma; delta]; tenants_seq := 10 |};
     databases := {[ "postgres://platform" := store [alice];
                     "postgres://beta" := store [bob] ]};
     stripe_log := [];
     clock := 1000 |}.

(** The platform store holding a row that belongs to tenant 7 under the
    user id of alice. *)
Definition world_stray : World :=
  set_databases {[ "postgres://platform" := store [bob] ]} world.

Definition request {B} (subdomain : string) (token : option string) (b : B) : Request B :=
  {| params_subdomain := subdomain;
     headers_authorization := (λ t, "Bearer " ++ t) <$> token;
     cookies_tenantToken := None;
     req_body := b; req_user := None; req_tenant := None |}.

(** Requests as the handlers see them once alice is authenticated. *)
Definition authenticated {B} (subdomain : string) (b : B) : Request B :=
  {| params_subdomain := subdomain;
     headers_authorization := Some "Bearer alice.5";
     cookies_tenantToken := None;
     req_body := b;
     req_user := Some alice;
     req_tenant := Some {| ctx_id := 5; ctx_subdomain := "acme";
                           ctx_connectionString := "postgres://platform" |} |}.

Definition upgrade_request : Request UpgradeBody :=
  authenticated "acme" {| plan := Some "standard" |}.

Definition cancel_request : Request unit := authenticated "acme" tt.

(** A timesheet whose body names another tenant and another user; its
    date is a number, as JSON carries it. *)
Definition timesheet_request : Request JsValue :=
  request "acme" (Some "alice.5")
    (JsObject [("userId", JsNumber 42); ("tenantId", JsNumber 999);
               ("projectId", JsNumber 3); ("customerId", JsNumber 4);
               ("date", JsNumber 1700000000000); ("notes", JsString "on site")]).

(** A new tenant registered without a connection string. *)
Definition tenant_request : Request JsValue :=
  request "" None
    (JsObject [("name", JsString "Epsilon"); ("subdomain", JsString "epsilon")]).

Definition login_request : Request LoginBody :=
  request "acme" None
    {| lb_email := Some "alice@acme.test"; lb_password := Some "secret" |}.

End Demo.

(** ** Vocabulary of the statements *)

(** The request presents a non-empty token that verifies to [decoded]. *)
Definition presents_token {B} (env : Env) (req : Request B) (w : World) (decoded : Claims)
  : Prop :=
  ∃ token,
    bearer_or_cookie (headers_authorization req) (cookies_tenantToken req) = Some token ∧
    token ≠ "" ∧
    jwt_verify env (clock w) token = Some decoded.

(** The rows the two tenant lookups of the platform store return. *)
Definition tenant_by_id (w : World) (id : Z) : option Tenant.t :=
  List.find (λ t, Z.eqb (Tenant.id t) id) (tenants (platformDb w)).

Definition tenant_by_subdomain (w : World) (subdomain : string) : option Tenant.t :=
  List.find (λ t, String.eqb (Tenant.subdomain t) subdomain) (tenants (platformDb w)).

(** The user row a store holds for an id. *)
Definition user_by_id (db : TenantDb) (id : Z) : option User.t :=
  List.find (λ u, Z.eqb (User.id u) id) (users db).

Definition user_by_email (db : TenantDb) (email : string) : option User.t :=
  List.find (λ u, String.eqb (User.email u) email) (users db).

(** The same request sent to another subdomain. *)
Definition at_subdomain {B} (subdomain : string) (req : Request B) : Request B :=
  {| params_subdomain := subdomain;
     headers_authorization := headers_authorization req;
     cookies_tenantToken := cookies_tenantToken req;
     req_body := req_body req;
     req_user := req_user req;
     req_tenant := req_tenant req |}.

Definition outcome_at_subdomain {B} (subdomain : string) (o : Outcome B) : Outcome B :=
  match o with
  | Next req => Next (at_subdomain subdomain req)
  | Respond res => Respond res
  end.

(** The request as a gate sees it once [user] has been authenticated. *)
Definition as_user {B} (user : User.t) (req : Request B) : Request B :=
  {| params_subdomain := params_subdomain req;
     headers_authorization := headers_authorization req;
     cookies_tenantToken := cookies_tenantToken req;
     req_body := req_body req;
     req_user := Some user;
     req_tenant := req_tenant req |}.

Definition passes {B} (o : Outcome B) : Prop := ∃ req, o = Next req.

(** The privilege order of the tenant roles: user < manager < admin. *)
Definition tenant_role_rank (role : string) : option nat :=
  if String.eqb role "user" then Some 0%nat
  else if String.eqb role "manager" then Some 1%nat
  else if String.eqb role "admin" then Some 2%nat
  else None.

(** A row that differs from [t] in its modification time only. *)
Definition touched (now : Z) (t : Tenant.t) : Tenant.t :=
  {| Tenant.id := Tenant.id t;
     Tenant.name := Tenant.name t;
     Tenant.subdomain := Tenant.subdomain t;
     Tenant.dbConnectionString := Tenant.dbConnectionString t;
     Tenant.status := Tenant.status t;
     Tenant.subscriptionPlan := Tenant.subscriptionPlan t;
     Tenant.subscriptionStatus := Tenant.subscriptionStatus t;
     Tenant.subscriptionEndsAt := Tenant.subscriptionEndsAt t;
     Tenant.stripeCustomerId := Tenant.stripeCustomerId t;
     Tenant.stripeSubscriptionId := Tenant.stripeSubscriptionId t;
     Tenant.maxUsers := Tenant.maxUsers t;
     Tenant.createdAt := Tenant.createdAt t;
     Tenant.updatedAt := now |}.

(** The calls a run added to the log of the billing provider. *)
Definition calls_during (w w' : World) : list StripeCall :=
  drop (length (stripe_log w)) (stripe_log w').

(** What the middleware does once the token has been verified. *)
Definition after_token {B} (env : Env) (req : Request B) (decoded : Claims) (w : World)
  : (JsError + Outcome B) * World :=
  match tenant_by_id w (claim_tenantId decoded) with
  | None => (inr (Respond (json 401 (Message "Invalid or inactive tenant"))), w)
  | Some tenant =>
      if negb (String.eqb (Tenant.status tenant) "active")
      then (inr (Respond (json 401 (Message "Invalid or inactive tenant"))), w)
      else
        let address := or_else (Tenant.dbConnectionString tenant) (DATABASE_URL env) in
        let w1 := set_registry (Db.getTenantDb address (registry w)).2 w in
        match databases w !! Db.connectionString (Db.pool_config (Db.getTenantDb address (registry w)).1) with
        | None => (inr (Respond (json 401 (Message "Invalid token"))), w1)
        | Some db =>
            match user_by_id db (claim_userId decoded) with
            | None => (inr (Respond (json 401 (Message "Invalid or inactive user"))), w1)
            | Some user =>
                if negb (User.isActive user)
                   || negb (Z.eqb (User.tenantId user) (Tenant.id tenant))
                then (inr (Respond (json 401 (Message "Invalid or inactive user"))), w1)
                else
                  (inr (Next
                     {| params_subdomain := params_subdomain req;
                        headers_authorization := headers_authorization req;
                        cookies_tenantToken := cookies_tenantToken req;
                        req_body := req_body req;
                        req_user := Some user;
                        req_tenant := Some
                          {| ctx_id := Tenant.id tenant;
                             ctx_subdomain := Tenant.subdomain tenant;
                             ctx_connectionString := address |} |}), w1)
            end
        end
  end.


(** A call the run from [w] to [w'] made was refused with [e], or answered
    with [so]; the provider saw the log up to that call. *)
Definition failed_call (env : Env) (w w' : World) (e : JsError) : Prop :=
  ∃ i c, stripe_log w' !! i = Some c ∧ (length (stripe_log w) ≤ i)%nat ∧
         stripe env (take i (stripe_log w')) c = inl e.

Definition answered_call (env : Env) (w w' : World) (c : StripeCall) (so : StripeObject)
  : Prop :=
  ∃ i, stripe_log w' !! i = Some c ∧ (length (stripe_log w) ≤ i)%nat ∧
       stripe env (take i (stripe_log w')) c = inr so.

(** What [cancel] writes to the row of the tenant. *)
Definition cancelled : SubscriptionUpdate :=
  {| su_subscriptionPlan := "free"; su_subscriptionStatus := "cancelled";
     su_stripeCustomerId := None; su_stripeSubscriptionId := Some None;
     su_subscriptionEndsAt := Some None |}.

Definition after_cancel (tenant : Tenant.t) (w1 : World) : World :=
  set_platformDb
    {| tenants := map (λ t, if Z.eqb (Tenant.id t) (Tenant.id tenant)
                            then apply_subscription cancelled (clock w1) t else t)
                      (tenants (platformDb w1));
       tenants_seq := tenants_seq (platformDb w1) |} w1.


(** Every row a table of a tenant store holds after a run was there
    before it or satisfies [P]. *)
Definition rows_added {A} (table : TenantDb → list A) (w w' : World) (P : A → Prop)
  : Prop :=
  ∀ address db' row,
    databases w' !! address = Some db' → row ∈ table db' →
    (∃ db, databases w !! address = Some db ∧ row ∈ table db) ∨ P row.

(** The row is held by some store. *)
Definition stored {A} (table : TenantDb → list A) (w : World) (row : A) : Prop :=
  ∃ address db, databases w !! address = Some db ∧ row ∈ table db.


(** The same process with another token verifier. *)
Definition with_jwt_verify (verify : Z → string → option Claims) (env : Env) : Env :=
  {| DATABASE_URL := DATABASE_URL env;
     jwt_verify := verify;
     jwt_sign := jwt_sign env;
     bcrypt_hash := bcrypt_hash env;
     bcrypt_compare := bcrypt_compare env;
     stripe := stripe env;
     generateEmployeeId := generateEmployeeId env;
     generateCustomerId := generateCustomerId env;
     insertTenantSchema_parse := insertTenantSchema_parse env;
     insertCustomerSchema_parse := insertCustomerSchema_parse env;
     insertTimesheetSchema_parse := insertTimesheetSchema_parse env;
     insertExpenseSchema_parse := insertExpenseSchema_parse env |}.

(** What the tenant middleware reads of the claims of a token. *)
Definition subject (decoded : Claims) : Z * Z :=
  (claim_userId decoded, claim_tenantId decoded).

(** The request a browser sends after a login: no Authorization header,
    the cookie the login has set. *)
Definition with_cookie {B} (cookie : option (string * string)) (req : Request B)
  : Request B :=
  {| params_subdomain := params_subdomain req;
     headers_authorization := None;
     cookies_tenantToken :=
       match cookie with
       | Some (name, value) => if String.eqb name "tenantToken" then Some value else None
       | None => None
       end;
     req_body := req_body req;
     req_user := None;
     req_tenant := None |}.

(** Primary keys: no two tenants and, in a store, no two users share an id. *)
Definition primary_keys (w : World) : Prop :=
  NoDup (Tenant.id <$> tenants (platformDb w)) ∧
  ∀ address db, databases w !! address = Some db → NoDup (User.id <$> users db).



(** ** Further scenes on the demo deployment *)

Module Scenes.

(** A header that is the prefix alone, next to a good cookie. *)
Definition empty_bearer_request : Request unit :=
  {| params_subdomain := "acme";
     headers_authorization := Some "Bearer ";
     cookies_tenantToken := Some "alice.5";
     req_body := tt; req_user := None; req_tenant := None |}.

(** No store answers at any address. *)
Definition world_offline : World := set_databases ∅ Demo.world.

(** A verifier that reports other role and type claims for alice. *)
Definition verify_as_platform (now : Z) (token : string) : option Claims :=
  if String.eqb token "alice.5"
  then Some {| claim_userId := 1; claim_tenantId := 5;
               claim_role := "user"; claim_type := "platform" |}
  else None.

Definition bob_claims : Claims :=
  {| claim_userId := 1; claim_tenantId := 7; claim_role := "user"; claim_type := "tenant" |}.

(** A process whose verifier knows the token of bob. *)
Definition env_bob : Env :=
  with_jwt_verify (λ _ token, if String.eqb token "bob.7" then Some bob_claims else None)
                  Demo.env.

(** A process whose signer issues the token the demo verifier knows. *)
Definition env_login : Env :=
  {| DATABASE_URL := DATABASE_URL Demo.env;
     jwt_verify := jwt_verify Demo.env;
     jwt_sign := λ _, "alice.5";
     bcrypt_hash := bcrypt_hash Demo.env;
     bcrypt_compare := bcrypt_compare Demo.env;
     stripe := stripe Demo.env;
     generateEmployeeId := generateEmployeeId Demo.env;
     generateCustomerId := generateCustomerId Demo.env;
     insertTenantSchema_parse := insertTenantSchema_parse Demo.env;
     insertCustomerSchema_parse := insertCustomerSchema_parse Demo.env;
     insertTimesheetSchema_parse := insertTimesheetSchema_parse Demo.env;
     insertExpenseSchema_parse := insertExpenseSchema_parse Demo.env |}.

Definition carol_body : UserBody :=
  {| ub_email := "carol@acme.test"; ub_password := "hunter2";
     ub_firstName := Some "Carol"; ub_lastName := None; ub_employeeId := None;
     ub_department := None; ub_designation := None; ub_role := None |}.

Definition carol_request : Request UserBody := Demo.authenticated "acme" carol_body.


(** A login at acme with the email of a row that belongs to tenant 7. *)
Definition bob_at_acme : Request LoginBody :=
  Demo.request "acme" None
    {| lb_email := Some "bob@beta.test"; lb_password := Some "secret" |}.

Definition platform_storage : DatabaseTenantStorage :=
  {| tenantDb := {| Db.pool_id := 0;
                    Db.pool_config := Db.tenantPoolConfig "postgres://platform" |} |}.

Definition dave : InsertUser.t :=
  {| InsertUser.email := "dave@acme.test"; InsertUser.password := "bcrypt:pw";
     InsertUser.firstName := None; InsertUser.lastName := None;
     InsertUser.employeeId := None; InsertUser.department := None;
     InsertUser.designation := None; InsertUser.role := None;
     InsertUser.isActive := None; InsertUser.tenantId := 5 |}.

Definition customer_row (id tenantId : Z) (name : string) : Customer.t :=
  {| Customer.id := id; Customer.customerId := "CUST" ++ pretty id;
     Customer.name := name; Customer.email := name ++ "@customers.test";
     Customer.status := "active"; Customer.address := None; Customer.city := None;
     Customer.state := None; Customer.pincode := None; Customer.tenantId := tenantId;
     Customer.createdById := 1; Customer.createdAt := 0; Customer.updatedAt := 0 |}.

Definition hours_of (total : string) : WeekHours (option string) :=
  {| mondayHours := Some total; tuesdayHours := None; wednesdayHours := None;
     thursdayHours := None; fridayHours := None; saturdayHours := None;
     sundayHours := None; totalHours := Some total |}.

Definition timesheet_row (id userId tenantId : Z) : Timesheet.t :=
  {| Timesheet.id := id; Timesheet.userId := userId; Timesheet.projectId := 3;
     Timesheet.taskId := None; Timesheet.customerId := 4; Timesheet.date := 0;
     Timesheet.hours := hours_of "8.00"; Timesheet.payType := "regular";
     Timesheet.status := "draft"; Timesheet.notes := None;
     Timesheet.tenantId := tenantId; Timesheet.createdAt := 0; Timesheet.updatedAt := 0 |}.

Definition expense_row (id userId tenantId : Z) : Expense.t :=
  {| Expense.id := id; Expense.userId := userId; Expense.projectId := None;
     Expense.amount := "12.50"; Expense.currency := "USD"; Expense.description := None;
     Expense.category := None; Expense.date := 0; Expense.status := "pending";
     Expense.receiptUrl := None; Expense.tenantId := tenantId;
     Expense.createdAt := 0; Expense.updatedAt := 0 |}.

(** The platform store shared by two tenants: customers of tenant 5 and
    of tenant 6, and timesheets and expenses of users 1 and 2 of tenant 5. *)
Definition shared_store : TenantDb :=
  {| users := [Demo.alice]; users_seq := 3;
     customers := [customer_row 1 5 "north"; customer_row 2 6 "south";
                   customer_row 3 5 "west"];
     customers_seq := 4;
     timesheets := [timesheet_row 1 1 5; timesheet_row 2 2 5];
     timesheets_seq := 3;
     expenses := [expense_row 1 2 5; expense_row 2 1 5];
     expenses_seq := 3 |}.

Definition world_shared : World :=
  set_databases {[ "postgres://platform" := shared_store ]} Demo.world.

(** A customer whose body names another tenant and another creator. *)
Definition customer_request : Request JsValue :=
  Demo.request "acme" (Some "alice.5")
    (JsObject [("customerId", JsString "C-17"); ("name", JsString "North");
               ("email", JsString "north@customers.test");
               ("tenantId", JsNumber 999); ("createdById", JsNumber 42)]).

(** An expense whose body names another tenant and another user; its
    date is a string, as JSON carries it. *)
Definition expense_request : Request JsValue :=
  Demo.request "acme" (Some "alice.5")
    (JsObject [("userId", JsNumber 42); ("tenantId", JsNumber 999);
               ("amount", JsString "12.50");
               ("date", JsString "2024-03-01T00:00:00.000Z")]).

Definition root : PlatformUser.t :=
  {| PlatformUser.id := 1; PlatformUser.email := "root@platform.test";
     PlatformUser.password := "bcrypt:root"; PlatformUser.firstName := None;
     PlatformUser.lastName := None; PlatformUser.role := "super_admin";
     PlatformUser.isActive := true; PlatformUser.createdAt := 0;
     PlatformUser.updatedAt := 0 |}.

(** A platform request carrying the token of a tenant user. *)
Definition platform_request : PlatformRequest :=
  {| p_authorization := Some "Bearer alice.5"; p_platformToken := None; p_user := None |}.

End Scenes.
(** ** Properties of the registry *)

Section registry.
Import Db.

Lemma empty_wf : registry_wf Db.empty.
Proof. split; intros; simpl in *; by simplify_map_eq. Qed.

Lemma getTenantDb_hit cs reg h :
  tenantConnections reg !! cs = Some h → getTenantDb cs reg = (h, reg).
Proof. intros Hh. unfold getTenantDb. by rewrite Hh. Qed.

Lemma getTenantDb_lookup cs reg :
  tenantConnections (getTenantDb cs reg).2 !! cs = Some (getTenantDb cs reg).1.
Proof.
  unfold getTenantDb. destruct (tenantConnections reg !! cs) eqn:E; simpl; [done|].
  by rewrite lookup_insert_eq.
Qed.

Lemma getTenantDb_preserves cs reg a h :
  tenantConnections reg !! a = Some h →
  tenantConnections (getTenantDb cs reg).2 !! a = Some h.
Proof.
  intros Ha. unfold getTenantDb.
  destruct (tenantConnections reg !! cs) eqn:E; simpl; [done|].
  rewrite lookup_insert_ne; [done|]. intros ->. congruence.
Qed.

Lemma getTenantDb_wf cs reg : registry_wf reg → registry_wf (getTenantDb cs reg).2.
Proof.
  intros [He Hp]. unfold getTenantDb.
  destruct (tenantConnections reg !! cs) eqn:E; simpl; [by split|].
  split; simpl.
  - intros a h. rewrite lookup_insert. case_decide as Ha.
    + intros [= <-]. simpl. split; [done|].
      by rewrite lookup_app_r, Nat.sub_diag.
    + intros Hh. destruct (He _ _ Hh) as [H1 H2]. split; [done|].
      by apply lookup_app_l_Some.
  - intros i c Hi. apply lookup_app_Some in Hi as [Hi|[Hlen Hi]].
    + pose proof (Hp _ _ Hi) as Hm.
      rewrite lookup_insert_ne; [done|]. intros Heq. rewrite <- Heq in Hm. congruence.
    + destruct (i - length (constructed reg))%nat eqn:Hd; simpl in Hi; [|by destruct n].
      injection Hi as <-. simpl. rewrite lookup_insert_eq.
      do 2 f_equal. lia.
Qed.

Lemma getTenantDb_count cs reg a :
  registry_wf reg →
  pools_constructed_for a (getTenantDb cs reg).2 =
    if bool_decide (a = cs ∧ tenantConnections reg !! cs = None)
    then S (pools_constructed_for a reg) else pools_constructed_for a reg.
Proof.
  intros Hwf. unfold getTenantDb, pools_constructed_for.
  destruct (tenantConnections reg !! cs) eqn:E; simpl.
  - rewrite bool_decide_eq_false_2; [done|]. intros [_ ?]; congruence.
  - rewrite filter_app, length_app. simpl.
    rewrite filter_cons. simpl. case_decide as Hd; simpl.
    + rewrite bool_decide_eq_true_2; [lia|done].
    + rewrite bool_decide_eq_false_2; [lia|]. intros [-> _]. done.
Qed.

Lemma filter_none {A} (P : A → Prop) `{!∀ x, Decision (P x)} (l : list A) :
  (∀ x, x ∈ l → ¬ P x) → filter P l = [].
Proof.
  induction l as [|x l IH]; intros Hall; [done|].
  rewrite filter_cons_False; [|apply Hall; left].
  apply IH. intros y Hy. apply Hall. by right.
Qed.

Lemma unseen_not_constructed cs reg :
  registry_wf reg → tenantConnections reg !! cs = None →
  pools_constructed_for cs reg = 0%nat.
Proof.
  intros [_ Hp] Hn. unfold pools_constructed_for.
  apply length_zero_iff_nil, filter_none.
  intros c Hin Hc. apply list_elem_of_lookup in Hin as [i Hi].
  apply Hp in Hi. rewrite Hc in Hi. congruence.
Qed.

Lemma seen_constructed_once cs reg h :
  registry_wf reg → tenantConnections reg !! cs = Some h →
  pools_constructed_for cs reg = 1%nat.
Proof.
  intros [He Hp] Hh. unfold pools_constructed_for.
  destruct (He _ _ Hh) as [Hcs Hi].
  assert (Hall : ∀ i c, constructed reg !! i = Some c →
                        connectionString c = cs → i = pool_id h).
  { intros i c Hc Heq. apply Hp in Hc. rewrite Heq, Hh in Hc. by injection Hc as ->. }
  revert Hi Hall. generalize (pool_id h) as k. generalize (constructed reg) as l.
  induction l as [|c l IH]; intros k Hk Hall; [done|].
  rewrite filter_cons. destruct k as [|k]; simpl in Hk.
  - injection Hk as ->. rewrite decide_True by done. simpl. f_equal.
    apply length_zero_iff_nil, filter_none.
    intros c' Hin Hc'. apply list_elem_of_lookup in Hin as [i Hi].
    specialize (Hall (S i) c' Hi Hc'). done.
  - destruct (decide (connectionString c = cs)) as [Hc|Hc].
    + specialize (Hall 0%nat c eq_refl Hc). done.
    + apply (IH k Hk). intros i c' Hi Hc'.
      specialize (Hall (S i) c' Hi Hc'). lia.
Qed.

End registry.

Section single_flight.
Import Db.

Lemma run_calls_cons cs rest reg :
  run_calls (cs :: rest) reg =
    ((getTenantDb cs reg).1 :: (run_calls rest (getTenantDb cs reg).2).1,
     (run_calls rest (getTenantDb cs reg).2).2).
Proof.
  simpl. destruct (getTenantDb cs reg) as [h reg1]; simpl.
  by destruct (run_calls rest reg1).
Qed.

Lemma run_calls_length calls reg : length (run_calls calls reg).1 = length calls.
Proof.
  revert reg. induction calls as [|cs rest IH]; intros reg; [done|].
  rewrite run_calls_cons. simpl. by rewrite IH.
Qed.

Lemma run_calls_wf calls reg : registry_wf reg → registry_wf (run_calls calls reg).2.
Proof.
  revert reg. induction calls as [|cs rest IH]; intros reg Hwf; [done|].
  rewrite run_calls_cons. simpl. by apply IH, getTenantDb_wf.
Qed.

Lemma run_calls_preserves calls reg a h :
  tenantConnections reg !! a = Some h →
  tenantConnections (run_calls calls reg).2 !! a = Some h.
Proof.
  revert reg. induction calls as [|cs rest IH]; intros reg Ha; [done|].
  rewrite run_calls_cons. simpl. by apply IH, getTenantDb_preserves.
Qed.

Lemma run_calls_registered calls reg i a h :
  calls !! i = Some a → (run_calls calls reg).1 !! i = Some h →
  tenantConnections (run_calls calls reg).2 !! a = Some h.
Proof.
  revert reg i. induction calls as [|cs rest IH]; intros reg i Hi Hh; [done|].
  rewrite run_calls_cons in *. simpl in *. destruct i as [|i]; simpl in *.
  - injection Hi as ->. injection Hh as <-.
    apply run_calls_preserves, getTenantDb_lookup.
  - by eapply IH.
Qed.

Lemma run_calls_served calls reg a :
  a ∈ calls → is_Some (tenantConnections (run_calls calls reg).2 !! a).
Proof.
  intros Hin. apply list_elem_of_lookup in Hin as [i Hi].
  assert (is_Some ((run_calls calls reg).1 !! i)) as [h Hh].
  { apply lookup_lt_is_Some. rewrite run_calls_length. by eapply lookup_lt_Some. }
  exists h. by eapply run_calls_registered.
Qed.

(** C1: in every schedule of calls to [getTenantDb], started from a
    registry whose entries and pools correspond, (1) the correspondence is
    kept, (2) two calls with the same address receive the identical
    handle, which is the entry the registry holds afterwards, (3) no
    address ever has more than one pool, and (4) for an address that was
    unseen before the schedule and is requested in it, by however many
    callers, exactly one pool is constructed. *)
Theorem getTenantDb_single_flight (reg : Registry) (calls : list string) :
  registry_wf reg →
  let hs := (run_calls calls reg).1 in
  let reg' := (run_calls calls reg).2 in
  registry_wf reg' ∧
  (∀ i j a h1 h2,
      calls !! i = Some a → calls !! j = Some a →
      hs !! i = Some h1 → hs !! j = Some h2 →
      h1 = h2 ∧ tenantConnections reg' !! a = Some h1) ∧
  (∀ a, (pools_constructed_for a reg' ≤ 1)%nat) ∧
  (∀ a, tenantConnections reg !! a = None → a ∈ calls →
      pools_constructed_for a reg = 0%nat ∧
      pools_constructed_for a reg' = 1%nat ∧
      ∀ i, calls !! i = Some a → hs !! i = tenantConnections reg' !! a).
Proof.
  intros Hwf hs reg'.
  assert (Hwf' : registry_wf reg') by by apply run_calls_wf.
  split; [done|]. split; [|split].
  - intros i j a h1 h2 Hi Hj H1 H2.
    pose proof (run_calls_registered _ _ _ _ _ Hi H1) as E1.
    pose proof (run_calls_registered _ _ _ _ _ Hj H2) as E2.
    split; [congruence|done].
  - intros a. destruct (tenantConnections reg' !! a) as [h|] eqn:E.
    + by rewrite (seen_constructed_once _ _ _ Hwf' E).
    + rewrite (unseen_not_constructed _ _ Hwf' E). lia.
  - intros a Hnone Hin. split; [by apply unseen_not_constructed|].
    destruct (run_calls_served calls reg a Hin) as [h Hh]. fold reg' in Hh.
    split; [by eapply seen_constructed_once|].
    intros i Hi.
    assert (is_Some (hs !! i)) as [h' Hh'].
    { apply lookup_lt_is_Some. unfold hs. rewrite run_calls_length.
      by eapply lookup_lt_Some. }
    rewrite Hh'. symmetry. by eapply run_calls_registered.
Qed.

(** Three callers race for the unseen address of tenant beta while a
    fourth asks for another store. *)
Lemma getTenantDb_single_flight_witness :
  let calls := ["pg://beta"; "pg://acme"; "pg://beta"; "pg://beta"] in
  registry_wf Db.empty ∧
  pools_constructed_for "pg://beta" (run_calls calls Db.empty).2 = 1%nat ∧
  (run_calls calls Db.empty).1 !! 0%nat = (run_calls calls Db.empty).1 !! 2%nat.
Proof.
  intros calls. split; [apply empty_wf|].
  destruct (getTenantDb_single_flight Db.empty calls empty_wf) as (_ & _ & _ & H).
  destruct (H "pg://beta") as (_ & H1 & H2).
  - reflexivity.
  - apply list_elem_of_here.
  - split; [exact H1|].
    rewrite (H2 0%nat), (H2 2%nat); reflexivity.
Defined.

End single_flight.

(** ** Properties of the tenant authentication *)

Section auth_properties.
Context (env : Env).
Import Db.

Lemma getTenantDb_address cs reg :
  registry_wf reg → connectionString (pool_config (getTenantDb cs reg).1) = cs.
Proof.
  intros [He _]. unfold getTenantDb.
  destruct (tenantConnections reg !! cs) as [h|] eqn:E; simpl; [|done].
  by destruct (He _ _ E).
Qed.

Lemma truthy_Some s : s ≠ "" → truthy (Some s) = true.
Proof.
  intros Hs. simpl. destruct (String.eqb s "") eqn:E; [|done].
  by apply String.eqb_eq in E.
Qed.

Lemma or_else_falsy s d : truthy s = false → or_else s d = d.
Proof.
  destruct s as [s|]; simpl; [|done]. by destruct (String.eqb s "").
Qed.

Lemma or_else_truthy s d : truthy s = true → Some (or_else s d) = s.
Proof.
  destruct s as [s|]; simpl; [|done]. by destruct (String.eqb s "").
Qed.

Lemma authenticateTenantUser_after_token {B} (req : Request B) w decoded :
  presents_token env req w decoded →
  authenticateTenantUser env req w = after_token env req decoded w.
Proof.
  intros (token & Htok & Hne & Hver).
  unfold authenticateTenantUser, after_token, try_catch, bind.
  rewrite Htok, (truthy_Some _ Hne). simpl.
  unfold verifyToken. rewrite Hver. unfold getTenant, tenant_by_id.
  destruct (List.find _ (tenants (platformDb w))) as [tenant|]; [|done].
  destruct (negb (String.eqb (Tenant.status tenant) "active")); [done|].
  unfold createTenantStorage, getUser, query, store_address, user_by_id.
  destruct (getTenantDb _ (registry w)) as [h reg] eqn:Eg. simpl.
  destruct (databases w !! connectionString (pool_config h)) as [db|]; [|done].
  destruct (List.find _ (users db)) as [user|]; [|done].
  by destruct (negb (User.isActive user) || negb (User.tenantId user =? Tenant.id tenant)%Z).
Qed.

(** C4: with a verified token and an active tenant, a user row whose
    tenantId differs from the id of the resolved tenant is answered with
    HTTP 401 and the message Invalid or inactive user, which is, to the
    letter, the answer for a missing row and for an inactive one. *)
Theorem tenant_mismatch_is_generic_401 {B} (req : Request B) (w : World)
    (decoded : Claims) (tenant : Tenant.t) (db : TenantDb) :
  registry_wf (registry w) →
  presents_token env req w decoded →
  tenant_by_id w (claim_tenantId decoded) = Some tenant →
  Tenant.status tenant = "active" →
  databases w !! or_else (Tenant.dbConnectionString tenant) (DATABASE_URL env) = Some db →
  (user_by_id db (claim_userId decoded) = None ∨
   ∃ user, user_by_id db (claim_userId decoded) = Some user ∧
           (User.isActive user = false ∨ User.tenantId user ≠ Tenant.id tenant)) →
  (authenticateTenantUser env req w).1
  = inr (Respond (json 401 (Message "Invalid or inactive user"))).
Proof.
  intros Hwf Htok Hten Hact Hdb Huser.
  rewrite (authenticateTenantUser_after_token _ _ _ Htok).
  unfold after_token. rewrite Hten, Hact. simpl.
  rewrite (getTenantDb_address _ _ Hwf), Hdb.
  destruct Huser as [-> | (user & -> & Hbad)]; [done|].
  destruct Hbad as [-> | Hne]; [done|].
  apply Z.eqb_neq in Hne. rewrite Hne. by rewrite orb_true_r.
Qed.

(** C5: a tenant whose status is anything but active is turned away by
    the authentication middleware (401, Invalid or inactive tenant) and by
    the login route (404, Tenant not found or inactive); the answer is the
    same whatever the status is, and nothing is changed. *)
Theorem non_active_tenant_is_rejected (w : World) (tenant : Tenant.t) :
  Tenant.status tenant ≠ "active" →
  (∀ B (req : Request B) decoded,
      presents_token env req w decoded →
      tenant_by_id w (claim_tenantId decoded) = Some tenant →
      authenticateTenantUser env req w
      = (inr (Respond (json 401 (Message "Invalid or inactive tenant"))), w)) ∧
  (∀ req : Request LoginBody,
      truthy (lb_email (req_body req)) = true →
      truthy (lb_password (req_body req)) = true →
      tenant_by_subdomain w (params_subdomain req) = Some tenant →
      tenant_login env req w
      = (inr (json 404 (Message "Tenant not found or inactive")), w)).
Proof.
  intros Hst.
  assert (Hneg : negb (String.eqb (Tenant.status tenant) "active") = true).
  { apply negb_true_iff. by apply String.eqb_neq. }
  split.
  - intros B req decoded Htok Hten.
    rewrite (authenticateTenantUser_after_token _ _ _ Htok).
    unfold after_token. by rewrite Hten, Hneg.
  - intros req He Hp Hten.
    unfold tenant_login, try_catch, bind. rewrite He, Hp. simpl.
    unfold getTenantBySubdomain. unfold tenant_by_subdomain in Hten.
    by rewrite Hten, Hneg.
Qed.

Lemma find_by_id_id (l : list Tenant.t) k t :
  List.find (λ t, Z.eqb (Tenant.id t) k) l = Some t → Tenant.id t = k.
Proof. intros Hf. apply List.find_some in Hf as [_ Hf]. by apply Z.eqb_eq. Qed.

Lemma find_user_id (l : list User.t) k u :
  List.find (λ u, Z.eqb (User.id u) k) l = Some u → User.id u = k.
Proof. intros Hf. apply List.find_some in Hf as [_ Hf]. by apply Z.eqb_eq. Qed.

Lemma authenticateTenantUser_ignores_subdomain {B} (req : Request B) w subdomain :
  authenticateTenantUser env (at_subdomain subdomain req) w
  = (sum_map id (outcome_at_subdomain subdomain) (authenticateTenantUser env req w).1,
     (authenticateTenantUser env req w).2).
Proof.
  unfold authenticateTenantUser, try_catch, bind. simpl.
  destruct (negb (truthy (bearer_or_cookie _ _))); [done|].
  unfold verifyToken. destruct (jwt_verify _ _ _) as [decoded|]; [|done].
  unfold getTenant. destruct (List.find _ _) as [tenant|]; [|done].
  destruct (negb (String.eqb _ _)); [done|].
  unfold createTenantStorage. destruct (getTenantDb _ _) as [h reg].
  unfold getUser, query. destruct (_ !! _) as [db|]; [|done].
  destruct (List.find _ _) as [user|]; [|done].
  by destruct (negb _ || negb _).
Qed.

(** C2, as the code has it: the middleware resolves the tenant from the
    tenant id of the token and never looks at the subdomain. Its outcome
    is the same at every subdomain; when it lets a request through, the
    tenant and the user it attaches are those of the token, whatever
    tenant the subdomain names; and it answers 401 (Invalid or inactive
    user) when the user row it loads belongs to a tenant other than the
    one of the token. *)
Theorem authenticateTenantUser_follows_token {B} (req : Request B) (w : World)
    (decoded : Claims) :
  presents_token env req w decoded →
  (∀ subdomain,
      authenticateTenantUser env (at_subdomain subdomain req) w
      = (sum_map id (outcome_at_subdomain subdomain) (authenticateTenantUser env req w).1,
         (authenticateTenantUser env req w).2)) ∧
  (∀ req', (authenticateTenantUser env req w).1 = inr (Next req') →
      ∃ tenant user,
        tenant_by_id w (claim_tenantId decoded) = Some tenant ∧
        Tenant.status tenant = "active" ∧
        req_tenant req' =
          Some {| ctx_id := claim_tenantId decoded;
                  ctx_subdomain := Tenant.subdomain tenant;
                  ctx_connectionString :=
                    or_else (Tenant.dbConnectionString tenant) (DATABASE_URL env) |} ∧
        req_user req' = Some user ∧
        User.id user = claim_userId decoded ∧
        User.tenantId user = claim_tenantId decoded ∧
        User.isActive user = true) ∧
  (∀ tenant db user,
      registry_wf (registry w) →
      tenant_by_id w (claim_tenantId decoded) = Some tenant →
      Tenant.status tenant = "active" →
      databases w !! or_else (Tenant.dbConnectionString tenant) (DATABASE_URL env) = Some db →
      user_by_id db (claim_userId decoded) = Some user →
      User.tenantId user ≠ claim_tenantId decoded →
      (authenticateTenantUser env req w).1
      = inr (Respond (json 401 (Message "Invalid or inactive user")))).
Proof.
  intros Htok. split; [|split].
  - intros subdomain. apply authenticateTenantUser_ignores_subdomain.
  - intros req'. rewrite (authenticateTenantUser_after_token _ _ _ Htok).
    unfold after_token.
    destruct (tenant_by_id w (claim_tenantId decoded)) as [tenant|] eqn:Hten; [|done].
    destruct (String.eqb (Tenant.status tenant) "active") eqn:Hact; simpl; [|done].
    destruct (databases w !! _) as [db|]; [|done].
    destruct (user_by_id db (claim_userId decoded)) as [user|] eqn:Hu; [|done].
    destruct (User.isActive user) eqn:Hia; simpl; [|done].
    destruct (Z.eqb (User.tenantId user) (Tenant.id tenant)) eqn:Hid; simpl; [|done].
    intros [= <-]. simpl. exists tenant, user.
    apply String.eqb_eq in Hact. apply Z.eqb_eq in Hid.
    pose proof (find_by_id_id _ _ _ Hten) as Hk.
    pose proof (find_user_id _ _ _ Hu) as Hk'.
    repeat split; try done; congruence.
  - intros tenant db user Hwf Hten Hact Hdb Hu Hne.
    rewrite (authenticateTenantUser_after_token _ _ _ Htok).
    unfold after_token. rewrite Hten, Hact. simpl.
    rewrite (getTenantDb_address _ _ Hwf), Hdb, Hu.
    rewrite <- (find_by_id_id _ _ _ Hten) in Hne.
    apply Z.eqb_neq in Hne. rewrite Hne. by rewrite orb_true_r.
Qed.

Lemma passes_requireTenantRole {B} roles (req : Request B) :
  passes (requireTenantRole roles req) ↔
  ∃ user, req_user req = Some user ∧ User.role user ∈ roles.
Proof.
  unfold passes, requireTenantRole. destruct (req_user req) as [user|].
  - case_bool_decide as Hin.
    + split; [intros _; by exists user | intros _; by eexists].
    + split; [by intros [? ?] | intros (u & [= <-] & ?); done].
  - split; [by intros [? ?] | by intros (u & ? & ?)].
Qed.

Lemma tenant_role_rank_cases role r :
  tenant_role_rank role = Some r →
  (role = "user" ∧ r = 0%nat) ∨ (role = "manager" ∧ r = 1%nat) ∨
  (role = "admin" ∧ r = 2%nat).
Proof.
  unfold tenant_role_rank.
  destruct (String.eqb role "user") eqn:E1.
  { apply String.eqb_eq in E1. intros [= <-]. by left. }
  destruct (String.eqb role "manager") eqn:E2.
  { apply String.eqb_eq in E2. intros [= <-]. right. by left. }
  destruct (String.eqb role "admin") eqn:E3; [|done].
  apply String.eqb_eq in E3. intros [= <-]. right. by right.
Qed.

(** C8: whoever passes the admin gate passes the manager gate, whoever
    passes the manager gate passes the user gate, and no gate lets a role
    in while it keeps a role of higher rank out. *)
Theorem tenant_gates_are_nested {B} (req : Request B) :
  (passes (requireTenantAdmin req) → passes (requireTenantManager req)) ∧
  (passes (requireTenantManager req) → passes (requireTenantUser req)) ∧
  (∀ gate : Request B → Outcome B,
      gate ∈ [requireTenantAdmin; requireTenantManager; requireTenantUser] →
      ∀ user user' r r',
        tenant_role_rank (User.role user) = Some r →
        tenant_role_rank (User.role user') = Some r' →
        (r < r')%nat →
        passes (gate (as_user user req)) → passes (gate (as_user user' req))).
Proof.
  unfold requireTenantAdmin, requireTenantManager, requireTenantUser.
  split; [|split].
  - rewrite !passes_requireTenantRole. intros (u & Hu & Hin). exists u.
    split; [done|]. apply list_elem_of_singleton in Hin as ->. by left.
  - rewrite !passes_requireTenantRole. intros (u & Hu & Hin). exists u.
    split; [done|]. apply elem_of_cons in Hin as [->|Hin]; [by left|].
    apply list_elem_of_singleton in Hin as ->. right. by left.
  - intros gate Hgate user user' r r' Hr Hr' Hlt.
    apply tenant_role_rank_cases in Hr as [[Hu ->]|[[Hu ->]|[Hu ->]]];
    apply tenant_role_rank_cases in Hr' as [[Hu' ->]|[[Hu' ->]|[Hu' ->]]];
      try lia;
      repeat (apply elem_of_cons in Hgate as [-> | Hgate]);
      try (by apply elem_of_nil in Hgate);
      rewrite !passes_requireTenantRole; simpl;
      intros (u & [= <-] & Hin); exists user'; (split; [done|]);
      rewrite Hu in Hin; rewrite Hu';
      first [ by apply (bool_decide_unpack _)
            | by apply (bool_decide_pack _) in Hin ].
Qed.

End auth_properties.

(** ** The tenant authentication on the demo deployment *)

Lemma demo_presents_alice {B} subdomain (b : B) w :
  presents_token Demo.env (Demo.request subdomain (Some "alice.5") b) w Demo.alice_claims.
Proof. exists "alice.5". split; [reflexivity|]. split; [discriminate|reflexivity]. Defined.

(** The row under the user id of alice belongs to tenant 7 while the token
    names tenant 5. *)
Lemma tenant_mismatch_is_generic_401_witness :
  (authenticateTenantUser Demo.env (Demo.request "acme" (Some "alice.5") tt)
                          Demo.world_stray).1
  = inr (Respond (json 401 (Message "Invalid or inactive user"))).
Proof.
  apply (tenant_mismatch_is_generic_401 Demo.env _ Demo.world_stray Demo.alice_claims
           Demo.acme (Demo.store [Demo.bob])).
  - apply empty_wf.
  - apply demo_presents_alice.
  - reflexivity.
  - reflexivity.
  - reflexivity.
  - right. exists Demo.bob. split; [reflexivity|]. right. discriminate.
Defined.

(** gamma is suspended and delta is inactive: both get the same two
    answers. *)
Lemma non_active_tenant_is_rejected_witness :
  let gamma_claims := {| claim_userId := 1; claim_tenantId := 8;
                         claim_role := "user"; claim_type := "tenant" |} in
  let env := {| DATABASE_URL := DATABASE_URL Demo.env;
                jwt_verify := λ _ _, Some gamma_claims;
                jwt_sign := jwt_sign Demo.env;
                bcrypt_hash := bcrypt_hash Demo.env;
                bcrypt_compare := bcrypt_compare Demo.env;
                stripe := stripe Demo.env;
                generateEmployeeId := generateEmployeeId Demo.env;
                generateCustomerId := generateCustomerId Demo.env;
                insertTenantSchema_parse := insertTenantSchema_parse Demo.env;
                insertCustomerSchema_parse := insertCustomerSchema_parse Demo.env;
                insertTimesheetSchema_parse := insertTimesheetSchema_parse Demo.env;
                insertExpenseSchema_parse := insertExpenseSchema_parse Demo.env |} in
  let credentials := {| lb_email := Some "carol@gamma.test"; lb_password := Some "secret" |} in
  authenticateTenantUser env (Demo.request "gamma" (Some "carol.8") tt) Demo.world
  = (inr (Respond (json 401 (Message "Invalid or inactive tenant"))), Demo.world) ∧
  tenant_login env (Demo.request "gamma" None credentials) Demo.world
  = (inr (json 404 (Message "Tenant not found or inactive")), Demo.world) ∧
  tenant_login env (Demo.request "delta" None credentials) Demo.world
  = (inr (json 404 (Message "Tenant not found or inactive")), Demo.world).
Proof.
  intros gamma_claims env credentials.
  assert (Hg : Tenant.status Demo.gamma ≠ "active") by discriminate.
  assert (Hd : Tenant.status Demo.delta ≠ "active") by discriminate.
  destruct (non_active_tenant_is_rejected env Demo.world Demo.gamma Hg) as [Hauth Hlogin].
  destruct (non_active_tenant_is_rejected env Demo.world Demo.delta Hd) as [_ Hlogin'].
  split; [|split].
  - apply (Hauth _ _ gamma_claims); [|reflexivity].
    exists "carol.8". split; [reflexivity|]. split; [discriminate|reflexivity].
  - apply Hlogin; reflexivity.
  - apply Hlogin'; reflexivity.
Defined.

(** A token of tenant 5 presented at the subdomain of tenant 7 is let
    through, as tenant 5. *)
Lemma token_of_other_tenant_is_accepted :
  let req := Demo.request "beta" (Some "alice.5") tt in
  presents_token Demo.env req Demo.world Demo.alice_claims ∧
  claim_tenantId Demo.alice_claims = 5 ∧
  Tenant.id <$> tenant_by_subdomain Demo.world (params_subdomain req) = Some 7 ∧
  (∃ req', (authenticateTenantUser Demo.env req Demo.world).1 = inr (Next req') ∧
           ctx_id <$> req_tenant req' = Some 5 ∧
           User.tenantId <$> req_user req' = Some 5) ∧
  ¬ ∃ msg, (authenticateTenantUser Demo.env req Demo.world).1
           = inr (Respond (json 401 (Message msg))).
Proof.
  intros req. split; [apply demo_presents_alice|].
  split; [reflexivity|]. split; [reflexivity|]. split.
  - eexists. split; [vm_compute; reflexivity|]. split; reflexivity.
  - intros [msg Hmsg]. vm_compute in Hmsg. discriminate.
Qed.

Lemma authenticateTenantUser_follows_token_witness :
  let req := Demo.request "acme" (Some "alice.5") tt in
  authenticateTenantUser Demo.env (at_subdomain "beta" req) Demo.world
  = (sum_map id (outcome_at_subdomain "beta") (authenticateTenantUser Demo.env req Demo.world).1,
     (authenticateTenantUser Demo.env req Demo.world).2) ∧
  (authenticateTenantUser Demo.env req Demo.world_stray).1
  = inr (Respond (json 401 (Message "Invalid or inactive user"))).
Proof.
  intros req.
  destruct (authenticateTenantUser_follows_token Demo.env req Demo.world Demo.alice_claims
              (demo_presents_alice _ _ _)) as (Hsub & _ & _).
  destruct (authenticateTenantUser_follows_token Demo.env req Demo.world_stray
              Demo.alice_claims (demo_presents_alice _ _ _)) as (_ & _ & Hbad).
  split; [apply Hsub|].
  apply (Hbad Demo.acme (Demo.store [Demo.bob]) Demo.bob).
  - apply empty_wf.
  - reflexivity.
  - reflexivity.
  - reflexivity.
  - reflexivity.
  - discriminate.
Defined.

Lemma tenant_gates_are_nested_witness :
  let req := as_user Demo.alice (Demo.request "acme" (Some "alice.5") tt) in
  passes (requireTenantAdmin req) ∧ passes (requireTenantManager req) ∧
  passes (requireTenantUser req) ∧
  (passes (requireTenantUser (as_user Demo.bob req)) →
   passes (requireTenantUser (as_user Demo.alice req))).
Proof.
  intros req.
  destruct (tenant_gates_are_nested req) as (H1 & H2 & H3).
  assert (Ha : passes (requireTenantAdmin req)) by (by exists req).
  split; [exact Ha|]. split; [exact (H1 Ha)|]. split; [exact (H2 (H1 Ha))|].
  apply (H3 requireTenantUser) with (r := 0%nat) (r' := 2%nat).
  - right. right. left.
  - reflexivity.
  - reflexivity.
  - lia.
Defined.

(** ** Properties of the subscription handlers *)

Section subscription_properties.
Context (env : Env).
Open Scope list_scope.

Lemma failed_call_inv w w' (calls : list StripeCall) e :
  stripe_log w' = stripe_log w ++ calls →
  failed_call env w w' e →
  ∃ j c, calls !! j = Some c ∧ stripe env (stripe_log w ++ take j calls) c = inl e.
Proof.
  intros Hlog (i & c & Hi & Hle & Hs). rewrite Hlog in Hi, Hs.
  exists (i - length (stripe_log w))%nat, c. split.
  - by rewrite lookup_app_r in Hi.
  - rewrite take_app in Hs. by rewrite take_ge in Hs.
Qed.

Lemma answered_call_intro w w' (calls : list StripeCall) j c so :
  stripe_log w' = stripe_log w ++ calls →
  calls !! j = Some c →
  stripe env (stripe_log w ++ take j calls) c = inr so →
  answered_call env w w' c so.
Proof.
  intros Hlog Hj Hs. exists (length (stripe_log w) + j)%nat. rewrite Hlog.
  split; [|split; [lia|]].
  - rewrite lookup_app_r by lia. by replace (_ + j - _)%nat with j by lia.
  - rewrite take_app, take_ge by lia.
    by replace (_ + j - _)%nat with j by lia.
Qed.

(** The log after a run is the log before it followed by the calls made. *)
Ltac log_eq :=
  simpl;
  first [ reflexivity
        | symmetry; apply app_nil_r
        | rewrite <- app_assoc; reflexivity ].

(** Every call of the run is known: look at each in turn. *)
Ltac each_failed_call He :=
  let j := fresh "j" in let c := fresh "c" in
  let Hj := fresh "Hj" in let Hc := fresh "Hc" in
  eapply failed_call_inv in He; [|log_eq];
  destruct He as (j & c & Hj & Hc);
  repeat (destruct j as [|j];
          [simpl in Hj, Hc; injection Hj as <-; rewrite ?app_nil_r in Hc|]);
  try done.

(** The provider gave one answer to one call. *)
Ltac same_answer :=
  match goal with
  | Ha : stripe ?e ?l ?c = _, Hb : stripe ?e ?l ?c = _ |- _ =>
      rewrite Ha in Hb; by simplify_eq
  end.

(** C3: in every run of the upgrade handler, the calls it makes are
    appended to the log of the provider; if any of them is refused, the
    platform store is left exactly as it was and the error of the
    provider is answered with status 500; and when a paid plan is
    requested the platform store is written only in a run in which the
    provider has answered the creation of the subscription. *)
Theorem upgrade_keeps_state_when_billing_fails (req : Request UpgradeBody) (w : World) :
  let r := upgrade env req w in
  (∃ calls : list StripeCall, stripe_log r.2 = stripe_log w ++ calls) ∧
  (∀ e, failed_call env w r.2 e →
      platformDb r.2 = platformDb w ∧
      r.1 = inr (json 500 (Message (or_else (Some (message e))
                                            "Failed to upgrade subscription")))) ∧
  (platformDb r.2 ≠ platformDb w → plan (req_body req) ≠ Some "free" →
      ∃ customer product_name unit_amount subscription,
        answered_call env w r.2
          (SubscriptionsCreate customer product_name unit_amount) subscription).
Proof.
  unfold upgrade, try_catch, bind, getTenantBySubdomain, stripe_call,
    updateTenantSubscription, Date_now, ret, throw. simpl.
  destruct (List.find _ _) as [tenant|] eqn:Hten; simpl.
  2:{ split; [eexists; log_eq|]. split; [|done]. intros e He. each_failed_call He. }
  case_bool_decide as Hfree.
  - destruct (truthy (Tenant.stripeSubscriptionId tenant)) eqn:Hsub; simpl.
    + destruct (stripe env (stripe_log w) _) as [e0|so] eqn:Hs; simpl.
      * split; [eexists; log_eq|]. split; [|done]. intros e He. each_failed_call He.
        split; [done|]. same_answer.
      * split; [eexists; log_eq|]. split; [|done]. intros e He. each_failed_call He.
        same_answer.
    + split; [eexists; log_eq|]. split; [|done]. intros e He. each_failed_call He.
  - destruct (truthy (Tenant.stripeCustomerId tenant)) eqn:Hcus; simpl.
    + destruct (plan (req_body req)) as [p|] eqn:Hp; simpl.
      * destruct (stripe env (stripe_log w) _) as [e0|so] eqn:Hs; simpl.
        -- split; [eexists; log_eq|]. split; [|done]. intros e He. each_failed_call He.
           split; [done|]. same_answer.
        -- split; [eexists; log_eq|]. split.
           ++ intros e He. each_failed_call He. same_answer.
           ++ intros _ _. do 3 eexists. exists so.
              eapply (answered_call_intro _ _ _ 0%nat); [log_eq|reflexivity|].
              simpl. by rewrite app_nil_r.
      * split; [eexists; log_eq|]. split; [|done]. intros e He. each_failed_call He.
    + destruct (stripe env (stripe_log w) _) as [e0|cust] eqn:Hc; simpl.
      * split; [eexists; log_eq|]. split; [|done]. intros e He. each_failed_call He.
        split; [done|]. same_answer.
      * destruct (plan (req_body req)) as [p|] eqn:Hp; simpl.
        -- destruct (stripe env _ (SubscriptionsCreate _ _ _)) as [e0|so] eqn:Hs; simpl.
           ++ split; [eexists; log_eq|]. split; [|done]. intros e He. each_failed_call He.
              ** same_answer.
              ** split; [done|]. same_answer.
           ++ split; [eexists; log_eq|]. split.
              ** intros e He. each_failed_call He; same_answer.
              ** intros _ _. do 3 eexists. exists so.
                 eapply (answered_call_intro _ _ _ 1%nat); [log_eq|reflexivity|].
                 simpl. exact Hs.
        -- split; [eexists; log_eq|]. split; [|done]. intros e He. each_failed_call He.
           same_answer.
Qed.

Lemma find_subdomain_map (f : Tenant.t → Tenant.t) (l : list Tenant.t) subdomain :
  (∀ t, Tenant.subdomain (f t) = Tenant.subdomain t) →
  List.find (λ t, String.eqb (Tenant.subdomain t) subdomain) (map f l)
  = f <$> List.find (λ t, String.eqb (Tenant.subdomain t) subdomain) l.
Proof.
  intros Hf. induction l as [|t l IH]; [done|]. simpl. rewrite Hf.
  by destruct (String.eqb (Tenant.subdomain t) subdomain).
Qed.

Lemma subdomain_apply_subscription s now id t :
  Tenant.subdomain (if Z.eqb (Tenant.id t) id then apply_subscription s now t else t)
  = Tenant.subdomain t.
Proof. by destruct (Z.eqb (Tenant.id t) id). Qed.

(** C6: when the provider answers every creation and names the new
    subscription sub_1, an upgrade to standard answers 200 and leaves the
    row of the tenant with plan standard, subscription status active,
    subscription reference sub_1 and an expiry thirty days after the time
    of the request; the customer reference is the one the tenant had or
    the one just created, the modification time is the time of the
    request, and every other column is as before. *)
Theorem upgrade_to_standard (req : Request UpgradeBody) (w : World) (tenant : Tenant.t) :
  tenant_by_subdomain w (params_subdomain req) = Some tenant →
  plan (req_body req) = Some "standard" →
  (∀ log email name tenantId subdomain,
      ∃ customer,
        stripe env log (CustomersCreate email name tenantId subdomain) = inr customer) →
  (∀ log customer product_name unit_amount,
      ∃ subscription,
        stripe env log (SubscriptionsCreate customer product_name unit_amount)
        = inr subscription ∧ so_id subscription = "sub_1") →
  let r := upgrade env req w in
  ∃ customerId clientSecret status,
    r.1 = inr (json 200 (UpgradeOk "sub_1" clientSecret status)) ∧
    tenant_by_subdomain r.2 (params_subdomain req) =
      Some {| Tenant.id := Tenant.id tenant;
              Tenant.name := Tenant.name tenant;
              Tenant.subdomain := Tenant.subdomain tenant;
              Tenant.dbConnectionString := Tenant.dbConnectionString tenant;
              Tenant.status := Tenant.status tenant;
              Tenant.subscriptionPlan := "standard";
              Tenant.subscriptionStatus := "active";
              Tenant.subscriptionEndsAt := Some (clock w + 2592000000);
              Tenant.stripeCustomerId := Some customerId;
              Tenant.stripeSubscriptionId := Some "sub_1";
              Tenant.maxUsers := Tenant.maxUsers tenant;
              Tenant.createdAt := Tenant.createdAt tenant;
              Tenant.updatedAt := clock w |}.
Proof.
  intros Hten Hplan Hcust Hsub. unfold tenant_by_subdomain in *.
  unfold upgrade, try_catch, bind, getTenantBySubdomain, stripe_call,
    updateTenantSubscription, Date_now, ret, throw. simpl.
  rewrite Hten, Hplan. simpl.
  destruct (truthy (Tenant.stripeCustomerId tenant)) eqn:Hcus; simpl.
  - match goal with
    | |- context [stripe env ?l (SubscriptionsCreate ?c ?p ?a)] =>
        destruct (Hsub l c p a) as (so & Hso & Hid); rewrite Hso
    end.
    simpl. rewrite Hid.
    exists (default "" (Tenant.stripeCustomerId tenant)), (so_client_secret so),
      (so_status so).
    split; [done|].
    rewrite find_subdomain_map by (intros; apply subdomain_apply_subscription).
    rewrite Hten. simpl. by rewrite Z.eqb_refl.
  - match goal with
    | |- context [stripe env ?l (CustomersCreate ?a ?b ?c ?d)] =>
        destruct (Hcust l a b c d) as (cust & Hc); rewrite Hc
    end.
    simpl.
    match goal with
    | |- context [stripe env ?l (SubscriptionsCreate ?c ?p ?a)] =>
        destruct (Hsub l c p a) as (so & Hso & Hid); rewrite Hso
    end.
    simpl. rewrite Hid.
    exists (so_id cust), (so_client_secret so), (so_status so).
    split; [done|].
    rewrite find_subdomain_map by (intros; apply subdomain_apply_subscription).
    rewrite Hten. simpl. by rewrite Z.eqb_refl.
Qed.

Lemma calls_during_app (l calls : list StripeCall) w w' :
  stripe_log w = l → stripe_log w' = l ++ calls → calls_during w w' = calls.
Proof.
  intros Hw Hw'. unfold calls_during. rewrite Hw, Hw'. by rewrite drop_app_length.
Qed.

Lemma cancel_succeeded req w :
  (cancel env req w).1 = inr (json 200 (Success "Subscription cancelled successfully")) →
  ∃ tenant w1,
    tenant_by_subdomain w (params_subdomain req) = Some tenant ∧
    tenants (platformDb w1) = tenants (platformDb w) ∧
    (cancel env req w).2 = after_cancel tenant w1.
Proof.
  unfold tenant_by_subdomain, cancel, try_catch, bind, getTenantBySubdomain,
    stripe_call, updateTenantSubscription, ret. simpl.
  destruct (List.find _ _) as [tenant|] eqn:Hten; simpl; [|done].
  destruct (truthy (Tenant.stripeSubscriptionId tenant)) eqn:Hsub; simpl.
  - destruct (stripe env (stripe_log w) _) as [e0|so] eqn:Hs; simpl; [done|].
    intros _. by eexists tenant, (set_stripe_log _ w).
  - intros _. by exists tenant, w.
Qed.

Lemma cancel_again tenant w w1 later req :
  tenant_by_subdomain w (params_subdomain req) = Some tenant →
  tenants (platformDb w1) = tenants (platformDb w) →
  let second := cancel env req (set_clock later (after_cancel tenant w1)) in
  second.1 = inr (json 200 (Success "Subscription cancelled successfully")) ∧
  stripe_log second.2 = stripe_log (after_cancel tenant w1) ∧
  registry second.2 = registry (after_cancel tenant w1) ∧
  databases second.2 = databases (after_cancel tenant w1) ∧
  platformDb second.2 =
    {| tenants := map (λ t, if Z.eqb (Tenant.id t) (Tenant.id tenant)
                            then touched later t else t)
                      (tenants (platformDb (after_cancel tenant w1)));
       tenants_seq := tenants_seq (platformDb (after_cancel tenant w1)) |}.
Proof.
  unfold tenant_by_subdomain. intros Hten Hsame.
  unfold cancel, try_catch, bind, getTenantBySubdomain,
    stripe_call, updateTenantSubscription, ret, after_cancel. simpl.
  rewrite find_subdomain_map by (intros; apply subdomain_apply_subscription).
  rewrite Hsame, Hten. simpl. rewrite Z.eqb_refl. simpl.
  repeat (split; [done|]). f_equal.
  rewrite !map_map. apply map_ext. intros t.
  destruct (Z.eqb (Tenant.id t) (Tenant.id tenant)) eqn:Hid; simpl; by rewrite Hid.
Qed.

(** C7: the cancel handler calls the provider only for a tenant whose
    stored subscription reference is a non-empty string, and then once,
    for that reference. Hence a second cancel, at any later time, after a
    first one that answered 200, answers 200 again, makes no call to the
    provider, and changes nothing in the world but the modification time
    of the rows of that tenant. *)
Theorem cancel_twice_calls_provider_once (req : Request unit) (w : World) (later : Z) :
  (∀ w0, calls_during w0 (cancel env req w0).2 ≠ [] →
      ∃ tenant reference,
        tenant_by_subdomain w0 (params_subdomain req) = Some tenant ∧
        Tenant.stripeSubscriptionId tenant = Some reference ∧
        reference ≠ "" ∧
        calls_during w0 (cancel env req w0).2 = [SubscriptionsCancel reference]) ∧
  let first := cancel env req w in
  let second := cancel env req (set_clock later first.2) in
  (first.1 = inr (json 200 (Success "Subscription cancelled successfully")) →
   second.1 = inr (json 200 (Success "Subscription cancelled successfully")) ∧
   calls_during first.2 second.2 = [] ∧
   registry second.2 = registry first.2 ∧
   databases second.2 = databases first.2 ∧
   ∃ tenant,
     tenant_by_subdomain w (params_subdomain req) = Some tenant ∧
     platformDb second.2 =
       {| tenants := map (λ t, if Z.eqb (Tenant.id t) (Tenant.id tenant)
                               then touched later t else t)
                         (tenants (platformDb first.2));
          tenants_seq := tenants_seq (platformDb first.2) |}).
Proof.
  split.
  - intros w0. unfold tenant_by_subdomain.
    unfold cancel, try_catch, bind, getTenantBySubdomain, stripe_call,
      updateTenantSubscription, ret. simpl.
    destruct (List.find _ _) as [tenant|] eqn:Hten; simpl.
    2:{ intros Hc. exfalso. apply Hc.
        apply (calls_during_app (stripe_log w0)); [done|by rewrite app_nil_r]. }
    destruct (Tenant.stripeSubscriptionId tenant) as [reference|] eqn:Href; simpl.
    2:{ intros Hc. exfalso. apply Hc.
        apply (calls_during_app (stripe_log w0)); [done|by rewrite app_nil_r]. }
    destruct (String.eqb reference "") eqn:Hempty; simpl.
    { intros Hc. exfalso. apply Hc.
      apply (calls_during_app (stripe_log w0)); [done|by rewrite app_nil_r]. }
    intros _. exists tenant, reference. split; [done|]. split; [done|].
    split; [by apply String.eqb_neq|].
    destruct (stripe env _ _); simpl; by apply (calls_during_app (stripe_log w0)).
  - intros first second Hok. subst first second.
    destruct (cancel_succeeded _ _ Hok) as (tenant & w1 & Hten & Hsame & ->).
    destruct (cancel_again tenant w w1 later req Hten Hsame) as (H1 & H2 & H3 & H4 & H5).
    split; [done|]. split.
    { eapply calls_during_app; [reflexivity|]. rewrite H2. by rewrite app_nil_r. }
    split; [done|]. split; [done|]. by exists tenant.
Qed.

End subscription_properties.

(** ** The subscription handlers on the demo deployment *)

(** The provider creates the customer and refuses the subscription. *)
Lemma upgrade_keeps_state_when_billing_fails_witness :
  let env := Demo.env_with Demo.stripe_declines in
  platformDb (upgrade env Demo.upgrade_request Demo.world).2 = platformDb Demo.world ∧
  (upgrade env Demo.upgrade_request Demo.world).1
  = inr (json 500 (Message "Your card was declined.")) ∧
  stripe_log (upgrade env Demo.upgrade_request Demo.world).2
  = [CustomersCreate "alice@acme.test" "A B" "5" "acme";
     SubscriptionsCreate "cus_1" "Standard Plan" 1500].
Proof.
  intros env.
  destruct (upgrade_keeps_state_when_billing_fails env Demo.upgrade_request Demo.world)
    as (_ & Hfail & _).
  destruct (Hfail {| message := "Your card was declined." |}) as [Hdb Hres].
  - exists 1%nat, (SubscriptionsCreate "cus_1" "Standard Plan" 1500).
    split; [reflexivity|]. split; [simpl; lia|reflexivity].
  - split; [exact Hdb|]. split; [exact Hres|reflexivity].
Defined.

Lemma upgrade_to_standard_witness :
  ∃ customerId,
    tenant_by_subdomain (upgrade Demo.env Demo.upgrade_request Demo.world).2 "acme" =
      Some {| Tenant.id := 5; Tenant.name := "acme"; Tenant.subdomain := "acme";
              Tenant.dbConnectionString := None; Tenant.status := "active";
              Tenant.subscriptionPlan := "standard"; Tenant.subscriptionStatus := "active";
              Tenant.subscriptionEndsAt := Some 2592001000;
              Tenant.stripeCustomerId := Some customerId;
              Tenant.stripeSubscriptionId := Some "sub_1";
              Tenant.maxUsers := 10; Tenant.createdAt := 0; Tenant.updatedAt := 1000 |}.
Proof.
  destruct (upgrade_to_standard Demo.env Demo.upgrade_request Demo.world Demo.acme)
    as (customerId & clientSecret & status & Hres & Hrow).
  - reflexivity.
  - reflexivity.
  - intros. eexists. reflexivity.
  - intros. eexists. split; reflexivity.
  - exists customerId. exact Hrow.
Defined.

(** acme once upgraded holds the reference sub_1: the first cancel sends
    it to the provider, the second sends nothing. *)
Lemma cancel_twice_calls_provider_once_witness :
  let w := (upgrade Demo.env Demo.upgrade_request Demo.world).2 in
  let first := cancel Demo.env Demo.cancel_request w in
  let second := cancel Demo.env Demo.cancel_request (set_clock 2000 first.2) in
  calls_during w first.2 = [SubscriptionsCancel "sub_1"] ∧
  second.1 = inr (json 200 (Success "Subscription cancelled successfully")) ∧
  calls_during first.2 second.2 = [].
Proof.
  intros w first second.
  destruct (cancel_twice_calls_provider_once Demo.env Demo.cancel_request w 2000)
    as [Honly Htwice].
  destruct (Honly w) as (tenant & reference & Hten & Href & Hne & Hcalls).
  { discriminate. }
  destruct (Htwice eq_refl) as (Hres & Hnone & _).
  split; [|split; [exact Hres | exact Hnone]].
  subst first. rewrite Hcalls. vm_compute in Hten. injection Hten as <-.
  vm_compute in Href. by injection Href as <-.
Defined.

(** ** Properties of the record creation routes *)

Section record_properties.
Context (env : Env).
Import Db.
Open Scope list_scope.

Lemma createTenantStorage_run cs w :
  registry_wf (registry w) →
  ∃ s, createTenantStorage cs w = (inr s, set_registry (getTenantDb cs (registry w)).2 w) ∧
       store_address s = cs.
Proof.
  intros Hwf. unfold createTenantStorage.
  pose proof (getTenantDb_address cs _ Hwf) as Ha.
  destruct (getTenantDb cs (registry w)) as [h reg]. by eexists.
Qed.

Lemma rows_added_refl {A} (table : TenantDb → list A) w w' P :
  databases w' = databases w → rows_added table w w' P.
Proof. intros Hd address db' row Hdb Hin. left. exists db'. by rewrite <- Hd. Qed.

Lemma rows_added_insert {A} (table : TenantDb → list A) w w' (P : A → Prop)
    address db db' row :
  databases w !! address = Some db →
  databases w' = <[address := db']> (databases w) →
  table db' = table db ++ [row] → P row →
  rows_added table w w' P.
Proof.
  intros Hdb Hw' Htab HP a d r Ha Hr. rewrite Hw' in Ha.
  destruct (decide (address = a)) as [<-|Hne].
  - rewrite lookup_insert_eq in Ha. injection Ha as <-. rewrite Htab in Hr.
    apply elem_of_app in Hr as [Hr|Hr].
    + left. by exists db.
    + apply list_elem_of_singleton in Hr as ->. by right.
  - rewrite lookup_insert_ne in Ha by done. left. by exists d.
Qed.

(** What the customer handler does to the stores. *)
Lemma create_customer_effect (req : Request JsValue) w ctx user :
  registry_wf (registry w) →
  req_tenant req = Some ctx → req_user req = Some user →
  let r := create_customer env req w in
  let P := λ row, Customer.tenantId row = ctx_id ctx ∧
                  Customer.createdById row = User.id user in
  rows_added customers w r.2 P ∧
  (∀ row, r.1 = inr (json 201 (CustomerJson row)) →
      P row ∧ ∃ db, databases r.2 !! ctx_connectionString ctx = Some db ∧
                    row ∈ customers db).
Proof.
  intros Hwf Hctx Huser. unfold create_customer, try_catch, bind, parse, the_tenant,
    the_user, ret, throw. simpl.
  destruct (insertCustomerSchema_parse env (req_body req)) as [d|]; simpl.
  2:{ split; [by apply rows_added_refl|done]. }
  rewrite Hctx. simpl.
  destruct (createTenantStorage_run (ctx_connectionString ctx) w Hwf) as (s & -> & Hs).
  rewrite Huser. simpl. unfold createCustomer, execute. simpl. rewrite Hs.
  destruct (databases w !! ctx_connectionString ctx) as [db|] eqn:Hdb; simpl.
  2:{ split; [by apply rows_added_refl|done]. }
  destruct (existsb _ (customers db)); simpl.
  { split; [by apply rows_added_refl|done]. }
  split.
  - eapply rows_added_insert; [exact Hdb|reflexivity|reflexivity|done].
  - intros row [= <-]. split; [done|]. eexists. rewrite lookup_insert_eq.
    split; [done|]. simpl. apply elem_of_app. right. by left.
Qed.

Lemma create_timesheet_effect (req : Request JsValue) w ctx user :
  registry_wf (registry w) →
  req_tenant req = Some ctx → req_user req = Some user →
  let r := create_timesheet env req w in
  let P := λ row, Timesheet.tenantId row = ctx_id ctx ∧
                  Timesheet.userId row = User.id user in
  rows_added timesheets w r.2 P ∧
  (∀ row, r.1 = inr (json 201 (TimesheetJson row)) →
      P row ∧ ∃ db, databases r.2 !! ctx_connectionString ctx = Some db ∧
                    row ∈ timesheets db).
Proof.
  intros Hwf Hctx Huser. unfold create_timesheet, try_catch, bind, parse, the_tenant,
    the_user, ret, throw. simpl.
  destruct (insertTimesheetSchema_parse env (req_body req)) as [d|]; simpl.
  2:{ split; [by apply rows_added_refl|done]. }
  rewrite Hctx. simpl.
  destruct (createTenantStorage_run (ctx_connectionString ctx) w Hwf) as (s & -> & Hs).
  rewrite Huser. simpl. unfold createTimesheet, execute. simpl. rewrite Hs.
  destruct (databases w !! ctx_connectionString ctx) as [db|] eqn:Hdb; simpl.
  2:{ split; [by apply rows_added_refl|done]. }
  destruct (existsb _ (timesheets db)); simpl.
  { split; [by apply rows_added_refl|done]. }
  split.
  - eapply rows_added_insert; [exact Hdb|reflexivity|reflexivity|done].
  - intros row [= <-]. split; [done|]. eexists. rewrite lookup_insert_eq.
    split; [done|]. simpl. apply elem_of_app. right. by left.
Qed.

Lemma create_expense_effect (req : Request JsValue) w ctx user :
  registry_wf (registry w) →
  req_tenant req = Some ctx → req_user req = Some user →
  let r := create_expense env req w in
  let P := λ row, Expense.tenantId row = ctx_id ctx ∧
                  Expense.userId row = User.id user in
  rows_added expenses w r.2 P ∧
  (∀ row, r.1 = inr (json 201 (ExpenseJson row)) →
      P row ∧ ∃ db, databases r.2 !! ctx_connectionString ctx = Some db ∧
                    row ∈ expenses db).
Proof.
  intros Hwf Hctx Huser. unfold create_expense, try_catch, bind, parse, the_tenant,
    the_user, ret, throw. simpl.
  destruct (insertExpenseSchema_parse env (req_body req)) as [d|]; simpl.
  2:{ split; [by apply rows_added_refl|done]. }
  rewrite Hctx. simpl.
  destruct (createTenantStorage_run (ctx_connectionString ctx) w Hwf) as (s & -> & Hs).
  rewrite Huser. simpl. unfold createExpense, execute. simpl. rewrite Hs.
  destruct (databases w !! ctx_connectionString ctx) as [db|] eqn:Hdb; simpl.
  2:{ split; [by apply rows_added_refl|done]. }
  destruct (existsb _ (expenses db)); simpl.
  { split; [by apply rows_added_refl|done]. }
  split.
  - eapply rows_added_insert; [exact Hdb|reflexivity|reflexivity|done].
  - intros row [= <-]. split; [done|]. eexists. rewrite lookup_insert_eq.
    split; [done|]. simpl. apply elem_of_app. right. by left.
Qed.

Lemma create_user_effect (req : Request UserBody) w ctx :
  registry_wf (registry w) →
  req_tenant req = Some ctx →
  let r := create_user env req w in
  let P := λ row, User.tenantId row = ctx_id ctx in
  rows_added users w r.2 P ∧
  (∀ row, r.1 = inr (json 201 (UserJson row)) →
      P row ∧ ∃ db, databases r.2 !! ctx_connectionString ctx = Some db ∧
                    row ∈ users db).
Proof.
  intros Hwf Hctx. unfold create_user, try_catch, bind, the_tenant, ret, throw. simpl.
  rewrite Hctx. simpl.
  destruct (createTenantStorage_run (ctx_connectionString ctx) w Hwf) as (s & -> & Hs).
  unfold getUserByEmail, query, createUser, execute. simpl. rewrite Hs.
  destruct (databases w !! ctx_connectionString ctx) as [db|] eqn:Hdb; simpl.
  2:{ split; [by apply rows_added_refl|done]. }
  destruct (List.find _ (users db)); simpl.
  { split; [by apply rows_added_refl|done]. }
  rewrite Hdb.
  destruct (existsb _ (users db)); simpl.
  { split; [by apply rows_added_refl|done]. }
  split.
  - eapply rows_added_insert; [exact Hdb|reflexivity|reflexivity|done].
  - intros row [= <-]. split; [done|]. eexists. rewrite lookup_insert_eq.
    split; [done|]. simpl. apply elem_of_app. right. by left.
Qed.

(** What the authentication leaves behind and what it hands on. *)
Lemma authenticateTenantUser_summary {B} (req : Request B) w decoded :
  registry_wf (registry w) →
  presents_token env req w decoded →
  let a := authenticateTenantUser env req w in
  platformDb a.2 = platformDb w ∧ databases a.2 = databases w ∧
  stripe_log a.2 = stripe_log w ∧ clock a.2 = clock w ∧
  registry_wf (registry a.2) ∧
  ((∃ msg, a.1 = inr (Respond (json 401 (Message msg)))) ∨
   ∃ tenant db user req',
     a.1 = inr (Next req') ∧
     tenant_by_id w (claim_tenantId decoded) = Some tenant ∧
     Tenant.status tenant = "active" ∧
     databases w !! or_else (Tenant.dbConnectionString tenant) (DATABASE_URL env) = Some db ∧
     user_by_id db (claim_userId decoded) = Some user ∧
     req_body req' = req_body req ∧
     req_user req' = Some user ∧
     User.id user = claim_userId decoded ∧
     User.tenantId user = claim_tenantId decoded ∧
     req_tenant req' =
       Some {| ctx_id := claim_tenantId decoded;
               ctx_subdomain := Tenant.subdomain tenant;
               ctx_connectionString :=
                 or_else (Tenant.dbConnectionString tenant) (DATABASE_URL env) |}).
Proof.
  intros Hwf Htok. rewrite (authenticateTenantUser_after_token _ _ _ _ Htok).
  unfold after_token.
  destruct (tenant_by_id w (claim_tenantId decoded)) as [tenant|] eqn:Hten;
    [|repeat (split; [done|]); left; by eexists].
  destruct (String.eqb (Tenant.status tenant) "active") eqn:Hact; simpl;
    [|repeat (split; [done|]); left; by eexists].
  rewrite (getTenantDb_address _ _ Hwf).
  pose proof (getTenantDb_wf (or_else (Tenant.dbConnectionString tenant)
                                      (DATABASE_URL env)) _ Hwf) as Hwf'.
  destruct (databases w !! _) as [db|] eqn:Hdb;
    [|repeat (split; [done|]); left; by eexists].
  destruct (user_by_id db (claim_userId decoded)) as [user|] eqn:Hu;
    [|repeat (split; [done|]); left; by eexists].
  destruct (User.isActive user); simpl;
    [|repeat (split; [done|]); left; by eexists].
  destruct (Z.eqb (User.tenantId user) (Tenant.id tenant)) eqn:Hid; simpl;
    [|repeat (split; [done|]); left; by eexists].
  repeat (split; [done|]). right.
  apply String.eqb_eq in Hact. apply Z.eqb_eq in Hid.
  pose proof (find_by_id_id _ _ _ Hten) as Hk.
  pose proof (find_user_id _ _ _ Hu) as Hk'.
  eexists tenant, db, user, _. split; [reflexivity|]. simpl.
  repeat split; try done; congruence.
Qed.

Lemma rows_added_before {A} (table : TenantDb → list A) w0 w w' P :
  databases w = databases w0 → rows_added table w w' P → rows_added table w0 w' P.
Proof. intros Hd H address db' row Hdb Hin. rewrite <- Hd. by eapply H. Qed.

(** A route behind the authentication and a role gate either answers
    with an error message and leaves the stores alone, or runs its handler
    on the request the authentication has decorated. *)
Lemma guarded_route {B} roles (handler : Request B → M Response) (req : Request B)
    w decoded :
  registry_wf (registry w) →
  presents_token env req w decoded →
  let r := then_handle (then_gate (authenticateTenantUser env req)
                                  (requireTenantRole roles)) handler w in
  (databases r.2 = databases w ∧ ∃ code msg, r.1 = inr (json code (Message msg))) ∨
  ∃ req' w1 user tenant,
    r = handler req' w1 ∧
    tenant_by_id w (claim_tenantId decoded) = Some tenant ∧
    databases w1 = databases w ∧ registry_wf (registry w1) ∧
    req_body req' = req_body req ∧
    req_user req' = Some user ∧ User.id user = claim_userId decoded ∧
    req_tenant req' =
      Some {| ctx_id := claim_tenantId decoded;
              ctx_subdomain := Tenant.subdomain tenant;
              ctx_connectionString :=
                or_else (Tenant.dbConnectionString tenant) (DATABASE_URL env) |}.
Proof.
  intros Hwf Htok.
  destruct (authenticateTenantUser_summary req w decoded Hwf Htok)
    as (_ & Hd & _ & _ & Hwf' & Hcases).
  unfold then_handle, then_gate, bind, ret. simpl.
  destruct (authenticateTenantUser env req w) as [a w1]. simpl in *.
  destruct Hcases as [[msg ->] | (tenant & db & user & req' & -> & Hten & _ & _ & _ & Hb & Hu
                                  & Hid & _ & Hctx)].
  - left. split; [done|]. by eexists _, _.
  - unfold requireTenantRole. rewrite Hu. case_bool_decide.
    + right. by exists req', w1, user, tenant.
    + left. split; [done|]. by eexists _, _.
Qed.

(** C10: behind the authentication, whatever the body says and whatever
    the schema lets through, every row the four creation routes add to a
    store carries the tenant id of the token, which is the id of the
    tenant the authentication resolved, and, for customers, timesheets
    and expenses, the id of the authenticated user; the row answered with
    status 201 is such a row and is held by a store. *)
Theorem created_rows_carry_the_ids_of_the_caller (w : World) :
  registry_wf (registry w) →
  (∀ (req : Request UserBody) decoded,
      presents_token env req w decoded →
      let r := route_create_user env req w in
      let P := λ row, User.tenantId row = claim_tenantId decoded in
      rows_added users w r.2 P ∧
      ∀ row, r.1 = inr (json 201 (UserJson row)) → P row ∧ stored users r.2 row) ∧
  (∀ (req : Request JsValue) decoded,
      presents_token env req w decoded →
      let r := route_create_customer env req w in
      let P := λ row, Customer.tenantId row = claim_tenantId decoded ∧
                      Customer.createdById row = claim_userId decoded in
      rows_added customers w r.2 P ∧
      ∀ row, r.1 = inr (json 201 (CustomerJson row)) → P row ∧ stored customers r.2 row) ∧
  (∀ (req : Request JsValue) decoded,
      presents_token env req w decoded →
      let r := route_create_timesheet env req w in
      let P := λ row, Timesheet.tenantId row = claim_tenantId decoded ∧
                      Timesheet.userId row = claim_userId decoded in
      rows_added timesheets w r.2 P ∧
      ∀ row, r.1 = inr (json 201 (TimesheetJson row)) → P row ∧ stored timesheets r.2 row) ∧
  (∀ (req : Request JsValue) decoded,
      presents_token env req w decoded →
      let r := route_create_expense env req w in
      let P := λ row, Expense.tenantId row = claim_tenantId decoded ∧
                      Expense.userId row = claim_userId decoded in
      rows_added expenses w r.2 P ∧
      ∀ row, r.1 = inr (json 201 (ExpenseJson row)) → P row ∧ stored expenses r.2 row).
Proof.
  intros Hwf. split; [|split; [|split]]; intros req decoded Htok r P; subst r P.
  - unfold route_create_user, requireTenantManager.
    destruct (guarded_route ["admin"; "manager"] (create_user env) req w decoded Hwf Htok)
      as [[Hd (code & msg & ->)] | (req' & w1 & user & tenant & -> & _ & Hd & Hwf1 & _ & _ & _
                                    & Hctx)].
    { split; [by apply rows_added_refl|done]. }
    destruct (create_user_effect req' w1 _ Hwf1 Hctx) as [Hrows Hrow].
    split; [by eapply rows_added_before|].
    intros row Hr. destruct (Hrow row Hr) as [HP (db & Hdb & Hin)].
    split; [done|]. by eexists _, db.
  - unfold route_create_customer, requireTenantUser.
    destruct (guarded_route ["admin"; "manager"; "user"] (create_customer env) req w
                decoded Hwf Htok)
      as [[Hd (code & msg & ->)] | (req' & w1 & user & tenant & -> & _ & Hd & Hwf1 & _ & Hu
                                    & Hid & Hctx)].
    { split; [by apply rows_added_refl|done]. }
    destruct (create_customer_effect req' w1 _ user Hwf1 Hctx Hu) as [Hrows Hrow].
    simpl in *. rewrite Hid in *.
    split; [by eapply rows_added_before|].
    intros row Hr. destruct (Hrow row Hr) as [HP (db & Hdb & Hin)].
    split; [done|]. by eexists _, db.
  - unfold route_create_timesheet, requireTenantUser.
    destruct (guarded_route ["admin"; "manager"; "user"] (create_timesheet env) req w
                decoded Hwf Htok)
      as [[Hd (code & msg & ->)] | (req' & w1 & user & tenant & -> & _ & Hd & Hwf1 & _ & Hu
                                    & Hid & Hctx)].
    { split; [by apply rows_added_refl|done]. }
    destruct (create_timesheet_effect req' w1 _ user Hwf1 Hctx Hu) as [Hrows Hrow].
    simpl in *. rewrite Hid in *.
    split; [by eapply rows_added_before|].
    intros row Hr. destruct (Hrow row Hr) as [HP (db & Hdb & Hin)].
    split; [done|]. by eexists _, db.
  - unfold route_create_expense, requireTenantUser.
    destruct (guarded_route ["admin"; "manager"; "user"] (create_expense env) req w
                decoded Hwf Htok)
      as [[Hd (code & msg & ->)] | (req' & w1 & user & tenant & -> & _ & Hd & Hwf1 & _ & Hu
                                    & Hid & Hctx)].
    { split; [by apply rows_added_refl|done]. }
    destruct (create_expense_effect req' w1 _ user Hwf1 Hctx Hu) as [Hrows Hrow].
    simpl in *. rewrite Hid in *.
    split; [by eapply rows_added_before|].
    intros row Hr. destruct (Hrow row Hr) as [HP (db & Hdb & Hin)].
    split; [done|]. by eexists _, db.
Qed.

End record_properties.
(** ** The creation routes on the demo deployment *)

(** The body of the customer names tenant 999 and user 42; the row is
    attributed to tenant 5 and to alice, and a store holds it. The user
    alice creates belongs to tenant 5. The schemas of timesheets and of
    expenses refuse the body for its date, and the routes answer 500. *)
Lemma created_rows_carry_the_ids_of_the_caller_witness :
  (∃ row,
      (route_create_customer Demo.env Scenes.customer_request Demo.world).1
      = inr (json 201 (CustomerJson row)) ∧
      Customer.tenantId row = 5 ∧ Customer.createdById row = 1 ∧
      stored customers
        (route_create_customer Demo.env Scenes.customer_request Demo.world).2 row) ∧
  (∃ row,
      (route_create_user Demo.env (Demo.request "acme" (Some "alice.5") Scenes.carol_body)
                         Demo.world).1
      = inr (json 201 (UserJson row)) ∧
      User.tenantId row = 5 ∧
      stored users
        (route_create_user Demo.env (Demo.request "acme" (Some "alice.5") Scenes.carol_body)
                           Demo.world).2 row) ∧
  (route_create_timesheet Demo.env Demo.timesheet_request Demo.world).1
  = inr (json 500 (Message "Internal server error")) ∧
  (route_create_expense Demo.env Scenes.expense_request Demo.world).1
  = inr (json 500 (Message "Internal server error")).
Proof.
  destruct (created_rows_carry_the_ids_of_the_caller Demo.env Demo.world empty_wf)
    as (Huser & Hcustomer & _ & _).
  split; [|split; [|split]].
  - destruct (Hcustomer Scenes.customer_request Demo.alice_claims (demo_presents_alice _ _ _))
      as [_ Hrow].
    assert (Hres : ∃ row,
      (route_create_customer Demo.env Scenes.customer_request Demo.world).1
      = inr (json 201 (CustomerJson row))) by (vm_compute; eauto).
    destruct Hres as [row Hres]. exists row. split; [exact Hres|].
    destruct (Hrow row Hres) as [[Htenant Hcreator] Hstored].
    split; [exact Htenant|]. split; [exact Hcreator|exact Hstored].
  - destruct (Huser (Demo.request "acme" (Some "alice.5") Scenes.carol_body)
                Demo.alice_claims (demo_presents_alice _ _ _)) as [_ Hrow].
    assert (Hres : ∃ row,
      (route_create_user Demo.env (Demo.request "acme" (Some "alice.5") Scenes.carol_body)
                         Demo.world).1
      = inr (json 201 (UserJson row))) by (vm_compute; eauto).
    destruct Hres as [row Hres]. exists row. split; [exact Hres|].
    destruct (Hrow row Hres) as [Htenant Hstored].
    split; [exact Htenant|exact Hstored].
  - vm_compute. reflexivity.
  - vm_compute. reflexivity.
Defined.

(** ** The fallback to the platform store *)

Section fallback_properties.
Context (env : Env).
Import Db.
Open Scope list_scope.

Lemma getTenantDb_registered cs reg :
  is_Some (tenantConnections (getTenantDb cs reg).2 !! cs).
Proof. rewrite getTenantDb_lookup. by eexists. Qed.

(** C9: for a tenant whose dbConnectionString is null or empty,
    (1) the authentication middleware takes its pool from the registry
    under DATABASE_URL, loads the user from the store at DATABASE_URL and
    hands DATABASE_URL on as the connection string of the request;
    (2) the login route does the same to find the user by email;
    (3) the rows that the creation routes answer with status 201 are held
    by the store at DATABASE_URL;
    and (4) the tenant creation handler stores DATABASE_URL in the row of
    a tenant created without a connection string. *)
Theorem falsy_connection_string_falls_back_to_DATABASE_URL (w : World) :
  registry_wf (registry w) →
  (∀ B (req : Request B) decoded tenant,
      presents_token env req w decoded →
      tenant_by_id w (claim_tenantId decoded) = Some tenant →
      Tenant.status tenant = "active" →
      truthy (Tenant.dbConnectionString tenant) = false →
      let a := authenticateTenantUser env req w in
      registry a.2 = (getTenantDb (DATABASE_URL env) (registry w)).2 ∧
      is_Some (tenantConnections (registry a.2) !! DATABASE_URL env) ∧
      ∀ req', a.1 = inr (Next req') →
        ctx_connectionString <$> req_tenant req' = Some (DATABASE_URL env) ∧
        ∃ db, databases w !! DATABASE_URL env = Some db ∧
              req_user req' = user_by_id db (claim_userId decoded)) ∧
  (∀ (req : Request LoginBody) email tenant,
      lb_email (req_body req) = Some email → email ≠ "" →
      truthy (lb_password (req_body req)) = true →
      tenant_by_subdomain w (params_subdomain req) = Some tenant →
      Tenant.status tenant = "active" →
      truthy (Tenant.dbConnectionString tenant) = false →
      let r := tenant_login env req w in
      registry r.2 = (getTenantDb (DATABASE_URL env) (registry w)).2 ∧
      ∀ res user tenant' token,
        r.1 = inr res → res_json res = LoginOk user tenant' token →
        ∃ db, databases w !! DATABASE_URL env = Some db ∧
              user_by_email db email = Some user) ∧
  (∀ decoded tenant,
      tenant_by_id w (claim_tenantId decoded) = Some tenant →
      truthy (Tenant.dbConnectionString tenant) = false →
      (∀ (req : Request UserBody) row,
          presents_token env req w decoded →
          (route_create_user env req w).1 = inr (json 201 (UserJson row)) →
          ∃ db, databases (route_create_user env req w).2 !! DATABASE_URL env = Some db ∧
                row ∈ users db) ∧
      (∀ (req : Request JsValue),
          presents_token env req w decoded →
          (∀ row,
              (route_create_customer env req w).1 = inr (json 201 (CustomerJson row)) →
              ∃ db, databases (route_create_customer env req w).2 !! DATABASE_URL env
                    = Some db ∧ row ∈ customers db) ∧
          (∀ row,
              (route_create_timesheet env req w).1 = inr (json 201 (TimesheetJson row)) →
              ∃ db, databases (route_create_timesheet env req w).2 !! DATABASE_URL env
                    = Some db ∧ row ∈ timesheets db) ∧
          (∀ row,
              (route_create_expense env req w).1 = inr (json 201 (ExpenseJson row)) →
              ∃ db, databases (route_create_expense env req w).2 !! DATABASE_URL env
                    = Some db ∧ row ∈ expenses db))) ∧
  (∀ (req : Request JsValue) validatedData tenant,
      insertTenantSchema_parse env (req_body req) = Some validatedData →
      truthy (InsertTenant.dbConnectionString validatedData) = false →
      (platform_create_tenant env req w).1 = inr (json 201 (TenantJson tenant)) →
      Tenant.dbConnectionString tenant = Some (DATABASE_URL env) ∧
      tenant ∈ tenants (platformDb (platform_create_tenant env req w).2)).
Proof.
  intros Hwf. split; [|split; [|split]].
  - intros B req decoded tenant Htok Hten Hact Hfalsy a. subst a.
    rewrite (authenticateTenantUser_after_token _ _ _ _ Htok).
    unfold after_token. rewrite Hten, Hact. simpl.
    rewrite (or_else_falsy _ _ Hfalsy), (getTenantDb_address _ _ Hwf).
    destruct (databases w !! DATABASE_URL env) as [db|] eqn:Hdb.
    2:{ split; [done|]. split; [apply getTenantDb_registered|done]. }
    destruct (user_by_id db (claim_userId decoded)) as [user|] eqn:Hu.
    2:{ split; [done|]. split; [apply getTenantDb_registered|done]. }
    destruct (negb (User.isActive user) || negb _) eqn:Hbad.
    { split; [done|]. split; [apply getTenantDb_registered|done]. }
    split; [done|]. split; [apply getTenantDb_registered|].
    intros req' [= <-]. simpl. split; [done|]. by exists db.
  - intros req email tenant He Hne Hp Hten Hact Hfalsy r. subst r.
    unfold tenant_by_subdomain in Hten.
    unfold tenant_login, try_catch, bind, getTenantBySubdomain, ret.
    rewrite He, (truthy_Some _ Hne), Hp. simpl. rewrite Hten, Hact. simpl.
    rewrite (or_else_falsy _ _ Hfalsy).
    destruct (createTenantStorage_run (DATABASE_URL env) w Hwf) as (s & -> & Hs).
    unfold getUserByEmail, query. simpl. rewrite Hs.
    destruct (databases w !! DATABASE_URL env) as [db|] eqn:Hdb; simpl.
    2:{ split; [done|]. by intros res user tenant' token [= <-]. }
    fold (user_by_email db email).
    destruct (user_by_email db email) as [user|] eqn:Hu; simpl.
    2:{ split; [done|]. by intros res user tenant' token [= <-]. }
    destruct (negb (Z.eqb _ _)); simpl.
    { split; [done|]. by intros res user' tenant' token [= <-]. }
    destruct (negb (comparePasswords _ _ _)); simpl.
    { split; [done|]. by intros res user' tenant' token [= <-]. }
    destruct (negb (User.isActive user)); simpl.
    { split; [done|]. by intros res user' tenant' token [= <-]. }
    split; [done|]. intros res user' tenant' token [= <-]. simpl.
    intros [= <- _ _]. by exists db.
  - intros decoded tenant Hten Hfalsy. split; [|intros req Htok; split; [|split]].
    + intros req row Htok. unfold route_create_user, requireTenantManager.
      destruct (guarded_route env ["admin"; "manager"] (create_user env) req w decoded
                  Hwf Htok)
        as [[Hd (code & msg & ->)] | (req' & w1 & user & tenant' & -> & Hten' & Hd & Hwf1
                                      & _ & _ & _ & Hctx)]; [done|].
      intros Hr. destruct (create_user_effect env req' w1 _ Hwf1 Hctx) as [_ Hrow].
      destruct (Hrow row Hr) as [_ Hin]. simpl in Hin.
      rewrite Hten in Hten'. injection Hten' as <-.
      by rewrite (or_else_falsy _ _ Hfalsy) in Hin.
    + intros row. unfold route_create_customer, requireTenantUser.
      destruct (guarded_route env ["admin"; "manager"; "user"] (create_customer env) req w
                  decoded Hwf Htok)
        as [[Hd (code & msg & ->)] | (req' & w1 & user & tenant' & -> & Hten' & Hd & Hwf1
                                      & _ & Hu & _ & Hctx)]; [done|].
      intros Hr. destruct (create_customer_effect env req' w1 _ user Hwf1 Hctx Hu)
        as [_ Hrow].
      destruct (Hrow row Hr) as [_ Hin]. simpl in Hin.
      rewrite Hten in Hten'. injection Hten' as <-.
      by rewrite (or_else_falsy _ _ Hfalsy) in Hin.
    + intros row. unfold route_create_timesheet, requireTenantUser.
      destruct (guarded_route env ["admin"; "manager"; "user"] (create_timesheet env) req w
                  decoded Hwf Htok)
        as [[Hd (code & msg & ->)] | (req' & w1 & user & tenant' & -> & Hten' & Hd & Hwf1
                                      & _ & Hu & _ & Hctx)]; [done|].
      intros Hr. destruct (create_timesheet_effect env req' w1 _ user Hwf1 Hctx Hu)
        as [_ Hrow].
      destruct (Hrow row Hr) as [_ Hin]. simpl in Hin.
      rewrite Hten in Hten'. injection Hten' as <-.
      by rewrite (or_else_falsy _ _ Hfalsy) in Hin.
    + intros row. unfold route_create_expense, requireTenantUser.
      destruct (guarded_route env ["admin"; "manager"; "user"] (create_expense env) req w
                  decoded Hwf Htok)
        as [[Hd (code & msg & ->)] | (req' & w1 & user & tenant' & -> & Hten' & Hd & Hwf1
                                      & _ & Hu & _ & Hctx)]; [done|].
      intros Hr. destruct (create_expense_effect env req' w1 _ user Hwf1 Hctx Hu)
        as [_ Hrow].
      destruct (Hrow row Hr) as [_ Hin]. simpl in Hin.
      rewrite Hten in Hten'. injection Hten' as <-.
      by rewrite (or_else_falsy _ _ Hfalsy) in Hin.
  - intros req d tenant Hparse Hfalsy.
    unfold platform_create_tenant, try_catch, bind, parse, getTenantBySubdomain,
      createTenant, ret. rewrite Hparse. simpl.
    destruct (List.find _ _); simpl; [done|].
    destruct (existsb _ _); simpl; [done|].
    intros [= <-]. simpl. rewrite (or_else_falsy _ _ Hfalsy).
    split; [done|]. apply elem_of_app. right. by left.
Qed.

End fallback_properties.

(** ** The fallback on the demo deployment: acme has no store of its own *)

(** alice is authenticated and logs in against the store at DATABASE_URL;
    the customer and the user she creates are held by that store; a
    tenant registered without a connection string gets DATABASE_URL. *)
Lemma falsy_connection_string_falls_back_to_DATABASE_URL_witness :
  (∃ req',
      (authenticateTenantUser Demo.env (Demo.request "acme" (Some "alice.5") tt)
                              Demo.world).1 = inr (Next req') ∧
      ctx_connectionString <$> req_tenant req' = Some "postgres://platform") ∧
  (∃ res user db,
      (tenant_login Demo.env Demo.login_request Demo.world).1 = inr res ∧
      res_status res = 200 ∧
      databases Demo.world !! "postgres://platform" = Some db ∧
      user_by_email db "alice@acme.test" = Some user) ∧
  (∃ row db,
      (route_create_customer Demo.env Scenes.customer_request Demo.world).1
      = inr (json 201 (CustomerJson row)) ∧
      databases (route_create_customer Demo.env Scenes.customer_request Demo.world).2
        !! "postgres://platform" = Some db ∧
      row ∈ customers db) ∧
  (∃ row db,
      (route_create_user Demo.env (Demo.request "acme" (Some "alice.5") Scenes.carol_body)
                         Demo.world).1
      = inr (json 201 (UserJson row)) ∧
      databases (route_create_user Demo.env
                   (Demo.request "acme" (Some "alice.5") Scenes.carol_body) Demo.world).2
        !! "postgres://platform" = Some db ∧
      row ∈ users db) ∧
  (∃ tenant,
      (platform_create_tenant Demo.env Demo.tenant_request Demo.world).1
      = inr (json 201 (TenantJson tenant)) ∧
      Tenant.dbConnectionString tenant = Some "postgres://platform").
Proof.
  destruct (falsy_connection_string_falls_back_to_DATABASE_URL Demo.env Demo.world empty_wf)
    as (Hauth & Hlogin & Hroutes & Hcreate).
  split; [|split; [|split; [|split]]].
  - destruct (Hauth _ (Demo.request "acme" (Some "alice.5") tt) Demo.alice_claims Demo.acme
                (demo_presents_alice _ _ _) eq_refl eq_refl eq_refl) as (_ & _ & Hnext).
    assert (Hres : ∃ req',
      (authenticateTenantUser Demo.env (Demo.request "acme" (Some "alice.5") tt)
                              Demo.world).1 = inr (Next req')) by (vm_compute; eauto).
    destruct Hres as [req' Hres]. exists req'. split; [exact Hres|].
    exact (proj1 (Hnext req' Hres)).
  - assert (Hne : "alice@acme.test" ≠ "") by discriminate.
    destruct (Hlogin Demo.login_request "alice@acme.test" Demo.acme eq_refl Hne eq_refl
                eq_refl eq_refl eq_refl) as (_ & Hok).
    assert (Hres : ∃ user tenant token,
      (tenant_login Demo.env Demo.login_request Demo.world).1
      = inr {| res_status := 200; res_json := LoginOk user tenant token;
               res_cookie := Some ("tenantToken", token) |}) by (vm_compute; eauto).
    destruct Hres as (user & tenant & token & Hres).
    destruct (Hok _ user tenant token Hres eq_refl) as (db & Hdb & Hu).
    by eexists _, user, db.
  - destruct (Hroutes Demo.alice_claims Demo.acme eq_refl eq_refl) as (_ & Hrows).
    destruct (Hrows Scenes.customer_request (demo_presents_alice _ _ _)) as (Hc & _ & _).
    assert (Hres : ∃ row,
      (route_create_customer Demo.env Scenes.customer_request Demo.world).1
      = inr (json 201 (CustomerJson row))) by (vm_compute; eauto).
    destruct Hres as [row Hres]. destruct (Hc row Hres) as (db & Hdb & Hin).
    by exists row, db.
  - destruct (Hroutes Demo.alice_claims Demo.acme eq_refl eq_refl) as (Husers & _).
    assert (Hres : ∃ row,
      (route_create_user Demo.env (Demo.request "acme" (Some "alice.5") Scenes.carol_body)
                         Demo.world).1
      = inr (json 201 (UserJson row))) by (vm_compute; eauto).
    destruct Hres as [row Hres].
    destruct (Husers _ row (demo_presents_alice _ _ _) Hres) as (db & Hdb & Hin).
    by exists row, db.
  - assert (Hres : ∃ tenant,
      (platform_create_tenant Demo.env Demo.tenant_request Demo.world).1
      = inr (json 201 (TenantJson tenant))) by (vm_compute; eauto).
    destruct Hres as [tenant Hres]. exists tenant. split; [exact Hres|].
    destruct (Hcreate Demo.tenant_request _ tenant eq_refl eq_refl Hres) as [Hcs _].
    exact Hcs.
Defined.

(** ** More on the registry and the token extraction *)

Section registry_extras.
Import Db.
Open Scope list_scope.

Lemma wf_addresses_NoDup reg :
  registry_wf reg → NoDup (connectionString <$> constructed reg).
Proof.
  intros [_ Hp]. apply NoDup_alt. intros i j a Hi Hj.
  rewrite list_lookup_fmap in Hi, Hj.
  destruct (constructed reg !! i) as [ci|] eqn:Ei; [|done].
  destruct (constructed reg !! j) as [cj|] eqn:Ej; [|done].
  simpl in *. injection Hi as Hi. injection Hj as Hj.
  pose proof (Hp _ _ Ei) as Hmi. pose proof (Hp _ _ Ej) as Hmj.
  rewrite Hi in Hmi. rewrite Hj in Hmj. rewrite Hmi in Hmj. by injection Hmj.
Qed.

Lemma wf_address_registered reg a :
  registry_wf reg →
  a ∈ (connectionString <$> constructed reg) ↔ is_Some (tenantConnections reg !! a).
Proof.
  intros [He Hp]. split.
  - intros Hin. apply list_elem_of_fmap in Hin as (c & -> & Hc).
    apply list_elem_of_lookup in Hc as [i Hi]. rewrite (Hp _ _ Hi). by eexists.
  - intros [h Hh]. destruct (He _ _ Hh) as [Ha Hc].
    apply list_elem_of_fmap. exists (pool_config h). split; [done|].
    apply list_elem_of_lookup. by eexists.
Qed.

Lemma getTenantDb_registered_iff cs reg a :
  is_Some (tenantConnections (getTenantDb cs reg).2 !! a) ↔
  a = cs ∨ is_Some (tenantConnections reg !! a).
Proof.
  unfold getTenantDb. destruct (tenantConnections reg !! cs) as [h|] eqn:E; simpl.
  - split; [by right|]. intros [->|H]; [by eexists|done].
  - rewrite lookup_insert. case_decide as Hd.
    + subst. split; [by left|]. intros _. by eexists.
    + split; [by right|]. intros [->|H]; [done|done].
Qed.

Lemma run_calls_registered_iff calls reg a :
  is_Some (tenantConnections (run_calls calls reg).2 !! a) ↔
  a ∈ calls ∨ is_Some (tenantConnections reg !! a).
Proof.
  revert reg. induction calls as [|cs rest IH]; intros reg.
  - simpl. split; [by right|]. intros [H|H]; [by apply elem_of_nil in H|done].
  - rewrite run_calls_cons. simpl. rewrite IH, getTenantDb_registered_iff, elem_of_cons.
    tauto.
Qed.

Lemma getTenantDb_configs cs reg :
  Forall (λ c, c = tenantPoolConfig (connectionString c)) (constructed reg) →
  Forall (λ c, c = tenantPoolConfig (connectionString c)) (constructed (getTenantDb cs reg).2).
Proof.
  intros H. unfold getTenantDb. destruct (tenantConnections reg !! cs); simpl; [done|].
  apply Forall_app. split; [done|]. by apply Forall_singleton.
Qed.

Lemma run_calls_configs calls reg :
  Forall (λ c, c = tenantPoolConfig (connectionString c)) (constructed reg) →
  Forall (λ c, c = tenantPoolConfig (connectionString c))
         (constructed (run_calls calls reg).2).
Proof.
  revert reg. induction calls as [|cs rest IH]; intros reg H; [done|].
  rewrite run_calls_cons. simpl. by apply IH, getTenantDb_configs.
Qed.

(** X1: a process that starts with an empty registry holds, after any
    schedule of calls, one pool for each distinct address requested and no
    other: the addresses of the pools are pairwise distinct and are exactly
    the addresses called, and every pool is bounded by five connections
    with the timeouts of db.ts. *)
Theorem pools_are_the_distinct_addresses (calls : list string) :
  let reg' := (run_calls calls Db.empty).2 in
  NoDup (connectionString <$> constructed reg') ∧
  (∀ a, a ∈ (connectionString <$> constructed reg') ↔ a ∈ calls) ∧
  length (constructed reg') = size (list_to_set calls : gset string) ∧
  Forall (λ c, max c = 5 ∧ idleTimeoutMillis c = 60000 ∧
               connectionTimeoutMillis c = 10000 ∧ keepAlive c = true)
         (constructed reg').
Proof.
  intros reg'.
  assert (Hwf : registry_wf reg') by apply run_calls_wf, empty_wf.
  assert (Hnd := wf_addresses_NoDup _ Hwf).
  assert (Hel : ∀ a, a ∈ (connectionString <$> constructed reg') ↔ a ∈ calls).
  { intros a. rewrite (wf_address_registered _ _ Hwf). unfold reg'.
    rewrite run_calls_registered_iff. simpl. rewrite lookup_empty.
    split; [intros [H|[? H]]; done | by left]. }
  split; [done|]. split; [done|]. split.
  - rewrite <- (length_fmap connectionString).
    rewrite <- (size_list_to_set (C := gset string)) by done.
    f_equal. apply set_eq. intros a. rewrite !elem_of_list_to_set. apply Hel.
  - eapply Forall_impl; [apply (run_calls_configs calls Db.empty); by constructor|].
    intros c ->. done.
Qed.

End registry_extras.

Section token_extraction.

Lemma substring_all (s : string) : String.substring 0 (String.length s) s = s.
Proof. induction s as [|c s IH]; [done|]. simpl. by rewrite IH. Qed.

(** X2: the token is what follows the prefix Bearer in the Authorization
    header; such a header wins over the tenantToken cookie, and the cookie
    is used when there is no header or when the header does not start with
    that prefix. *)
Theorem bearer_header_round_trip (token : string) (cookie : option string) :
  bearer_or_cookie (Some ("Bearer " ++ token)) cookie = Some token ∧
  bearer_or_cookie None cookie = cookie ∧
  (∀ header, String.prefix "Bearer " header = false →
             bearer_or_cookie (Some header) cookie = cookie).
Proof.
  split; [|split].
  - unfold bearer_or_cookie. simpl.
    change (String.app "" token) with token.
    destruct token as [|c token]; [done|].
    change (String.prefix "" (String c token)) with true. cbv iota.
    rewrite Nat.sub_0_r. by rewrite substring_all.
  - done.
  - intros header Hp. unfold bearer_or_cookie. by rewrite Hp.
Qed.

End token_extraction.

(** ** More on the tenant authentication *)

Section auth_extras.
Context (env : Env).
Import Db.
Open Scope list_scope.

Lemma truthy_inv s : truthy s = true → ∃ t, s = Some t ∧ t ≠ "".
Proof.
  destruct s as [t|]; simpl; [|done]. destruct (String.eqb t "") eqn:E; [done|].
  intros _. exists t. split; [done|]. by apply String.eqb_neq.
Qed.

(** The middleware hands the request on as it came, with user and tenant
    attached, and touches nothing but the registry. *)
Lemma authenticateTenantUser_frame {B} (req : Request B) w :
  let a := authenticateTenantUser env req w in
  platformDb a.2 = platformDb w ∧ databases a.2 = databases w ∧
  stripe_log a.2 = stripe_log w ∧ clock a.2 = clock w ∧
  (∃ o, a.1 = inr o) ∧
  ∀ req', a.1 = inr (Next req') →
    params_subdomain req' = params_subdomain req ∧ req_body req' = req_body req ∧
    is_Some (req_user req') ∧ is_Some (req_tenant req').
Proof.
  unfold authenticateTenantUser, try_catch, bind, verifyToken, getTenant,
    createTenantStorage, getUser, query, ret. simpl.
  destruct (negb (truthy _)); simpl;
    [repeat (split; [done|]); split; [by eexists|done]|].
  destruct (jwt_verify _ _ _) as [decoded|]; simpl;
    [|repeat (split; [done|]); split; [by eexists|done]].
  destruct (List.find _ _) as [tenant|]; simpl;
    [|repeat (split; [done|]); split; [by eexists|done]].
  destruct (negb (String.eqb _ _)); simpl;
    [repeat (split; [done|]); split; [by eexists|done]|].
  destruct (getTenantDb _ _) as [h reg]; simpl.
  destruct (_ !! _) as [db|]; simpl;
    [|repeat (split; [done|]); split; [by eexists|done]].
  destruct (List.find _ _) as [user|]; simpl;
    [|repeat (split; [done|]); split; [by eexists|done]].
  destruct (negb _ || negb _); simpl;
    [repeat (split; [done|]); split; [by eexists|done]|].
  repeat (split; [done|]). split; [by eexists|].
  intros req' [= <-]. simpl. by repeat split; eauto.
Qed.

(** X3: an Authorization header that is the prefix Bearer with nothing
    after it is answered 401, Access token required, whatever the cookie
    holds, and nothing is changed. *)
Theorem empty_bearer_hides_the_cookie {B} (req : Request B) (w : World) :
  headers_authorization req = Some "Bearer " →
  authenticateTenantUser env req w
  = (inr (Respond (json 401 (Message "Access token required"))), w).
Proof.
  intros Hh. unfold authenticateTenantUser, try_catch, bind, ret. by rewrite Hh.
Qed.

(** X4: the tenant authentication never throws and never answers with a
    status other than 401: it calls next or sends one of four messages. It
    leaves the platform store, the tenant stores, the provider and the
    clock alone, and it touches the registry of pools only for a request
    whose token has been verified and names an active tenant. *)
Theorem authenticateTenantUser_answers_401_only {B} (req : Request B) (w : World) :
  let a := authenticateTenantUser env req w in
  platformDb a.2 = platformDb w ∧ databases a.2 = databases w ∧
  stripe_log a.2 = stripe_log w ∧ clock a.2 = clock w ∧
  ((∃ req', a.1 = inr (Next req')) ∨
   (∃ msg, a.1 = inr (Respond (json 401 (Message msg))) ∧
           msg ∈ ["Access token required"; "Invalid or inactive tenant";
                  "Invalid or inactive user"; "Invalid token"])) ∧
  (registry a.2 ≠ registry w →
   ∃ decoded tenant,
     presents_token env req w decoded ∧
     tenant_by_id w (claim_tenantId decoded) = Some tenant ∧
     Tenant.status tenant = "active").
Proof.
  unfold authenticateTenantUser, try_catch, bind, verifyToken, getTenant,
    createTenantStorage, getUser, query, ret, presents_token, tenant_by_id. simpl.
  destruct (truthy (bearer_or_cookie _ _)) eqn:Htok; simpl.
  2:{ repeat (split; [done|]). split; [|done]. right. eexists. split; [done|]. by left. }
  apply truthy_inv in Htok as (token & Htok & Hne). rewrite Htok. simpl.
  destruct (jwt_verify _ _ _) as [decoded|] eqn:Hver; simpl.
  2:{ repeat (split; [done|]). split; [|done]. right. eexists. split; [done|].
      do 3 right. by left. }
  destruct (List.find _ _) as [tenant|] eqn:Hten; simpl.
  2:{ repeat (split; [done|]). split; [|done]. right. eexists. split; [done|].
      right. by left. }
  destruct (String.eqb (Tenant.status tenant) "active") eqn:Hact; simpl.
  2:{ repeat (split; [done|]). split; [|done]. right. eexists. split; [done|].
      right. by left. }
  apply String.eqb_eq in Hact.
  assert (Hwhy : ∃ decoded0 tenant0,
    (∃ token0, Some token = Some token0 ∧ token0 ≠ "" ∧
               jwt_verify env (clock w) token0 = Some decoded0) ∧
    List.find (λ t, Z.eqb (Tenant.id t) (claim_tenantId decoded0)) (tenants (platformDb w))
    = Some tenant0 ∧ Tenant.status tenant0 = "active").
  { exists decoded, tenant. split; [by exists token|done]. }
  destruct (getTenantDb _ _) as [h reg]; simpl.
  destruct (databases w !! _) as [db|]; simpl.
  2:{ repeat (split; [done|]). split; [|done]. right. eexists. split; [done|].
      do 3 right. by left. }
  destruct (List.find _ (users db)) as [user|]; simpl.
  2:{ repeat (split; [done|]). split; [|done]. right. eexists. split; [done|].
      do 2 right. by left. }
  destruct (negb _ || negb _); simpl.
  { repeat (split; [done|]). split; [|done]. right. eexists. split; [done|].
    do 2 right. by left. }
  repeat (split; [done|]). split; [|done]. left. by eexists.
Qed.

(** X5: when no store answers at the address of the tenant, a request
    with a good token for an active tenant is answered 401 with the
    message Invalid token, and the pool for that address has nevertheless
    been entered in the registry. *)
Theorem unreachable_store_is_reported_as_invalid_token {B} (req : Request B) (w : World)
    (decoded : Claims) (tenant : Tenant.t) :
  registry_wf (registry w) →
  presents_token env req w decoded →
  tenant_by_id w (claim_tenantId decoded) = Some tenant →
  Tenant.status tenant = "active" →
  databases w !! or_else (Tenant.dbConnectionString tenant) (DATABASE_URL env) = None →
  let address := or_else (Tenant.dbConnectionString tenant) (DATABASE_URL env) in
  authenticateTenantUser env req w
  = (inr (Respond (json 401 (Message "Invalid token"))),
     set_registry (getTenantDb address (registry w)).2 w) ∧
  is_Some (tenantConnections (getTenantDb address (registry w)).2 !! address).
Proof.
  intros Hwf Htok Hten Hact Hdb address. split.
  - rewrite (authenticateTenantUser_after_token _ _ _ _ Htok).
    unfold after_token. rewrite Hten, Hact. simpl.
    by rewrite (getTenantDb_address _ _ Hwf), Hdb.
  - rewrite getTenantDb_lookup. by eexists.
Qed.

(** X6: of the claims of a verified token the middleware uses the user id
    and the tenant id and nothing else: a verifier that answers with other
    role and type claims for the same subject gives the same outcome. The
    role a gate then checks is the role of the stored user row. *)
Theorem token_role_and_type_are_ignored {B} (req : Request B) (w : World)
    (verify : Z → string → option Claims) (roles : list string) :
  (∀ now token, subject <$> verify now token = subject <$> jwt_verify env now token) →
  authenticateTenantUser (with_jwt_verify verify env) req w
  = authenticateTenantUser env req w ∧
  ∀ req', (then_gate (authenticateTenantUser env req) (requireTenantRole roles) w).1
          = inr (Next req') →
    ∃ user, req_user req' = Some user ∧ User.role user ∈ roles ∧
            (authenticateTenantUser env req w).1 = inr (Next req').
Proof.
  intros Hsame. split.
  - unfold authenticateTenantUser, try_catch, bind, verifyToken. simpl.
    destruct (negb (truthy _)); [done|].
    specialize (Hsame (clock w) (default "" (bearer_or_cookie (headers_authorization req)
                                                            (cookies_tenantToken req)))).
    destruct (verify _ _) as [d1|]; destruct (jwt_verify env _ _) as [d2|];
      simpl in Hsame; try done.
    injection Hsame as Hu Ht. simpl. unfold getTenant, ret. simpl. rewrite Ht.
    destruct (List.find _ _) as [tenant|]; [|done].
    destruct (negb (String.eqb _ _)); [done|].
    unfold createTenantStorage. destruct (getTenantDb _ _) as [h reg].
    unfold getUser, query. simpl.
    destruct (databases w !! store_address _) as [db|]; [|done]. by rewrite Hu.
  - intros req'. unfold then_gate, bind, ret.
    destruct (authenticateTenantUser env req w) as [[e|[r|res]] w1]; simpl; try done.
    unfold requireTenantRole. destruct (req_user r) as [user|] eqn:Hu; [|done].
    case_bool_decide; [|done]. intros [= <-]. by exists user.
Qed.

(** X19: a request whose authenticated user has a role outside the list
    of a gate is answered 403, Insufficient permissions; the handler
    behind the gate does not run, so the stores are as they were. *)
Theorem gate_refusal_stops_the_route {B} (roles : list string)
    (handler : Request B → M Response) (req req' : Request B) (w : World) (user : User.t) :
  (authenticateTenantUser env req w).1 = inr (Next req') →
  req_user req' = Some user →
  User.role user ∉ roles →
  let r := then_handle (then_gate (authenticateTenantUser env req)
                                  (requireTenantRole roles)) handler w in
  r.1 = inr (json 403 (Message "Insufficient permissions")) ∧
  r.2 = (authenticateTenantUser env req w).2 ∧
  databases r.2 = databases w ∧ platformDb r.2 = platformDb w.
Proof.
  intros Hnext Hu Hrole r. subst r.
  destruct (authenticateTenantUser_frame req w) as (Hp & Hd & _ & _ & _ & _).
  unfold then_handle, then_gate, bind, ret.
  destruct (authenticateTenantUser env req w) as [a w1]. simpl in *. subst a. simpl.
  unfold requireTenantRole. rewrite Hu. by rewrite bool_decide_eq_false_2.
Qed.

End auth_extras.

(** ** Login, user creation and how they compose *)

Section login_extras.
Context (env : Env).
Import Db.
Open Scope list_scope.

Lemma find_by_key {A} (f : A → Z) (l : list A) (x : A) :
  NoDup (f <$> l) → x ∈ l → List.find (λ y, Z.eqb (f y) (f x)) l = Some x.
Proof.
  induction l as [|a l IH]; intros Hnd Hin; [by apply elem_of_nil in Hin|].
  simpl in *. apply NoDup_cons in Hnd as [Hna Hnd].
  apply elem_of_cons in Hin as [->|Hin]; [by rewrite Z.eqb_refl|].
  destruct (Z.eqb (f a) (f x)) eqn:E; [|by apply IH].
  apply Z.eqb_eq in E. exfalso. apply Hna. rewrite E.
  apply list_elem_of_fmap. by exists x.
Qed.

Lemma find_elem_of {A} (p : A → bool) (l : list A) (x : A) :
  List.find p l = Some x → x ∈ l ∧ p x = true.
Proof. intros H. apply List.find_some in H as [Hin Hp]. by rewrite list_elem_of_In. Qed.

Lemma find_snoc {A} (p : A → bool) (l : list A) (x : A) :
  List.find p l = None → p x = true → List.find p (l ++ [x]) = Some x.
Proof.
  intros Hn Hp. induction l as [|a l IH]; simpl in *; [by rewrite Hp|].
  destruct (p a); [done|]. by apply IH.
Qed.

Lemma set_registry_same w : set_registry (registry w) w = w.
Proof. by destruct w. Qed.

Lemma getTenantDb_again cs reg :
  getTenantDb cs (getTenantDb cs reg).2 = getTenantDb cs reg.
Proof.
  rewrite (getTenantDb_hit cs _ _ (getTenantDb_lookup cs reg)).
  by destruct (getTenantDb cs reg).
Qed.

(** The login once the body has been accepted and the tenant found. *)
Lemma tenant_login_found (req : Request LoginBody) w email password tenant db :
  registry_wf (registry w) →
  lb_email (req_body req) = Some email → email ≠ "" →
  lb_password (req_body req) = Some password → password ≠ "" →
  tenant_by_subdomain w (params_subdomain req) = Some tenant →
  Tenant.status tenant = "active" →
  databases w !! or_else (Tenant.dbConnectionString tenant) (DATABASE_URL env) = Some db →
  tenant_login env req w =
    (inr match user_by_email db email with
         | None => json 401 (Message "Invalid credentials")
         | Some user =>
             if negb (Z.eqb (User.tenantId user) (Tenant.id tenant))
             then json 401 (Message "Invalid credentials")
             else if negb (comparePasswords env password (User.password user))
             then json 401 (Message "Invalid credentials")
             else if negb (User.isActive user)
             then json 401 (Message "Account is disabled")
             else
               let token := generateToken env
                 {| claim_userId := User.id user; claim_tenantId := Tenant.id tenant;
                    claim_role := User.role user; claim_type := "tenant" |} in
               {| res_status := 200; res_json := LoginOk user tenant token;
                  res_cookie := Some ("tenantToken", token) |}
         end,
     set_registry (getTenantDb (or_else (Tenant.dbConnectionString tenant)
                                        (DATABASE_URL env)) (registry w)).2 w).
Proof.
  intros Hwf He Hne Hp Hnp Hten Hact Hdb. unfold tenant_by_subdomain in Hten.
  unfold tenant_login, try_catch, bind, getTenantBySubdomain, ret.
  rewrite He, Hp, (truthy_Some _ Hne), (truthy_Some _ Hnp). simpl.
  rewrite Hten, Hact. simpl.
  destruct (createTenantStorage_run
              (or_else (Tenant.dbConnectionString tenant) (DATABASE_URL env)) w Hwf)
    as (s & -> & Hs).
  unfold getUserByEmail, query. simpl. rewrite Hs, Hdb. simpl.
  fold (user_by_email db email).
  destruct (user_by_email db email) as [user|]; [|done].
  destruct (negb (Z.eqb _ _)); [done|].
  destruct (negb (comparePasswords _ _ _)); [done|].
  by destruct (negb (User.isActive user)).
Qed.

(** X7: at the login of an active tenant, an unknown email, the email
    of a user of another tenant and a wrong password get the same answer,
    401 with the message Invalid credentials; that an account is disabled
    is told only to a caller who knows its password. *)
Theorem login_failures_are_uniform (req : Request LoginBody) (w : World)
    (email password : string) (tenant : Tenant.t) (db : TenantDb) :
  registry_wf (registry w) →
  lb_email (req_body req) = Some email → email ≠ "" →
  lb_password (req_body req) = Some password → password ≠ "" →
  tenant_by_subdomain w (params_subdomain req) = Some tenant →
  Tenant.status tenant = "active" →
  databases w !! or_else (Tenant.dbConnectionString tenant) (DATABASE_URL env) = Some db →
  ((user_by_email db email = None ∨
    ∃ user, user_by_email db email = Some user ∧
            (User.tenantId user ≠ Tenant.id tenant ∨
             comparePasswords env password (User.password user) = false)) →
   (tenant_login env req w).1 = inr (json 401 (Message "Invalid credentials"))) ∧
  ((tenant_login env req w).1 = inr (json 401 (Message "Account is disabled")) →
   ∃ user, user_by_email db email = Some user ∧ User.isActive user = false ∧
           comparePasswords env password (User.password user) = true).
Proof.
  intros Hwf He Hne Hp Hnp Hten Hact Hdb.
  rewrite (tenant_login_found req w email password tenant db) by done. simpl.
  split.
  - intros [-> | (user & -> & [Hid | Hpw])]; [done| |].
    + apply Z.eqb_neq in Hid. by rewrite Hid.
    + rewrite Hpw. simpl. by destruct (negb (Z.eqb _ _)).
  - destruct (user_by_email db email) as [user|]; [|done].
    destruct (negb (Z.eqb _ _)); [done|].
    destruct (comparePasswords env password (User.password user)) eqn:Hpw; [|done].
    simpl. destruct (User.isActive user) eqn:Hia; [done|].
    intros _. by exists user.
Qed.

Lemma tenant_login_ok_inv (req : Request LoginBody) w res user tenant token :
  registry_wf (registry w) →
  (tenant_login env req w).1 = inr res →
  res_json res = LoginOk user tenant token →
  ∃ email db,
    lb_email (req_body req) = Some email ∧
    tenant_by_subdomain w (params_subdomain req) = Some tenant ∧
    Tenant.status tenant = "active" ∧
    databases w !! or_else (Tenant.dbConnectionString tenant) (DATABASE_URL env) = Some db ∧
    user_by_email db email = Some user ∧
    User.tenantId user = Tenant.id tenant ∧ User.isActive user = true ∧
    token = generateToken env
      {| claim_userId := User.id user; claim_tenantId := Tenant.id tenant;
         claim_role := User.role user; claim_type := "tenant" |} ∧
    res_cookie res = Some ("tenantToken", token) ∧
    (tenant_login env req w).2 =
      set_registry (getTenantDb (or_else (Tenant.dbConnectionString tenant)
                                         (DATABASE_URL env)) (registry w)).2 w.
Proof.
  intros Hwf. unfold tenant_by_subdomain.
  unfold tenant_login, try_catch, bind, getTenantBySubdomain, ret.
  destruct (truthy (lb_email (req_body req))) eqn:He; simpl;
    [|by intros [= <-]].
  destruct (truthy (lb_password (req_body req))) eqn:Hp; simpl;
    [|by intros [= <-]].
  apply truthy_inv in He as (email & He & Hne). rewrite He. simpl.
  destruct (List.find _ _) as [t|] eqn:Hten; simpl; [|by intros [= <-]].
  destruct (String.eqb (Tenant.status t) "active") eqn:Hact; simpl; [|by intros [= <-]].
  apply String.eqb_eq in Hact.
  destruct (createTenantStorage_run
              (or_else (Tenant.dbConnectionString t) (DATABASE_URL env)) w Hwf)
    as (s & -> & Hs).
  unfold getUserByEmail, query. simpl. rewrite Hs.
  destruct (databases w !! _) as [db|] eqn:Hdb; simpl; [|by intros [= <-]].
  fold (user_by_email db email).
  destruct (user_by_email db email) as [u|] eqn:Hu; simpl; [|by intros [= <-]].
  destruct (Z.eqb (User.tenantId u) (Tenant.id t)) eqn:Hid; simpl; [|by intros [= <-]].
  destruct (negb (comparePasswords _ _ _)); simpl; [by intros [= <-]|].
  destruct (User.isActive u) eqn:Hia; simpl; [|by intros [= <-]].
  intros [= <-]. simpl. intros [= <- <- <-].
  apply Z.eqb_eq in Hid. by exists email, db.
Qed.

(** X8: the cookie a successful login sets authenticates the next
    request: provided ids are primary keys and the token of the answer
    verifies to the claims the login signs, which are the id and the role
    of the user, the id of the tenant and the type tenant, the middleware
    lets a request with that cookie through, as the user and the tenant
    of the login. *)
Theorem login_cookie_authenticates {B} (req : Request LoginBody) (next : Request B)
    (w : World) (res : Response) (user : User.t) (tenant : Tenant.t) (token : string) :
  registry_wf (registry w) →
  primary_keys w →
  jwt_verify env (clock w) token
  = Some {| claim_userId := User.id user; claim_tenantId := Tenant.id tenant;
            claim_role := User.role user; claim_type := "tenant" |} →
  (tenant_login env req w).1 = inr res →
  res_json res = LoginOk user tenant token →
  token ≠ "" →
  ∃ req',
    (authenticateTenantUser env (with_cookie (res_cookie res) next)
                            (tenant_login env req w).2).1 = inr (Next req') ∧
    req_user req' = Some user ∧
    req_tenant req' =
      Some {| ctx_id := Tenant.id tenant;
              ctx_subdomain := params_subdomain req;
              ctx_connectionString :=
                or_else (Tenant.dbConnectionString tenant) (DATABASE_URL env) |}.
Proof.
  intros Hwf [Hpk Hpku] Hjwt Hres Hjson Hne.
  destruct (tenant_login_ok_inv req w res user tenant token Hwf Hres Hjson)
    as (email & db & He & Hten & Hact & Hdb & Hu & Hid & Hia & Htok & Hcookie & ->).
  set (address := or_else (Tenant.dbConnectionString tenant) (DATABASE_URL env)) in *.
  set (w1 := set_registry (getTenantDb address (registry w)).2 w).
  set (claims := {| claim_userId := User.id user; claim_tenantId := Tenant.id tenant;
                    claim_role := User.role user; claim_type := "tenant" |}) in *.
  assert (Hpres : presents_token env (with_cookie (res_cookie res) next) w1 claims).
  { exists token. rewrite Hcookie. simpl. split; [done|]. split; [done|].
    exact Hjwt. }
  rewrite (authenticateTenantUser_after_token _ _ _ _ Hpres). unfold after_token.
  unfold tenant_by_subdomain in Hten. apply find_elem_of in Hten as [Hin Hsd].
  apply String.eqb_eq in Hsd.
  assert (Hbyid : tenant_by_id w1 (claim_tenantId claims) = Some tenant).
  { unfold tenant_by_id. simpl. by apply (find_by_key Tenant.id). }
  rewrite Hbyid, Hact. simpl. fold address.
  rewrite (getTenantDb_address address _ (getTenantDb_wf address _ Hwf)), Hdb.
  unfold user_by_email in Hu. apply find_elem_of in Hu as [Hinu _].
  assert (Hbyuid : user_by_id db (User.id user) = Some user).
  { unfold user_by_id. apply (find_by_key User.id); [by eapply Hpku|done]. }
  rewrite Hbyuid, Hia, Hid, Z.eqb_refl. simpl.
  eexists. split; [reflexivity|]. simpl. by rewrite Hsd.
Qed.

End login_extras.

(** ** More on the subscription handlers *)

Section subscription_extras.
Context (env : Env).
Open Scope list_scope.

(** The calls of a run, read off the log it leaves. *)
Ltac calls_of_run :=
  erewrite calls_during_app;
  [ | reflexivity
    | simpl; first [ reflexivity
                   | symmetry; apply app_nil_r
                   | rewrite <- app_assoc; reflexivity ] ].

Ltac in_calls H :=
  repeat (apply elem_of_cons in H as [H|H]; [try discriminate H|]);
  try (by apply elem_of_nil in H).


(** X13: an upgrade to a paid plan never cancels anything at the
    provider, not even the subscription the tenant already has; it makes
    at most two calls, and it creates a customer exactly when the tenant
    has no customer reference. *)
Theorem paid_upgrade_never_cancels (req : Request UpgradeBody) (w : World) :
  plan (req_body req) ≠ Some "free" →
  let calls := calls_during w (upgrade env req w).2 in
  (∀ reference, SubscriptionsCancel reference ∉ calls) ∧
  (length calls ≤ 2)%nat ∧
  ∀ tenant,
    tenant_by_subdomain w (params_subdomain req) = Some tenant →
    ((∃ email name tenantId subdomain,
         CustomersCreate email name tenantId subdomain ∈ calls) ↔
     truthy (Tenant.stripeCustomerId tenant) = false).
Proof.
  intros Hfree. unfold tenant_by_subdomain.
  unfold upgrade, try_catch, bind, getTenantBySubdomain, stripe_call,
    updateTenantSubscription, Date_now, ret, throw. simpl.
  destruct (List.find _ _) as [tenant|] eqn:Hten; simpl.
  2:{ calls_of_run. split; [intros r H; in_calls H|]. split; [simpl; lia|done]. }
  rewrite bool_decide_eq_false_2 by done.
  destruct (truthy (Tenant.stripeCustomerId tenant)) eqn:Hcus; simpl.
  - destruct (plan (req_body req)) as [p|]; simpl.
    + destruct (stripe env (stripe_log w) _); simpl; calls_of_run;
        (split; [intros r H; in_calls H|]); (split; [simpl; lia|]);
        intros t [= <-]; (split; [intros (a & b & c & d & H); in_calls H | by rewrite Hcus]).
    + calls_of_run. split; [intros r H; in_calls H|]. split; [simpl; lia|].
      intros t [= <-]. split; [intros (a & b & c & d & H); in_calls H | by rewrite Hcus].
  - destruct (stripe env (stripe_log w) _) as [e|cust]; simpl.
    + calls_of_run. split; [intros r H; in_calls H|]. split; [simpl; lia|].
      intros t [= <-]. split; [done|]. intros _. do 4 eexists. by left.
    + destruct (plan (req_body req)) as [p|]; simpl.
      * destruct (stripe env _ (SubscriptionsCreate _ _ _)); simpl; calls_of_run;
          (split; [intros r H; in_calls H|]); (split; [simpl; lia|]);
          intros t [= <-]; (split; [done|]); intros _; do 4 eexists; by left.
      * calls_of_run. split; [intros r H; in_calls H|]. split; [simpl; lia|].
        intros t [= <-]. split; [done|]. intros _. do 4 eexists. by left.
Qed.

(** X14: a body without a plan is answered 500 and the platform store is
    not written; yet for a tenant without a customer reference the
    customer has by then been created at the provider, and its reference
    is stored nowhere. *)
Theorem upgrade_without_plan (req : Request UpgradeBody) (w : World) (tenant : Tenant.t) :
  tenant_by_subdomain w (params_subdomain req) = Some tenant →
  plan (req_body req) = None →
  let r := upgrade env req w in
  platformDb r.2 = platformDb w ∧
  (∃ msg, r.1 = inr (json 500 (Message msg))) ∧
  (truthy (Tenant.stripeCustomerId tenant) = true →
   calls_during w r.2 = [] ∧
   r.1 = inr (json 500 (Message "Cannot read properties of undefined (reading 'charAt')"))) ∧
  (truthy (Tenant.stripeCustomerId tenant) = false →
   calls_during w r.2 =
     [CustomersCreate (or_else (User.email <$> req_user req) "")
        (or_else (req_user req ≫= User.firstName) "" ++ " "
         ++ or_else (req_user req ≫= User.lastName) "")%string
        (pretty (Tenant.id tenant)) (params_subdomain req)] ∧
   ∀ customer,
     stripe env (stripe_log w)
       (CustomersCreate (or_else (User.email <$> req_user req) "")
          (or_else (req_user req ≫= User.firstName) "" ++ " "
           ++ or_else (req_user req ≫= User.lastName) "")%string
          (pretty (Tenant.id tenant)) (params_subdomain req)) = inr customer →
     r.1 = inr (json 500 (Message "Cannot read properties of undefined (reading 'charAt')"))).
Proof.
  intros Hten Hplan. unfold tenant_by_subdomain in Hten.
  unfold upgrade, try_catch, bind, getTenantBySubdomain, stripe_call,
    updateTenantSubscription, Date_now, ret, throw. simpl.
  rewrite Hten, Hplan. simpl.
  destruct (truthy (Tenant.stripeCustomerId tenant)) eqn:Hcus; simpl.
  - split; [done|]. split; [by eexists|]. split; [|done].
    intros _. split; [|done]. by calls_of_run.
  - destruct (stripe env (stripe_log w) _) as [e|cust] eqn:Hc; simpl.
    + split; [done|]. split; [by eexists|]. split; [done|].
      intros _. split; [by calls_of_run|]. intros customer Hcustomer.
      simpl in Hcustomer. congruence.
    + split; [done|]. split; [by eexists|]. split; [done|].
      intros _. split; [by calls_of_run|]. done.
Qed.

(** X15: a downgrade to free that answers 200 leaves the row of the
    tenant with plan free, subscription status active, no subscription
    reference and no expiry, and keeps its customer reference; the
    provider has been asked to cancel exactly when the row held a
    non-empty subscription reference, and rows with another id stay. *)
Theorem downgrade_to_free (req : Request UpgradeBody) (w : World) (tenant : Tenant.t) :
  tenant_by_subdomain w (params_subdomain req) = Some tenant →
  plan (req_body req) = Some "free" →
  let r := upgrade env req w in
  r.1 = inr (json 200 (Success "Downgraded to free plan")) →
  tenant_by_subdomain r.2 (params_subdomain req) =
    Some {| Tenant.id := Tenant.id tenant;
            Tenant.name := Tenant.name tenant;
            Tenant.subdomain := Tenant.subdomain tenant;
            Tenant.dbConnectionString := Tenant.dbConnectionString tenant;
            Tenant.status := Tenant.status tenant;
            Tenant.subscriptionPlan := "free";
            Tenant.subscriptionStatus := "active";
            Tenant.subscriptionEndsAt := None;
            Tenant.stripeCustomerId := Tenant.stripeCustomerId tenant;
            Tenant.stripeSubscriptionId := None;
            Tenant.maxUsers := Tenant.maxUsers tenant;
            Tenant.createdAt := Tenant.createdAt tenant;
            Tenant.updatedAt := clock w |} ∧
  calls_during w r.2 =
    (if truthy (Tenant.stripeSubscriptionId tenant)
     then [SubscriptionsCancel (default "" (Tenant.stripeSubscriptionId tenant))]
     else []) ∧
  ∀ t, t ∈ tenants (platformDb w) → Tenant.id t ≠ Tenant.id tenant →
       t ∈ tenants (platformDb r.2).
Proof.
  intros Hten Hplan. unfold tenant_by_subdomain in *.
  unfold upgrade, try_catch, bind, getTenantBySubdomain, stripe_call,
    updateTenantSubscription, Date_now, ret, throw. simpl.
  rewrite Hten, Hplan. simpl.
  assert (Hkeep : ∀ (s : SubscriptionUpdate) now (l : list Tenant.t) t,
    t ∈ l → Tenant.id t ≠ Tenant.id tenant →
    t ∈ map (λ t0, if Z.eqb (Tenant.id t0) (Tenant.id tenant)
                   then apply_subscription s now t0 else t0) l).
  { intros s now l t Hin Hne. apply list_elem_of_In, List.in_map_iff. exists t.
    split; [|by apply list_elem_of_In].
    apply Z.eqb_neq in Hne. by rewrite Hne. }
  destruct (truthy (Tenant.stripeSubscriptionId tenant)) eqn:Hsub; simpl.
  - destruct (stripe env (stripe_log w) _) as [e|so]; simpl; [done|].
    intros _.
    rewrite find_subdomain_map by (intros; apply subdomain_apply_subscription).
    rewrite Hten. simpl. rewrite Z.eqb_refl.
    split; [done|]. split; [by calls_of_run|]. apply Hkeep.
  - intros _.
    rewrite find_subdomain_map by (intros; apply subdomain_apply_subscription).
    rewrite Hten. simpl. rewrite Z.eqb_refl.
    split; [done|]. split; [by calls_of_run|]. apply Hkeep.
Qed.

(** X16: the cancel route acts on the tenant the subdomain of the path
    names, not on the tenant of the token: any request the authentication
    lets through, for whatever tenant and with whatever role, cancels the
    subscription of the tenant registered under that subdomain. *)
Theorem cancel_route_follows_the_subdomain (req req' : Request unit) (w : World)
    (tenant : Tenant.t) :
  (authenticateTenantUser env req w).1 = inr (Next req') →
  tenant_by_subdomain w (params_subdomain req) = Some tenant →
  (∀ log reference, ∃ so, stripe env log (SubscriptionsCancel reference) = inr so) →
  let r := route_cancel env req w in
  r.1 = inr (json 200 (Success "Subscription cancelled successfully")) ∧
  tenant_by_subdomain r.2 (params_subdomain req) =
    Some {| Tenant.id := Tenant.id tenant;
            Tenant.name := Tenant.name tenant;
            Tenant.subdomain := Tenant.subdomain tenant;
            Tenant.dbConnectionString := Tenant.dbConnectionString tenant;
            Tenant.status := Tenant.status tenant;
            Tenant.subscriptionPlan := "free";
            Tenant.subscriptionStatus := "cancelled";
            Tenant.subscriptionEndsAt := None;
            Tenant.stripeCustomerId := Tenant.stripeCustomerId tenant;
            Tenant.stripeSubscriptionId := None;
            Tenant.maxUsers := Tenant.maxUsers tenant;
            Tenant.createdAt := Tenant.createdAt tenant;
            Tenant.updatedAt := clock w |}.
Proof.
  intros Hnext Hten Hstripe r. subst r. unfold tenant_by_subdomain in *.
  destruct (authenticateTenantUser_frame env req w) as (Hp & _ & _ & Hc & _ & Hreq).
  destruct (Hreq req' Hnext) as (Hsd & _).
  unfold route_cancel, then_handle, bind.
  destruct (authenticateTenantUser env req w) as [a w1]. simpl in *. subst a.
  unfold cancel, try_catch, bind, getTenantBySubdomain, stripe_call,
    updateTenantSubscription, ret. simpl.
  rewrite Hsd, Hp, Hten. simpl.
  destruct (truthy (Tenant.stripeSubscriptionId tenant)); simpl.
  - match goal with
    | |- context [stripe env ?l (SubscriptionsCancel ?i)] =>
        destruct (Hstripe l i) as (so & Hso); rewrite Hso
    end.
    simpl. split; [done|].
    rewrite find_subdomain_map by (intros; apply subdomain_apply_subscription).
    rewrite Hp, Hten. simpl. by rewrite Z.eqb_refl, Hc.
  - split; [done|].
    rewrite find_subdomain_map by (intros; apply subdomain_apply_subscription).
    rewrite Hp, Hten. simpl. by rewrite Z.eqb_refl, Hc.
Qed.

(** An upgrade that answers with a subscription has found the tenant
    and a plan, and has written the row. *)
Lemma upgrade_ok_inv (req : Request UpgradeBody) (w : World) id secret status :
  (upgrade env req w).1 = inr (json 200 (UpgradeOk id secret status)) →
  ∃ tenant p customerId,
    tenant_by_subdomain w (params_subdomain req) = Some tenant ∧
    plan (req_body req) = Some p ∧
    tenant_by_subdomain (upgrade env req w).2 (params_subdomain req)
    = Some (apply_subscription
              {| su_subscriptionPlan := p;
                 su_subscriptionStatus := "active";
                 su_stripeCustomerId := Some (Some customerId);
                 su_stripeSubscriptionId := Some (Some id);
                 su_subscriptionEndsAt := Some (Some (clock w + thirty_days)) |}
              (clock w) tenant).
Proof.
  unfold tenant_by_subdomain.
  unfold upgrade, try_catch, bind, getTenantBySubdomain, stripe_call,
    updateTenantSubscription, Date_now, ret, throw. simpl.
  destruct (List.find _ (tenants (platformDb w))) as [tenant|] eqn:Hten; simpl; [|done].
  case_bool_decide as Hfree; simpl.
  { destruct (truthy (Tenant.stripeSubscriptionId tenant)); simpl; [|done].
    by destruct (stripe env _ _). }
  destruct (plan (req_body req)) as [p|] eqn:Hplan; simpl.
  2:{ destruct (truthy (Tenant.stripeCustomerId tenant)); simpl; [done|].
      by destruct (stripe env _ _). }
  destruct (truthy (Tenant.stripeCustomerId tenant)); simpl.
  - destruct (stripe env _ _) as [e|so]; simpl; [done|].
    intros [= <- _ _]. exists tenant, p, (default "" (Tenant.stripeCustomerId tenant)).
    split; [done|]. split; [done|].
    rewrite find_subdomain_map by (intros; apply subdomain_apply_subscription).
    rewrite Hten. simpl. by rewrite Z.eqb_refl.
  - destruct (stripe env _ _) as [e|cust]; simpl; [done|].
    destruct (stripe env _ _) as [e|so]; simpl; [done|].
    intros [= <- _ _]. exists tenant, p, (so_id cust).
    split; [done|]. split; [done|].
    rewrite find_subdomain_map by (intros; apply subdomain_apply_subscription).
    rewrite Hten. simpl. by rewrite Z.eqb_refl.
Qed.

(** X24: what an upgrade has written is what the subscription route
    reports: after an upgrade that answered 200 with a subscription, a
    request the authentication lets through at the same subdomain, with
    the token of whatever tenant, is answered with the plan of the
    upgrade request, the status active, a customer reference, the
    reference of the subscription the upgrade answered with, and a next
    billing date thirty days after the upgrade. *)
Theorem upgraded_plan_is_reported {B} (req : Request UpgradeBody) (read read' : Request B)
    (w : World) (id : string) (secret : option string) (status : string) :
  (upgrade env req w).1 = inr (json 200 (UpgradeOk id secret status)) →
  params_subdomain read = params_subdomain req →
  (authenticateTenantUser env read (upgrade env req w).2).1 = inr (Next read') →
  ∃ p customerId,
    plan (req_body req) = Some p ∧
    (route_get_subscription env read (upgrade env req w).2).1
    = inr (Rows 200 {| sd_plan := p;
                       sd_status := "active";
                       sd_stripeCustomerId := Some customerId;
                       sd_stripeSubscriptionId := Some id;
                       sd_nextBilling := Some (clock w + 2592000000) |}).
Proof.
  intros Hres Hsame Hnext.
  destruct (upgrade_ok_inv req w id secret status Hres)
    as (tenant & p & customerId & _ & Hplan & Hrow).
  exists p, customerId. split; [done|].
  destruct (authenticateTenantUser_frame env read (upgrade env req w).2)
    as (Hp & _ & _ & _ & _ & Hreq).
  destruct (Hreq read' Hnext) as (Hsd & _).
  unfold route_get_subscription, then_send, bind.
  destruct (authenticateTenantUser env read (upgrade env req w).2) as [a w1].
  simpl in *. subst a.
  unfold get_subscription, try_catch, bind, getTenantBySubdomain, ret. simpl.
  unfold tenant_by_subdomain in Hrow. by rewrite Hsd, Hsame, Hp, Hrow.
Qed.

End subscription_extras.

(** ** The listing routes and the platform middleware *)

Section listing_extras.
Context (env : Env).
Import Db.
Open Scope list_scope.

(** A listing route behind the authentication and a role gate refuses,
    or runs its handler on the decorated request. *)
Lemma guarded_send {B A} roles (handler : Request B → M (Sent A)) (req : Request B)
    w decoded :
  registry_wf (registry w) →
  presents_token env req w decoded →
  let r := then_send (then_gate (authenticateTenantUser env req)
                                (requireTenantRole roles)) handler w in
  (databases r.2 = databases w ∧ platformDb r.2 = platformDb w ∧
   ∃ res, r.1 = inr (Refused res)) ∨
  ∃ req' w1 user tenant db,
    r = handler req' w1 ∧
    tenant_by_id w (claim_tenantId decoded) = Some tenant ∧
    databases w !! or_else (Tenant.dbConnectionString tenant) (DATABASE_URL env) = Some db ∧
    databases w1 = databases w ∧ platformDb w1 = platformDb w ∧
    registry_wf (registry w1) ∧
    req_user req' = Some user ∧ User.id user = claim_userId decoded ∧
    req_tenant req' =
      Some {| ctx_id := claim_tenantId decoded;
              ctx_subdomain := Tenant.subdomain tenant;
              ctx_connectionString :=
                or_else (Tenant.dbConnectionString tenant) (DATABASE_URL env) |}.
Proof.
  intros Hwf Htok.
  destruct (authenticateTenantUser_summary env req w decoded Hwf Htok)
    as (Hp & Hd & _ & _ & Hwf' & Hcases).
  unfold then_send, then_gate, bind, ret. simpl.
  destruct (authenticateTenantUser env req w) as [a w1]. simpl in *.
  destruct Hcases as [[msg ->] | (tenant & db & user & req' & -> & Hten & _ & Hdb & _ & Hb & Hu
                                  & Hid & _ & Hctx)].
  - left. split; [done|]. split; [done|]. by eexists.
  - unfold requireTenantRole. rewrite Hu. case_bool_decide.
    + right. by exists req', w1, user, tenant, db.
    + left. split; [done|]. split; [done|]. by eexists.
Qed.

(** The rows the listing of customers answers with. *)
Lemma customer_listing_rows {B} (req : Request B) (w : World) (decoded : Claims) :
  registry_wf (registry w) →
  presents_token env req w decoded →
  let r := route_get_customers env req w in
  databases r.2 = databases w ∧ platformDb r.2 = platformDb w ∧
  ∀ status rows, r.1 = inr (Rows status rows) →
    status = 200 ∧
    ∃ tenant db,
      tenant_by_id w (claim_tenantId decoded) = Some tenant ∧
      databases w !! or_else (Tenant.dbConnectionString tenant) (DATABASE_URL env)
      = Some db ∧
      rows = filter (λ c, Customer.tenantId c = claim_tenantId decoded) (customers db).
Proof.
  intros Hwf Htok r. subst r. unfold route_get_customers, requireTenantUser.
  destruct (guarded_send ["admin"; "manager"; "user"] get_customers req w decoded Hwf Htok)
    as [(Hd & Hp & res & ->) | (req' & w1 & user & tenant & db & -> & Hten & Hdb & Hd & Hp
                                & Hwf1 & _ & _ & Hctx)]; [done|].
  unfold get_customers, try_catch, bind, the_tenant, ret. rewrite Hctx. simpl.
  destruct (createTenantStorage_run
              (or_else (Tenant.dbConnectionString tenant) (DATABASE_URL env)) w1 Hwf1)
    as (s & -> & Hs).
  unfold getCustomersByTenant, query. simpl. rewrite Hs, Hd, Hdb. simpl.
  split; [done|]. split; [done|]. intros status rows [= <- <-].
  split; [done|]. by exists tenant, db.
Qed.

(** The creation of a customer behind the gate, when it answers 201. *)
Lemma route_create_customer_ok_inv (req : Request JsValue) (w : World) (decoded : Claims)
    (row : Customer.t) :
  registry_wf (registry w) →
  presents_token env req w decoded →
  (route_create_customer env req w).1 = inr (json 201 (CustomerJson row)) →
  let w1 := (route_create_customer env req w).2 in
  ∃ tenant db,
    tenant_by_id w (claim_tenantId decoded) = Some tenant ∧
    databases w !! or_else (Tenant.dbConnectionString tenant) (DATABASE_URL env) = Some db ∧
    Customer.tenantId row = claim_tenantId decoded ∧
    platformDb w1 = platformDb w ∧ registry_wf (registry w1) ∧
    databases w1 =
      <[or_else (Tenant.dbConnectionString tenant) (DATABASE_URL env) :=
          set_customers (customers db ++ [row]) (customers_seq db + 1) db]> (databases w).
Proof.
  intros Hwf Htok. unfold route_create_customer, requireTenantUser, then_handle, then_gate,
    bind, ret. simpl.
  destruct (authenticateTenantUser_summary env req w decoded Hwf Htok)
    as (Hp & Hd & _ & _ & Hwf' & Hcases).
  destruct (authenticateTenantUser env req w) as [a w0]. simpl in *.
  destruct Hcases as [[msg ->] | (tenant & db & user & req' & -> & Hten & _ & Hdb & _ & _ & Hu
                                  & _ & _ & Hctx)]; [done|].
  unfold requireTenantRole. rewrite Hu. case_bool_decide; [|done].
  unfold create_customer, try_catch, bind, parse, the_tenant, the_user, ret, throw. simpl.
  destruct (insertCustomerSchema_parse env (req_body req')) as [d|]; simpl; [|done].
  rewrite Hctx. simpl.
  destruct (createTenantStorage_run
              (or_else (Tenant.dbConnectionString tenant) (DATABASE_URL env)) w0 Hwf')
    as (s & -> & Hs).
  rewrite Hu. simpl. unfold createCustomer, execute. simpl. rewrite Hs, Hd, Hdb. simpl.
  destruct (existsb _ (customers db)); simpl; [done|].
  intros [= <-]. simpl. exists tenant, db.
  repeat (split; [done|]). split; [by apply getTenantDb_wf|done].
Qed.

(** X17: the listing of customers answers with the rows of the store of
    the tenant whose tenantId is the tenant id of the token, all of them
    and no other, also when several tenants share that store; it changes
    no store. *)
Theorem customer_listing_is_tenant_scoped {B} (req : Request B) (w : World)
    (decoded : Claims) :
  registry_wf (registry w) →
  presents_token env req w decoded →
  let r := route_get_customers env req w in
  databases r.2 = databases w ∧ platformDb r.2 = platformDb w ∧
  ∀ status rows, r.1 = inr (Rows status rows) →
    status = 200 ∧
    (∀ c, c ∈ rows → Customer.tenantId c = claim_tenantId decoded) ∧
    ∃ tenant db,
      tenant_by_id w (claim_tenantId decoded) = Some tenant ∧
      databases w !! or_else (Tenant.dbConnectionString tenant) (DATABASE_URL env)
      = Some db ∧
      rows = filter (λ c, Customer.tenantId c = claim_tenantId decoded) (customers db).
Proof.
  intros Hwf Htok r.
  destruct (customer_listing_rows req w decoded Hwf Htok) as (Hd & Hp & Hrows).
  split; [done|]. split; [done|]. intros status rows Hres.
  destruct (Hrows status rows Hres) as (-> & tenant & db & Hten & Hdb & ->).
  split; [done|]. split; [|by exists tenant, db].
  intros c Hc. by apply list_elem_of_filter in Hc as [Hc _].
Qed.

(** X23: a customer the creation route has answered with 201 is read back
    by every user of that tenant: a listing sent afterwards with a token
    for the same tenant id, if it answers with rows at all, answers with
    rows among which the new row is, whatever tenant the body of the
    creation named. *)
Theorem created_customer_is_listed {B} (req : Request JsValue) (list : Request B)
    (w : World) (decoded decoded' : Claims) (row : Customer.t) :
  registry_wf (registry w) →
  presents_token env req w decoded →
  (route_create_customer env req w).1 = inr (json 201 (CustomerJson row)) →
  presents_token env list (route_create_customer env req w).2 decoded' →
  claim_tenantId decoded' = claim_tenantId decoded →
  ∀ status rows,
    (route_get_customers env list (route_create_customer env req w).2).1
    = inr (Rows status rows) →
    row ∈ rows.
Proof.
  intros Hwf Htok Hres Htok' Hsame status rows Hrows.
  destruct (route_create_customer_ok_inv req w decoded row Hwf Htok Hres)
    as (tenant & db & Hten & Hdb & Hid & Hp & Hwf1 & Hd1).
  destruct (customer_listing_rows list _ decoded' Hwf1 Htok') as (_ & _ & Hlist).
  destruct (Hlist status rows Hrows) as (_ & tenant' & db1 & Hten' & Hdb1 & ->).
  unfold tenant_by_id in Hten'. rewrite Hp, Hsame in Hten'.
  fold (tenant_by_id w (claim_tenantId decoded)) in Hten'.
  rewrite Hten in Hten'. injection Hten' as <-.
  rewrite Hd1, lookup_insert_eq in Hdb1. injection Hdb1 as <-. simpl.
  apply list_elem_of_filter. split; [congruence|].
  apply elem_of_app. right. by left.
Qed.

(** X18: the listings of timesheets and of expenses answer with the
    rows of the store whose userId is the id of the authenticated user,
    all of them and no other: a user reads the own rows only, whatever
    the role. *)
Theorem own_timesheets_and_expenses_only {B} (req : Request B) (w : World)
    (decoded : Claims) :
  registry_wf (registry w) →
  presents_token env req w decoded →
  (∀ status rows, (route_get_timesheets env req w).1 = inr (Rows status rows) →
    status = 200 ∧
    (∀ t, t ∈ rows → Timesheet.userId t = claim_userId decoded) ∧
    ∃ tenant db,
      tenant_by_id w (claim_tenantId decoded) = Some tenant ∧
      databases w !! or_else (Tenant.dbConnectionString tenant) (DATABASE_URL env)
      = Some db ∧
      rows = filter (λ t, Timesheet.userId t = claim_userId decoded) (timesheets db)) ∧
  (∀ status rows, (route_get_expenses env req w).1 = inr (Rows status rows) →
    status = 200 ∧
    (∀ e, e ∈ rows → Expense.userId e = claim_userId decoded) ∧
    ∃ tenant db,
      tenant_by_id w (claim_tenantId decoded) = Some tenant ∧
      databases w !! or_else (Tenant.dbConnectionString tenant) (DATABASE_URL env)
      = Some db ∧
      rows = filter (λ e, Expense.userId e = claim_userId decoded) (expenses db)).
Proof.
  intros Hwf Htok. split.
  - unfold route_get_timesheets, requireTenantUser.
    destruct (guarded_send ["admin"; "manager"; "user"] get_timesheets req w decoded Hwf Htok)
      as [(Hd & Hp & res & ->) | (req' & w1 & user & tenant & db & -> & Hten & Hdb & Hd & Hp
                                  & Hwf1 & Hu & Hid & Hctx)]; [done|].
    unfold get_timesheets, try_catch, bind, the_tenant, the_user, ret.
    rewrite Hctx. simpl.
    destruct (createTenantStorage_run
                (or_else (Tenant.dbConnectionString tenant) (DATABASE_URL env)) w1 Hwf1)
      as (s & -> & Hs).
    rewrite Hu. simpl.
    unfold getTimesheetsByUser, query. simpl. rewrite Hs, Hd, Hdb, Hid. simpl.
    intros status rows [= <- <-].
    split; [done|]. split; [|by exists tenant, db].
    intros c Hc. by apply list_elem_of_filter in Hc as [Hc _].
  - unfold route_get_expenses, requireTenantUser.
    destruct (guarded_send ["admin"; "manager"; "user"] get_expenses req w decoded Hwf Htok)
      as [(Hd & Hp & res & ->) | (req' & w1 & user & tenant & db & -> & Hten & Hdb & Hd & Hp
                                  & Hwf1 & Hu & Hid & Hctx)]; [done|].
    unfold get_expenses, try_catch, bind, the_tenant, the_user, ret.
    rewrite Hctx. simpl.
    destruct (createTenantStorage_run
                (or_else (Tenant.dbConnectionString tenant) (DATABASE_URL env)) w1 Hwf1)
      as (s & -> & Hs).
    rewrite Hu. simpl.
    unfold getExpensesByUser, query. simpl. rewrite Hs, Hd, Hdb, Hid. simpl.
    intros status rows [= <- <-].
    split; [done|]. split; [|by exists tenant, db].
    intros c Hc. by apply list_elem_of_filter in Hc as [Hc _].
Qed.

(** X21: the platform middleware checks the signature and the user id of
    a token and nothing else: a verified token is let through as the
    active platform user whose id is its userId claim, whatever its type,
    role and tenant claims are, so also a token that the tenant login has
    signed; and whoever passes the super admin gate passes the platform
    admin gate. *)
Theorem platform_middleware_ignores_the_token_type (platformUsers : list PlatformUser.t)
    (req : PlatformRequest) (w : World) (token : string) (decoded : Claims)
    (user : PlatformUser.t) :
  bearer_or_cookie (p_authorization req) (p_platformToken req) = Some token →
  token ≠ "" →
  jwt_verify env (clock w) token = Some decoded →
  List.find (λ u, Z.eqb (PlatformUser.id u) (claim_userId decoded)) platformUsers
  = Some user →
  PlatformUser.isActive user = true →
  authenticatePlatformUser env platformUsers req w
  = (inr (PlatformNext {| p_authorization := p_authorization req;
                          p_platformToken := p_platformToken req;
                          p_user := Some user |}), w) ∧
  ∀ req', requireSuperAdmin req' = PlatformNext req' →
          requirePlatformAdmin req' = PlatformNext req'.
Proof.
  intros Htok Hne Hver Hu Hia. split.
  - unfold authenticatePlatformUser, try_catch, bind, verifyToken, getPlatformUser, ret.
    rewrite Htok, (truthy_Some _ Hne). simpl. by rewrite Hver, Hu, Hia.
  - intros req'. unfold requireSuperAdmin, requirePlatformAdmin, requirePlatformRole.
    destruct (p_user req') as [u|]; [|done].
    case_bool_decide as H1; [|done]. intros _.
    rewrite bool_decide_eq_true_2; [done|].
    apply list_elem_of_singleton in H1 as ->. by left.
Qed.

End listing_extras.

(** ** User creation, tenant creation and the store underneath *)

Section user_extras.
Context (env : Env).
Import Db.
Open Scope list_scope.

Lemma existsb_false_elem {A} (f : A → bool) (l : list A) (x : A) :
  existsb f l = false → x ∈ l → f x = false.
Proof.
  induction l as [|a l IH]; intros Hex Hin; [by apply elem_of_nil in Hin|].
  simpl in Hex. apply Bool.orb_false_iff in Hex as [Ha Hl].
  apply elem_of_cons in Hin as [->|Hin]; [done|by apply IH].
Qed.

Lemma find_none_intro {A} (p : A → bool) (l : list A) :
  (∀ x, x ∈ l → p x = false) → List.find p l = None.
Proof.
  induction l as [|a l IH]; intros Hall; [done|]. simpl.
  rewrite (Hall a) by left. apply IH. intros x Hx. apply Hall. by right.
Qed.

(** The row the user creation route inserts. *)
Lemma create_user_ok_inv (req : Request UserBody) w ctx row :
  registry_wf (registry w) →
  req_tenant req = Some ctx →
  (create_user env req w).1 = inr (json 201 (UserJson row)) →
  ∃ db,
    databases w !! ctx_connectionString ctx = Some db ∧
    user_by_email db (ub_email (req_body req)) = None ∧
    User.email row = ub_email (req_body req) ∧
    User.password row = hashPassword env (ub_password (req_body req)) ∧
    User.tenantId row = ctx_id ctx ∧ User.isActive row = true ∧
    User.role row = or_else (ub_role (req_body req)) "user" ∧
    (create_user env req w).2 =
      set_databases
        (<[ctx_connectionString ctx :=
             set_users (users db ++ [row]) (users_seq db + 1) db]> (databases w))
        (set_registry (getTenantDb (ctx_connectionString ctx) (registry w)).2 w).
Proof.
  intros Hwf Hctx. unfold create_user, try_catch, bind, the_tenant, ret, throw. simpl.
  rewrite Hctx. simpl.
  destruct (createTenantStorage_run (ctx_connectionString ctx) w Hwf) as (s & -> & Hs).
  unfold getUserByEmail, query, createUser, execute. simpl. rewrite Hs.
  destruct (databases w !! ctx_connectionString ctx) as [db|] eqn:Hdb; simpl; [|done].
  fold (user_by_email db (ub_email (req_body req))).
  destruct (user_by_email db _) eqn:Hu; simpl; [done|].
  rewrite Hdb. destruct (existsb _ (users db)); simpl; [done|].
  intros [= <-]. simpl. by exists db.
Qed.


(** X10: the creation of a user is refused the second time: after a
    request that answered 201, the same request answers 400, User already
    exists, and leaves the world exactly as the first one left it. *)
Theorem create_user_twice_is_refused (req : Request UserBody) (w : World)
    (ctx : TenantCtx) (row : User.t) :
  registry_wf (registry w) →
  req_tenant req = Some ctx →
  (create_user env req w).1 = inr (json 201 (UserJson row)) →
  create_user env req (create_user env req w).2
  = (inr (json 400 (Message "User already exists")), (create_user env req w).2).
Proof.
  intros Hwf Hctx Hok.
  destruct (create_user_ok_inv req w ctx row Hwf Hctx Hok)
    as (db & Hdb & Hnone & Hemail & _ & _ & _ & _ & ->).
  unfold create_user, try_catch, bind, the_tenant, ret, throw. simpl.
  rewrite Hctx. simpl. unfold createTenantStorage. simpl.
  rewrite getTenantDb_again.
  pose proof (getTenantDb_address (ctx_connectionString ctx) _ Hwf) as Ha.
  destruct (getTenantDb (ctx_connectionString ctx) (registry w)) as [h reg]. simpl in *.
  unfold getUserByEmail, query, store_address. simpl. rewrite Ha, lookup_insert_eq. simpl.
  rewrite (find_snoc _ _ row); [done|exact Hnone|].
  rewrite Hemail. apply String.eqb_refl.
Qed.

(** X20: a row that createUser has inserted is what getUser returns for
    its id and getUserByEmail for its email; after deleteUser on that id
    getUser finds nothing, and the users of the store are again the users
    it held before the insertion. *)
Theorem user_insert_lookup_delete (s : DatabaseTenantStorage) (userData : InsertUser.t)
    (w w1 : World) (row : User.t) :
  createUser env s userData w = (inr row, w1) →
  getUser s (User.id row) w1 = (inr (Some row), w1) ∧
  getUserByEmail s (User.email row) w1 = (inr (Some row), w1) ∧
  ∃ w2 db db2,
    deleteUser s (User.id row) w1 = (inr tt, w2) ∧
    getUser s (User.id row) w2 = (inr None, w2) ∧
    databases w !! store_address s = Some db ∧
    databases w2 !! store_address s = Some db2 ∧
    users db2 = users db.
Proof.
  unfold createUser, execute.
  destruct (databases w !! store_address s) as [db|] eqn:Hdb; [|done].
  destruct (existsb _ (users db)) eqn:Hex; [done|].
  intros [= <- <-]. simpl.
  set (row := User.mk (users_seq db) _ _ _ _ _ _ _ _ _ _ _ _).
  assert (Hfresh : ∀ u, u ∈ users db → User.id u ≠ User.id row ∧ User.email u ≠ User.email row).
  { intros u Hu. pose proof (existsb_false_elem _ _ _ Hex Hu) as Hf. simpl in Hf.
    apply Bool.orb_false_iff in Hf as [Hf _].
    apply Bool.orb_false_iff in Hf as [H1 H2].
    apply Z.eqb_neq in H1. apply String.eqb_neq in H2. done. }
  assert (Hnone_id : List.find (λ u, Z.eqb (User.id u) (users_seq db)) (users db) = None).
  { apply find_none_intro. intros u Hu. apply Z.eqb_neq. by apply Hfresh. }
  assert (Hnone_email :
    List.find (λ u, String.eqb (User.email u) (InsertUser.email userData)) (users db)
    = None).
  { apply find_none_intro. intros u Hu. apply String.eqb_neq. by apply Hfresh. }
  unfold getUser, getUserByEmail, deleteUser, query, execute. simpl.
  rewrite !lookup_insert_eq. simpl.
  rewrite (find_snoc _ _ row Hnone_id (Z.eqb_refl _)).
  rewrite (find_snoc _ _ row Hnone_email (String.eqb_refl _)).
  split; [done|]. split; [done|].
  eexists _, db, _. split; [reflexivity|]. simpl. rewrite !lookup_insert_eq. simpl.
  assert (Hfilter : filter (λ u, User.id u ≠ users_seq db) (users db ++ [row]) = users db).
  { rewrite filter_app, filter_cons_False, filter_nil, app_nil_r by (intros H; by apply H).
    clear -Hfresh. induction (users db) as [|u l IH]; [done|].
    rewrite filter_cons_True by (apply Hfresh; left).
    f_equal. apply IH. intros v Hv. apply Hfresh. by right. }
  rewrite Hfilter. split; [by rewrite Hnone_id|]. done.
Qed.

(** X11: a tenant the platform has just created is found under its
    subdomain, with the defaults of the table for what the body left out;
    the same request sent again is refused with 400, Subdomain already
    exists, and changes nothing. *)
Theorem created_tenant_is_found_and_unique (req : Request JsValue) (w : World)
    (tenant : Tenant.t) :
  (platform_create_tenant env req w).1 = inr (json 201 (TenantJson tenant)) →
  let w1 := (platform_create_tenant env req w).2 in
  tenant_by_subdomain w1 (Tenant.subdomain tenant) = Some tenant ∧
  tenant_by_subdomain w (Tenant.subdomain tenant) = None ∧
  (∃ validatedData,
      insertTenantSchema_parse env (req_body req) = Some validatedData ∧
      Tenant.subdomain tenant = InsertTenant.subdomain validatedData ∧
      Tenant.status tenant = default "active" (InsertTenant.status validatedData) ∧
      Tenant.subscriptionPlan tenant
      = default "free" (InsertTenant.subscriptionPlan validatedData) ∧
      Tenant.maxUsers tenant = default 10 (InsertTenant.maxUsers validatedData)) ∧
  platform_create_tenant env req w1
  = (inr (json 400 (Message "Subdomain already exists")), w1).
Proof.
  unfold tenant_by_subdomain.
  unfold platform_create_tenant, try_catch, bind, parse, getTenantBySubdomain,
    createTenant, ret, throw.
  destruct (insertTenantSchema_parse env (req_body req)) as [d|] eqn:Hparse; simpl; [|done].
  destruct (List.find _ _) eqn:Hnone; simpl; [done|].
  destruct (existsb _ _); simpl; [done|].
  intros [= <-]. simpl. rewrite Hnone.
  rewrite (find_snoc _ _ (tenant_row (tenants_seq (platformDb w)) (clock w)
                            (with_dbConnectionString _ d)) Hnone)
    by (simpl; apply String.eqb_refl).
  split; [done|]. split; [done|]. split; [by exists d|done].
Qed.

(** X22: a user that has just been created is listed: the listing of the
    users of the same tenant, sent after the creation, answers with the
    rows it answered before and the ten listed fields of the new row, in
    some order. *)
Theorem created_user_is_listed {B} (req : Request UserBody) (list : Request B)
    (w : World) (ctx : TenantCtx) (row : User.t) :
  registry_wf (registry w) →
  req_tenant req = Some ctx →
  req_tenant list = Some ctx →
  (create_user env req w).1 = inr (json 201 (UserJson row)) →
  ∃ before after,
    (get_users list w).1 = inr (Rows 200 before) ∧
    (get_users list (create_user env req w).2).1 = inr (Rows 200 after) ∧
    after ≡ₚ safeUser row :: before.
Proof.
  intros Hwf Hctx Hlist Hres.
  destruct (create_user_ok_inv req w ctx row Hwf Hctx Hres)
    as (db & Hdb & _ & _ & _ & Hid & _ & _ & ->).
  exists (safeUser <$> filter (λ u, User.tenantId u = ctx_id ctx) (users db)),
         (safeUser <$> filter (λ u, User.tenantId u = ctx_id ctx) (users db ++ [row])).
  unfold get_users, try_catch, bind, the_tenant, ret. rewrite Hlist. simpl.
  split; [|split].
  - destruct (createTenantStorage_run (ctx_connectionString ctx) w Hwf) as (s & -> & Hs).
    unfold getUsersByTenant, query. simpl. by rewrite Hs, Hdb.
  - set (w1 := set_databases _ _).
    assert (Hwf1 : registry_wf (registry w1)) by (by apply getTenantDb_wf).
    destruct (createTenantStorage_run (ctx_connectionString ctx) w1 Hwf1) as (s & -> & Hs).
    unfold getUsersByTenant, query. simpl. by rewrite Hs, lookup_insert_eq.
  - rewrite filter_app, fmap_app, filter_cons_True by done. simpl.
    symmetry. apply Permutation_cons_append.
Qed.

End user_extras.

(** ** The further properties on the demo deployment *)

Section extra_witnesses.
Import Db.
Open Scope list_scope.

(** Three calls for two addresses leave two pools. *)
Lemma pools_are_the_distinct_addresses_witness :
  length (constructed
            (run_calls ["postgres://beta"; "postgres://platform"; "postgres://beta"]
                       Db.empty).2)
  = size (list_to_set ["postgres://beta"; "postgres://platform"; "postgres://beta"]
            : gset string).
Proof.
  exact (proj1 (proj2 (proj2 (pools_are_the_distinct_addresses
           ["postgres://beta"; "postgres://platform"; "postgres://beta"])))).
Defined.

(** A Bearer header wins over a stale cookie; a Basic header leaves the
    cookie in charge. *)
Lemma bearer_header_round_trip_witness :
  bearer_or_cookie (Some "Bearer alice.5") (Some "stale") = Some "alice.5" ∧
  bearer_or_cookie (Some "Basic alice.5") (Some "alice.5") = Some "alice.5".
Proof.
  destruct (bearer_header_round_trip "alice.5" (Some "stale")) as (H & _ & _).
  destruct (bearer_header_round_trip "" (Some "alice.5")) as (_ & _ & H').
  split; [exact H | apply H'; reflexivity].
Defined.

(** The cookie of alice is good, the header is the prefix alone. *)
Lemma empty_bearer_hides_the_cookie_witness :
  authenticateTenantUser Demo.env Scenes.empty_bearer_request Demo.world
  = (inr (Respond (json 401 (Message "Access token required"))), Demo.world).
Proof. apply empty_bearer_hides_the_cookie. reflexivity. Defined.

Lemma authenticateTenantUser_answers_401_only_witness :
  let a := authenticateTenantUser Demo.env (Demo.request "acme" (Some "forged") tt)
                                  Demo.world in
  databases a.2 = databases Demo.world ∧
  ((∃ req', a.1 = inr (Next req')) ∨
   (∃ msg, a.1 = inr (Respond (json 401 (Message msg))) ∧
           msg ∈ ["Access token required"; "Invalid or inactive tenant";
                  "Invalid or inactive user"; "Invalid token"])).
Proof.
  destruct (authenticateTenantUser_answers_401_only Demo.env
              (Demo.request "acme" (Some "forged") tt) Demo.world)
    as (_ & Hd & _ & _ & Hc & _).
  exact (conj Hd Hc).
Defined.

(** alice presents her token while no store answers. *)
Lemma unreachable_store_is_reported_as_invalid_token_witness :
  let a := authenticateTenantUser Demo.env (Demo.request "acme" (Some "alice.5") tt)
                                  Scenes.world_offline in
  a.1 = inr (Respond (json 401 (Message "Invalid token"))) ∧
  is_Some (tenantConnections (registry a.2) !! "postgres://platform").
Proof.
  destruct (unreachable_store_is_reported_as_invalid_token Demo.env
              (Demo.request "acme" (Some "alice.5") tt) Scenes.world_offline
              Demo.alice_claims Demo.acme) as [H1 H2].
  - apply empty_wf.
  - apply demo_presents_alice.
  - reflexivity.
  - reflexivity.
  - vm_compute. reflexivity.
  - intros a. subst a. rewrite H1. split; [reflexivity|exact H2].
Defined.

(** The verifier reports alice as a platform token with the role user;
    the outcome is that of her tenant token with the role admin. *)
Lemma token_role_and_type_are_ignored_witness :
  authenticateTenantUser (with_jwt_verify Scenes.verify_as_platform Demo.env)
                         (Demo.request "acme" (Some "alice.5") tt) Demo.world
  = authenticateTenantUser Demo.env (Demo.request "acme" (Some "alice.5") tt) Demo.world.
Proof.
  refine (proj1 (token_role_and_type_are_ignored Demo.env _ Demo.world
                   Scenes.verify_as_platform [] _)).
  intros now token. unfold Scenes.verify_as_platform. simpl.
  destruct (String.eqb token "alice.5"); reflexivity.
Defined.

(** bob has the role user; the creation of users asks for a manager. *)
Lemma gate_refusal_stops_the_route_witness :
  (route_create_user Scenes.env_bob
     (Demo.request "beta" (Some "bob.7") Scenes.carol_body) Demo.world).1
  = inr (json 403 (Message "Insufficient permissions")).
Proof.
  assert (Hauth : ∃ req',
    (authenticateTenantUser Scenes.env_bob
       (Demo.request "beta" (Some "bob.7") Scenes.carol_body) Demo.world).1
    = inr (Next req') ∧ req_user req' = Some Demo.bob).
  { eexists. split; [vm_compute; reflexivity|reflexivity]. }
  destruct Hauth as (req' & Hauth & Hu).
  refine (proj1 (gate_refusal_stops_the_route Scenes.env_bob ["admin"; "manager"]
                   (create_user Scenes.env_bob) _ req' Demo.world Demo.bob Hauth Hu _)).
  intros Hin.
  repeat (apply elem_of_cons in Hin as [Hin|Hin]; [discriminate Hin|]).
  by apply elem_of_nil in Hin.
Defined.

(** The platform store holds the row of bob, of tenant 7; a login at acme
    with his email and his password is answered like an unknown email. *)
Lemma login_failures_are_uniform_witness :
  (tenant_login Demo.env Scenes.bob_at_acme Demo.world_stray).1
  = inr (json 401 (Message "Invalid credentials")).
Proof.
  refine (proj1 (login_failures_are_uniform Demo.env Scenes.bob_at_acme Demo.world_stray
                   "bob@beta.test" "secret" Demo.acme (Demo.store [Demo.bob])
                   _ _ _ _ _ _ _ _) _).
  - apply empty_wf.
  - reflexivity.
  - discriminate.
  - reflexivity.
  - discriminate.
  - reflexivity.
  - reflexivity.
  - reflexivity.
  - right. exists Demo.bob. split; [reflexivity|]. left. discriminate.
Defined.

Lemma demo_primary_keys : primary_keys Demo.world.
Proof.
  split.
  - simpl. repeat (apply NoDup_cons; split; [|]); try apply NoDup_nil_2;
      intros Hin;
      repeat (apply elem_of_cons in Hin as [Hin|Hin]; [discriminate Hin|]);
      by apply elem_of_nil in Hin.
  - intros address db Hdb. unfold Demo.world in Hdb. simpl in Hdb.
    apply lookup_insert_Some in Hdb as [[_ <-] | [_ Hdb]].
    + apply NoDup_singleton.
    + apply lookup_singleton_Some in Hdb as [_ <-]. apply NoDup_singleton.
Defined.

(** alice logs in and comes back with the cookie. *)
Lemma login_cookie_authenticates_witness :
  ∃ req',
    (authenticateTenantUser Scenes.env_login
       (with_cookie (Some ("tenantToken", "alice.5")) (Demo.request "acme" None tt))
       (tenant_login Scenes.env_login Demo.login_request Demo.world).2).1
    = inr (Next req') ∧
    req_user req' = Some Demo.alice.
Proof.
  destruct (login_cookie_authenticates Scenes.env_login Demo.login_request
              (Demo.request "acme" None tt) Demo.world
              {| res_status := 200; res_json := LoginOk Demo.alice Demo.acme "alice.5";
                 res_cookie := Some ("tenantToken", "alice.5") |}
              Demo.alice Demo.acme "alice.5") as (req' & H1 & H2 & _).
  - apply empty_wf.
  - apply demo_primary_keys.
  - reflexivity.
  - vm_compute. reflexivity.
  - reflexivity.
  - discriminate.
  - exists req'. split; [exact H1|exact H2].
Defined.

Lemma carol_is_created :
  ∃ row, (create_user Demo.env Scenes.carol_request Demo.world).1
         = inr (json 201 (UserJson row)).
Proof. vm_compute. eauto. Defined.


(** alice sends the creation of carol twice. *)
Lemma create_user_twice_is_refused_witness :
  let w1 := (create_user Demo.env Scenes.carol_request Demo.world).2 in
  create_user Demo.env Scenes.carol_request w1
  = (inr (json 400 (Message "User already exists")), w1).
Proof.
  destruct carol_is_created as [row Hrow].
  apply (create_user_twice_is_refused Demo.env Scenes.carol_request Demo.world
           {| ctx_id := 5; ctx_subdomain := "acme";
              ctx_connectionString := "postgres://platform" |} row).
  - apply empty_wf.
  - reflexivity.
  - exact Hrow.
Defined.

Lemma user_insert_lookup_delete_witness :
  ∃ row w1 w2,
    createUser Demo.env Scenes.platform_storage Scenes.dave Demo.world = (inr row, w1) ∧
    getUser Scenes.platform_storage (User.id row) w1 = (inr (Some row), w1) ∧
    deleteUser Scenes.platform_storage (User.id row) w1 = (inr tt, w2) ∧
    getUser Scenes.platform_storage (User.id row) w2 = (inr None, w2).
Proof.
  assert (Hc : ∃ row w1,
    createUser Demo.env Scenes.platform_storage Scenes.dave Demo.world = (inr row, w1))
    by (vm_compute; eauto).
  destruct Hc as (row & w1 & Hc).
  destruct (user_insert_lookup_delete Demo.env Scenes.platform_storage Scenes.dave
              Demo.world w1 row Hc) as (H1 & _ & w2 & db & db2 & H3 & H4 & _).
  exists row, w1, w2. repeat split; assumption.
Defined.

(** alice creates carol and lists the users of acme. *)
Lemma created_user_is_listed_witness :
  ∃ row after,
    (get_users (Demo.authenticated "acme" tt)
               (create_user Demo.env Scenes.carol_request Demo.world).2).1
    = inr (Rows 200 after) ∧
    after ≡ₚ [safeUser row; safeUser Demo.alice].
Proof.
  destruct carol_is_created as [row Hrow]. exists row.
  destruct (created_user_is_listed Demo.env Scenes.carol_request
              (Demo.authenticated "acme" tt) Demo.world
              {| ctx_id := 5; ctx_subdomain := "acme";
                 ctx_connectionString := "postgres://platform" |} row)
    as (before & after & H1 & H2 & H3).
  - apply empty_wf.
  - reflexivity.
  - reflexivity.
  - exact Hrow.
  - assert (Hb : (get_users (Demo.authenticated "acme" tt) Demo.world).1
                 = inr (Rows 200 [safeUser Demo.alice])) by (vm_compute; reflexivity).
    rewrite Hb in H1. injection H1 as <-. exists after. split; [exact H2|exact H3].
Defined.

(** The registration of epsilon, sent twice. *)
Lemma created_tenant_is_found_and_unique_witness :
  let w1 := (platform_create_tenant Demo.env Demo.tenant_request Demo.world).2 in
  platform_create_tenant Demo.env Demo.tenant_request w1
  = (inr (json 400 (Message "Subdomain already exists")), w1).
Proof.
  assert (Hres : ∃ tenant,
    (platform_create_tenant Demo.env Demo.tenant_request Demo.world).1
    = inr (json 201 (TenantJson tenant))) by (vm_compute; eauto).
  destruct Hres as [tenant Hres].
  destruct (created_tenant_is_found_and_unique Demo.env Demo.tenant_request Demo.world
              tenant Hres) as (_ & _ & _ & H).
  exact H.
Defined.


(** acme, already on standard with the subscription sub_1, upgrades to
    enterprise: sub_1 is not cancelled. *)
Lemma paid_upgrade_never_cancels_witness :
  let w1 := (upgrade Demo.env Demo.upgrade_request Demo.world).2 in
  SubscriptionsCancel "sub_1"
  ∉ calls_during w1
      (upgrade Demo.env (Demo.authenticated "acme" {| plan := Some "enterprise" |}) w1).2.
Proof.
  intros w1.
  refine (proj1 (paid_upgrade_never_cancels Demo.env
                   (Demo.authenticated "acme" {| plan := Some "enterprise" |}) w1 _) "sub_1").
  discriminate.
Defined.

(** A body without a plan: the customer is created, nothing is stored. *)
Lemma upgrade_without_plan_witness :
  let r := upgrade Demo.env (Demo.authenticated "acme" {| plan := None |}) Demo.world in
  platformDb r.2 = platformDb Demo.world ∧
  calls_during Demo.world r.2 = [CustomersCreate "alice@acme.test" "A B" "5" "acme"].
Proof.
  destruct (upgrade_without_plan Demo.env (Demo.authenticated "acme" {| plan := None |})
              Demo.world Demo.acme) as (Hp & _ & _ & Hc).
  - reflexivity.
  - reflexivity.
  - split; [exact Hp|]. exact (proj1 (Hc eq_refl)).
Defined.

(** acme, on standard with the subscription sub_1, goes back to free. *)
Lemma downgrade_to_free_witness :
  let w1 := (upgrade Demo.env Demo.upgrade_request Demo.world).2 in
  calls_during w1
    (upgrade Demo.env (Demo.authenticated "acme" {| plan := Some "free" |}) w1).2
  = [SubscriptionsCancel "sub_1"].
Proof.
  intros w1.
  assert (Hten : ∃ tenant, tenant_by_subdomain w1 "acme" = Some tenant ∧
                           Tenant.stripeSubscriptionId tenant = Some "sub_1").
  { eexists. split; [vm_compute; reflexivity|reflexivity]. }
  destruct Hten as (tenant & Hten & Hsub).
  destruct (downgrade_to_free Demo.env (Demo.authenticated "acme" {| plan := Some "free" |})
              w1 tenant) as (_ & Hc & _).
  - exact Hten.
  - reflexivity.
  - vm_compute. reflexivity.
  - rewrite Hsub in Hc. exact Hc.
Defined.

(** alice, of acme, cancels the subscription of beta. *)
Lemma cancel_route_follows_the_subdomain_witness :
  let r := route_cancel Demo.env (Demo.request "beta" (Some "alice.5") tt) Demo.world in
  r.1 = inr (json 200 (Success "Subscription cancelled successfully")) ∧
  Tenant.subscriptionStatus <$> tenant_by_subdomain r.2 "beta" = Some "cancelled".
Proof.
  assert (Hauth : ∃ req',
    (authenticateTenantUser Demo.env (Demo.request "beta" (Some "alice.5") tt)
                            Demo.world).1 = inr (Next req'))
    by (vm_compute; eauto).
  destruct Hauth as [req' Hauth].
  destruct (cancel_route_follows_the_subdomain Demo.env
              (Demo.request "beta" (Some "alice.5") tt) req' Demo.world Demo.beta)
    as [H1 H2].
  - exact Hauth.
  - reflexivity.
  - intros. eexists. reflexivity.
  - split; [exact H1|]. exact (f_equal (fmap Tenant.subscriptionStatus) H2).
Defined.

(** beta is upgraded to standard; alice, of acme, reads the subscription
    of beta. *)
Lemma upgraded_plan_is_reported_witness :
  let w1 := (upgrade Demo.env (Demo.authenticated "beta" {| plan := Some "standard" |})
                     Demo.world).2 in
  ∃ customerId,
    (route_get_subscription Demo.env (Demo.request "beta" (Some "alice.5") tt) w1).1
    = inr (Rows 200 {| sd_plan := "standard";
                       sd_status := "active";
                       sd_stripeCustomerId := Some customerId;
                       sd_stripeSubscriptionId := Some "sub_1";
                       sd_nextBilling := Some 2592001000 |}).
Proof.
  intros w1.
  assert (Hauth : ∃ read',
    (authenticateTenantUser Demo.env (Demo.request "beta" (Some "alice.5") tt) w1).1
    = inr (Next read')) by (vm_compute; eauto).
  destruct Hauth as [read' Hauth].
  destruct (upgraded_plan_is_reported Demo.env
              (Demo.authenticated "beta" {| plan := Some "standard" |})
              (Demo.request "beta" (Some "alice.5") tt) read' Demo.world
              "sub_1" (Some "pi_secret") "active") as (p & customerId & Hp & H).
  - vm_compute. reflexivity.
  - reflexivity.
  - exact Hauth.
  - simpl in Hp. injection Hp as <-. exists customerId. exact H.
Defined.

(** The store holds customers of tenants 5 and 6; alice gets those of 5. *)
Lemma customer_listing_is_tenant_scoped_witness :
  let rows := [Scenes.customer_row 1 5 "north"; Scenes.customer_row 3 5 "west"] in
  (route_get_customers Demo.env (Demo.request "acme" (Some "alice.5") tt)
                       Scenes.world_shared).1 = inr (Rows 200 rows) ∧
  Forall (λ c, Customer.tenantId c = 5) rows.
Proof.
  intros rows.
  assert (Hres : (route_get_customers Demo.env (Demo.request "acme" (Some "alice.5") tt)
                    Scenes.world_shared).1 = inr (Rows 200 rows))
    by (vm_compute; reflexivity).
  split; [exact Hres|].
  destruct (customer_listing_is_tenant_scoped Demo.env
              (Demo.request "acme" (Some "alice.5") tt) Scenes.world_shared
              Demo.alice_claims empty_wf (demo_presents_alice _ _ _)) as (_ & _ & H).
  destruct (H 200 rows Hres) as (_ & Hall & _).
  apply Forall_forall. exact Hall.
Defined.

(** alice creates a customer with a body that names tenant 999, and
    reads it back. *)
Lemma created_customer_is_listed_witness :
  ∃ row rows,
    (route_get_customers Demo.env (Demo.request "acme" (Some "alice.5") tt)
       (route_create_customer Demo.env Scenes.customer_request Demo.world).2).1
    = inr (Rows 200 rows) ∧
    row ∈ rows.
Proof.
  assert (Hres : ∃ row,
    (route_create_customer Demo.env Scenes.customer_request Demo.world).1
    = inr (json 201 (CustomerJson row))) by (vm_compute; eauto).
  destruct Hres as [row Hres].
  assert (Hrows : ∃ rows,
    (route_get_customers Demo.env (Demo.request "acme" (Some "alice.5") tt)
       (route_create_customer Demo.env Scenes.customer_request Demo.world).2).1
    = inr (Rows 200 rows)) by (vm_compute; eauto).
  destruct Hrows as [rows Hrows].
  exists row, rows. split; [exact Hrows|].
  apply (created_customer_is_listed Demo.env Scenes.customer_request
           (Demo.request "acme" (Some "alice.5") tt) Demo.world
           Demo.alice_claims Demo.alice_claims row empty_wf
           (demo_presents_alice _ _ _) Hres (demo_presents_alice _ _ _) eq_refl
           200 rows Hrows).
Defined.

(** The store holds timesheets and expenses of users 1 and 2; alice, an
    admin of the tenant, gets those of user 1. *)
Lemma own_timesheets_and_expenses_only_witness :
  let timesheets := [Scenes.timesheet_row 1 1 5] in
  let expenses := [Scenes.expense_row 2 1 5] in
  (route_get_timesheets Demo.env (Demo.request "acme" (Some "alice.5") tt)
                        Scenes.world_shared).1 = inr (Rows 200 timesheets) ∧
  (route_get_expenses Demo.env (Demo.request "acme" (Some "alice.5") tt)
                      Scenes.world_shared).1 = inr (Rows 200 expenses) ∧
  Forall (λ t, Timesheet.userId t = 1) timesheets ∧
  Forall (λ e, Expense.userId e = 1) expenses.
Proof.
  intros timesheets expenses.
  assert (Ht : (route_get_timesheets Demo.env (Demo.request "acme" (Some "alice.5") tt)
                  Scenes.world_shared).1 = inr (Rows 200 timesheets))
    by (vm_compute; reflexivity).
  assert (He : (route_get_expenses Demo.env (Demo.request "acme" (Some "alice.5") tt)
                  Scenes.world_shared).1 = inr (Rows 200 expenses))
    by (vm_compute; reflexivity).
  destruct (own_timesheets_and_expenses_only Demo.env
              (Demo.request "acme" (Some "alice.5") tt) Scenes.world_shared
              Demo.alice_claims empty_wf (demo_presents_alice _ _ _)) as [H1 H2].
  destruct (H1 200 timesheets Ht) as (_ & Hall1 & _).
  destruct (H2 200 expenses He) as (_ & Hall2 & _).
  split; [exact Ht|]. split; [exact He|].
  split; apply Forall_forall; assumption.
Defined.

(** The token of alice, a tenant user with the id 1, opens the platform
    as the super admin with the id 1. *)
Lemma platform_middleware_ignores_the_token_type_witness :
  authenticatePlatformUser Demo.env [Scenes.root] Scenes.platform_request Demo.world
  = (inr (PlatformNext {| p_authorization := Some "Bearer alice.5";
                          p_platformToken := None;
                          p_user := Some Scenes.root |}), Demo.world).
Proof.
  refine (proj1 (platform_middleware_ignores_the_token_type Demo.env [Scenes.root]
                   Scenes.platform_request Demo.world "alice.5" Demo.alice_claims
                   Scenes.root _ _ _ _ _)).
  - reflexivity.
  - discriminate.
  - reflexivity.
  - reflexivity.
  - reflexivity.
Defined.

End extra_witnesses.
